(** * AttendX server: a shallow embedding of [server.js]

    The server keeps no state of its own besides the variable [pool]; every
    data endpoint sends parameterised statements to a relational store whose
    three tables are declared by [initDatabase].  The embedding threads the
    store and the list of statements sent so far through the handlers, and
    models a store failure as the exception the handler's [catch] turns into a
    500 response.

    Conventions.
    - A request field is absent ([undefined]), JSON [null] or a JSON string.
    - A [string] is a sequence of characters the store's text types accept;
      a column width counts these characters.
    - A store column that admits NULL holds an [option string].
    - The store is reachable and refuses a statement only for a constraint
      the schema declares (a width, NOT NULL, a primary or a foreign key); a
      connection that is lost or times out is outside the embedding.
    - A table is a list of rows in the order of insertion, and an UPDATE
      keeps a row in its place; the store promises no order, and no property
      below depends on one beyond what it states. *)

From Stdlib Require Import String Ascii List Bool Arith NArith Lia.
From Stdlib Require Import DecimalString.
Import ListNotations.
Local Open Scope string_scope.
Local Open Scope list_scope.

(** ** JavaScript values of request fields *)

Inductive jsval : Type :=
| JUndefined
| JNull
| JStr (s : string).

(** Truthiness, as used by [x || ''].  *)
Definition truthy (v : jsval) : bool :=
  match v with
  | JStr s => negb (s =? "")
  | _ => false
  end.

(** [v || ''] *)
Definition or_empty (v : jsval) : jsval :=
  if truthy v then v else JStr "".

(** [v !== undefined] *)
Definition defined (v : jsval) : bool :=
  match v with
  | JUndefined => false
  | _ => true
  end.

(** A value interpolated in a template literal. *)
Definition template (v : jsval) : string :=
  match v with
  | JUndefined => "undefined"
  | JNull => "null"
  | JStr s => s
  end.

(** ** Values sent to and held by the store *)

Definition sqlval : Type := option string.

(** The driver sends [undefined] and [null] as NULL. *)
Definition prepareValue (v : jsval) : sqlval :=
  match v with
  | JStr s => Some s
  | _ => None
  end.

(** A column of a result row, as the driver hands it back. *)
Definition from_sql (v : sqlval) : jsval :=
  match v with
  | Some s => JStr s
  | None => JNull
  end.

(** [a = b] in a WHERE clause: never true when a side is NULL. *)
Definition sql_eq (a b : sqlval) : bool :=
  match a, b with
  | Some x, Some y => x =? y
  | _, _ => false
  end.

Fixpoint take (n : nat) (s : string) : string :=
  match n, s with
  | S n', String c s' => String c (take n' s')
  | _, _ => EmptyString
  end.

Fixpoint drop (n : nat) (s : string) : string :=
  match n, s with
  | S n', String _ s' => drop n' s'
  | _, _ => s
  end.

Fixpoint all_spaces (s : string) : bool :=
  match s with
  | EmptyString => true
  | String c s' => Ascii.eqb c " "%char && all_spaces s'
  end.

(** Decimal rendering of a non-negative integer, as a template literal
    renders [Date.now()] and [paramIndex]. *)
Definition decimal (n : N) : string :=
  NilEmpty.string_of_uint (N.to_uint n).

(** ** The store *)

Inductive pg_error : Type :=
| StringTooLong (width : nat)
| NotNullViolation (table column : string)
| UniqueViolation (table : string)
| ForeignKeyViolation (table referenced : string).

(** What a handler's [try] block can throw. *)
Inductive exn : Type :=
| PgError (e : pg_error)
| TypeError.

Definition res (A : Type) : Type := (pg_error + A)%type.

Definition res_bind {A B} (r : res A) (k : A -> res B) : res B :=
  match r with
  | inl e => inl e
  | inr a => k a
  end.

Notation "'check' x <- r ; k" := (res_bind r (fun x => k))
  (at level 10, x name, r at level 100, k at level 200).

(** Assignment to a [VARCHAR(width)] column: a longer value is an error
    unless the excess is all spaces, in which case it is cut to the width. *)
Definition varchar (width : nat) (v : sqlval) : res sqlval :=
  match v with
  | None => inr None
  | Some s =>
      if Nat.leb (String.length s) width then inr (Some s)
      else if all_spaces (drop width s) then inr (Some (take width s))
      else inl (StringTooLong width)
  end.

Definition not_null (table column : string) (v : sqlval) : res string :=
  match v with
  | Some s => inr s
  | None => inl (NotNullViolation table column)
  end.

(** [employees(id PK, name NOT NULL, email, phone, address TEXT, department,
    outlet)] *)
Record employee_row : Type := mkEmployee {
  e_id : string;
  e_name : string;
  e_email : sqlval;
  e_phone : sqlval;
  e_address : sqlval;
  e_department : sqlval;
  e_outlet : sqlval
}.

(** [departments(id PK, name NOT NULL, description TEXT, outlet)] *)
Record department_row : Type := mkDepartment {
  d_id : string;
  d_name : string;
  d_description : sqlval;
  d_outlet : sqlval
}.

(** [attendance(id PK, employee_id REFERENCES employees(id) ON DELETE
    CASCADE, date NOT NULL, status VARCHAR(50) NOT NULL, outlet)] *)
Record attendance_row : Type := mkAttendance {
  a_id : string;
  a_employee_id : sqlval;
  a_date : string;
  a_status : string;
  a_outlet : sqlval
}.

Record store : Type := mkStore {
  employees : list employee_row;
  departments : list department_row;
  attendance : list attendance_row
}.

Definition empty_store : store := mkStore [] [] [].

Definition set_employees (l : list employee_row) (s : store) : store :=
  mkStore l (departments s) (attendance s).
Definition set_departments (l : list department_row) (s : store) : store :=
  mkStore (employees s) l (attendance s).
Definition set_attendance (l : list attendance_row) (s : store) : store :=
  mkStore (employees s) (departments s) l.

(** ** The statements the handlers send

    One definition per SQL text of [server.js]; each takes the statement's
    parameters and the store, and gives the rows of the result and the new
    store, or the store's error.  An INSERT coerces the values to the column
    types, then checks NOT NULL, the primary key and the foreign key. *)

Module Sql.

(** [SELECT * FROM employees] *)
Definition select_employees (s : store) : res (list employee_row * store) :=
  inr (employees s, s).

(** [INSERT INTO employees (id, name, email, phone, address, department,
    outlet) VALUES ($1, ..., $7) RETURNING *] *)
Definition insert_employee (id name email phone address department outlet : sqlval)
    (s : store) : res (list employee_row * store) :=
  check id1 <- varchar 255 id;
  check name1 <- varchar 255 name;
  check email1 <- varchar 255 email;
  check phone1 <- varchar 255 phone;
  check department1 <- varchar 255 department;
  check outlet1 <- varchar 255 outlet;
  check id2 <- not_null "employees" "id" id1;
  check name2 <- not_null "employees" "name" name1;
  if existsb (fun r => e_id r =? id2) (employees s)
  then inl (UniqueViolation "employees")
  else
    let row := mkEmployee id2 name2 email1 phone1 address department1 outlet1 in
    inr ([row], set_employees (employees s ++ [row]) s).

Inductive employee_column : Type :=
| Cname | Cemail | Cphone | Caddress | Cdepartment | Coutlet.

Definition column_name (c : employee_column) : string :=
  match c with
  | Cname => "name"
  | Cemail => "email"
  | Cphone => "phone"
  | Caddress => "address"
  | Cdepartment => "department"
  | Coutlet => "outlet"
  end.

Definition coerce_column (c : employee_column) (v : sqlval) : res sqlval :=
  match c with
  | Caddress => inr v
  | _ => varchar 255 v
  end.

Fixpoint coerce_sets (sets : list (employee_column * sqlval))
    : res (list (employee_column * sqlval)) :=
  match sets with
  | [] => inr []
  | (c, v) :: rest =>
      check v1 <- coerce_column c v;
      check rest1 <- coerce_sets rest;
      inr ((c, v1) :: rest1)
  end.

Fixpoint check_sets (sets : list (employee_column * sqlval)) : res unit :=
  match sets with
  | [] => inr tt
  | (Cname, None) :: _ => inl (NotNullViolation "employees" "name")
  | _ :: rest => check_sets rest
  end.

Definition set_column (r : employee_row) (cv : employee_column * sqlval)
    : employee_row :=
  match cv with
  | (Cname, v) =>
      mkEmployee (e_id r) (match v with Some n => n | None => e_name r end)
        (e_email r) (e_phone r) (e_address r) (e_department r) (e_outlet r)
  | (Cemail, v) =>
      mkEmployee (e_id r) (e_name r) v (e_phone r) (e_address r)
        (e_department r) (e_outlet r)
  | (Cphone, v) =>
      mkEmployee (e_id r) (e_name r) (e_email r) v (e_address r)
        (e_department r) (e_outlet r)
  | (Caddress, v) =>
      mkEmployee (e_id r) (e_name r) (e_email r) (e_phone r) v
        (e_department r) (e_outlet r)
  | (Cdepartment, v) =>
      mkEmployee (e_id r) (e_name r) (e_email r) (e_phone r) (e_address r)
        v (e_outlet r)
  | (Coutlet, v) =>
      mkEmployee (e_id r) (e_name r) (e_email r) (e_phone r) (e_address r)
        (e_department r) v
  end.

(** [UPDATE employees SET c1 = $1, ..., ck = $k WHERE id = $k+1 RETURNING *].
    The parameters are coerced to the column types before any row is looked
    at, so a value too wide is an error even when no row has the id; NOT NULL
    is checked on the rows the WHERE clause keeps. *)
Definition update_employee (sets : list (employee_column * sqlval)) (id : sqlval)
    (s : store) : res (list employee_row * store) :=
  let hit r := sql_eq (Some (e_id r)) id in
  check sets1 <- coerce_sets sets;
  if existsb hit (employees s) then
    check _ <- check_sets sets1;
    let upd r := if hit r then fold_left set_column sets1 r else r in
    inr (map upd (filter hit (employees s)),
         set_employees (map upd (employees s)) s)
  else inr ([], s).

(** [DELETE FROM attendance WHERE employee_id = $1] *)
Definition delete_attendance_of (id : sqlval) (s : store)
    : res (list attendance_row * store) :=
  let hit r := sql_eq (a_employee_id r) id in
  inr (filter hit (attendance s),
       set_attendance (filter (fun r => negb (hit r)) (attendance s)) s).

(** [DELETE FROM employees WHERE id = $1 RETURNING *]; each deleted row
    takes the attendance rows that reference it along (ON DELETE CASCADE). *)
Definition delete_employee (id : sqlval) (s : store)
    : res (list employee_row * store) :=
  let hit r := sql_eq (Some (e_id r)) id in
  let deleted := filter hit (employees s) in
  let orphan a := existsb (fun e => sql_eq (a_employee_id a) (Some (e_id e))) deleted in
  inr (deleted,
       mkStore (filter (fun r => negb (hit r)) (employees s))
               (departments s)
               (filter (fun a => negb (orphan a)) (attendance s))).

(** [SELECT * FROM departments] *)
Definition select_departments (s : store) : res (list department_row * store) :=
  inr (departments s, s).

(** [INSERT INTO departments (id, name, description, outlet) VALUES ($1, $2,
    $3, $4) RETURNING *] *)
Definition insert_department (id name description outlet : sqlval) (s : store)
    : res (list department_row * store) :=
  check id1 <- varchar 255 id;
  check name1 <- varchar 255 name;
  check outlet1 <- varchar 255 outlet;
  check id2 <- not_null "departments" "id" id1;
  check name2 <- not_null "departments" "name" name1;
  if existsb (fun r => d_id r =? id2) (departments s)
  then inl (UniqueViolation "departments")
  else
    let row := mkDepartment id2 name2 description outlet1 in
    inr ([row], set_departments (departments s ++ [row]) s).

(** [DELETE FROM departments WHERE id = $1 RETURNING *] *)
Definition delete_department (id : sqlval) (s : store)
    : res (list department_row * store) :=
  let hit r := sql_eq (Some (d_id r)) id in
  inr (filter hit (departments s),
       set_departments (filter (fun r => negb (hit r)) (departments s)) s).

(** [SELECT * FROM attendance] *)
Definition select_attendance (s : store) : res (list attendance_row * store) :=
  inr (attendance s, s).

(** [SELECT outlet FROM employees WHERE id = $1] *)
Definition select_outlet (id : sqlval) (s : store) : res (list sqlval * store) :=
  inr (map e_outlet (filter (fun r => sql_eq (Some (e_id r)) id) (employees s)), s).

(** The WHERE clause [employee_id = $1 AND date = $2]. *)
Definition on_day (employee_id date : sqlval) (r : attendance_row) : bool :=
  sql_eq (a_employee_id r) employee_id && sql_eq (Some (a_date r)) date.

(** [SELECT * FROM attendance WHERE employee_id = $1 AND date = $2] *)
Definition select_attendance_on (employee_id date : sqlval) (s : store)
    : res (list attendance_row * store) :=
  inr (filter (on_day employee_id date) (attendance s), s).

Definition with_status (st : string) (r : attendance_row) : attendance_row :=
  mkAttendance (a_id r) (a_employee_id r) (a_date r) st (a_outlet r).

(** [UPDATE attendance SET status = $1 WHERE employee_id = $2 AND date = $3
    RETURNING *]; the status is coerced before any row is looked at, NOT NULL
    is checked on the rows the WHERE clause keeps. *)
Definition update_status (status employee_id date : sqlval) (s : store)
    : res (list attendance_row * store) :=
  let hit := on_day employee_id date in
  check st1 <- varchar 50 status;
  if existsb hit (attendance s) then
    check st2 <- not_null "attendance" "status" st1;
    let upd r := if hit r then with_status st2 r else r in
    inr (map upd (filter hit (attendance s)),
         set_attendance (map upd (attendance s)) s)
  else inr ([], s).

(** [INSERT INTO attendance (id, employee_id, date, status, outlet) VALUES
    ($1, $2, $3, $4, $5) RETURNING *] *)
Definition insert_attendance (id employee_id date status outlet : sqlval)
    (s : store) : res (list attendance_row * store) :=
  check id1 <- varchar 255 id;
  check employee_id1 <- varchar 255 employee_id;
  check date1 <- varchar 255 date;
  check status1 <- varchar 50 status;
  check outlet1 <- varchar 255 outlet;
  check id2 <- not_null "attendance" "id" id1;
  check date2 <- not_null "attendance" "date" date1;
  check status2 <- not_null "attendance" "status" status1;
  if existsb (fun r => a_id r =? id2) (attendance s)
  then inl (UniqueViolation "attendance")
  else
    let referenced :=
      match employee_id1 with
      | None => true
      | Some e => existsb (fun r => e_id r =? e) (employees s)
      end in
    if referenced then
      let row := mkAttendance id2 employee_id1 date2 status2 outlet1 in
      inr ([row], set_attendance (attendance s ++ [row]) s)
    else inl (ForeignKeyViolation "attendance" "employees").

(** [DELETE FROM attendance WHERE employee_id = $1 AND date = $2 RETURNING *] *)
Definition delete_attendance_on (employee_id date : sqlval) (s : store)
    : res (list attendance_row * store) :=
  let hit := on_day employee_id date in
  inr (filter hit (attendance s),
       set_attendance (filter (fun r => negb (hit r)) (attendance s)) s).

End Sql.

(** ** The server *)

(** A statement as handed to [pool.query(text, values)]. *)
Record statement : Type := mkStatement {
  text : string;
  values : list sqlval
}.

(** [pool] is set only when a connection string is configured; [db] is the
    store behind it and [sent] the statements the handlers have sent. *)
Record world : Type := mkWorld {
  pool : bool;
  db : store;
  sent : list statement
}.

Definition initial (configured : bool) : world :=
  mkWorld configured empty_store [].

(** The body of a [try] block: it reads and writes the world and may throw. *)
Definition Q (A : Type) : Type := world -> (exn + A) * world.

Definition ret {A} (a : A) : Q A := fun w => (inr a, w).

Definition throw {A} (e : exn) : Q A := fun w => (inl e, w).

Definition bind {A B} (m : Q A) (k : A -> Q B) : Q B :=
  fun w =>
    match m w with
    | (inl e, w1) => (inl e, w1)
    | (inr a, w1) => k a w1
    end.

Notation "'await' x <- m ; k" := (bind m (fun x => k))
  (at level 10, x name, m at level 100, k at level 200).

(** [await pool.query(text, values)]: the statement reaches the store, which
    runs it; the store's refusal of the statement is thrown, and leaves the
    store as it was before the statement. *)
Definition pool_query {A} (text : string) (values : list jsval)
    (run : store -> res (A * store)) : Q A :=
  fun w =>
    let log := sent w ++ [mkStatement text (map prepareValue values)] in
    match run (db w) with
    | inl e => (inl (PgError e), mkWorld (pool w) (db w) log)
    | inr (a, s) => (inr a, mkWorld (pool w) s log)
    end.

(** *** Responses *)

Inductive message : Type :=
| Text (s : string)
| ErrorMessage (e : exn).

(** An attendance row as the API shows it. *)
Record attendance_json : Type := mkAttendanceJson {
  j_id : string;
  j_employeeId : sqlval;
  j_date : string;
  j_status : string;
  j_outlet : sqlval
}.

Definition to_json (r : attendance_row) : attendance_json :=
  mkAttendanceJson (a_id r) (a_employee_id r) (a_date r) (a_status r) (a_outlet r).

Inductive json : Type :=
| JError (error : message)
| JSuccess
| JEmployees (rows : list employee_row)
| JEmployee (row : option employee_row)
| JDepartments (rows : list department_row)
| JDepartment (row : option department_row)
| JAttendances (rows : list attendance_json)
| JAttendance (row : attendance_json).

Record response : Type := mkResponse {
  status : nat;
  body : json
}.

(** The frame every data handler shares: the guard on [pool], the [try]
    block, and the [catch] that answers 500 with the error's message. *)
Definition handler (block : Q response) (w : world) : response * world :=
  if negb (pool w) then (mkResponse 503 (JError (Text "Database not available")), w)
  else
    match block w with
    | (inr r, w1) => (r, w1)
    | (inl e, w1) => (mkResponse 500 (JError (ErrorMessage e)), w1)
    end.

(** *** Request bodies *)

Record employee_body : Type := mkEmployeeBody {
  eb_name : jsval;
  eb_email : jsval;
  eb_phone : jsval;
  eb_address : jsval;
  eb_department : jsval;
  eb_outlet : jsval
}.

Record department_body : Type := mkDepartmentBody {
  db_name : jsval;
  db_description : jsval;
  db_outlet : jsval
}.

Record attendance_body : Type := mkAttendanceBody {
  ab_employeeId : jsval;
  ab_date : jsval;
  ab_status : jsval
}.

(** *** Employees *)

(** [GET /api/employees] *)
Definition get_employees : world -> response * world :=
  handler (
    await rows <- pool_query "SELECT * FROM employees" [] Sql.select_employees;
    ret (mkResponse 200 (JEmployees rows))).

(** [`emp-${Date.now()}`] *)
Definition employee_id (now : N) : string := ("emp-" ++ decimal now)%string.

(** [POST /api/employees]; [now] is what [Date.now()] returns. *)
Definition post_employees (now : N) (b : employee_body) : world -> response * world :=
  handler (
    let id := JStr (employee_id now) in
    let email := or_empty (eb_email b) in
    let address := or_empty (eb_address b) in
    let department := or_empty (eb_department b) in
    await rows <- pool_query
      "INSERT INTO employees (id, name, email, phone, address, department, outlet) VALUES ($1, $2, $3, $4, $5, $6, $7) RETURNING *"
      [id; eb_name b; email; eb_phone b; address; department; eb_outlet b]
      (Sql.insert_employee (prepareValue id) (prepareValue (eb_name b))
         (prepareValue email) (prepareValue (eb_phone b)) (prepareValue address)
         (prepareValue department) (prepareValue (eb_outlet b)));
    ret (mkResponse 201 (JEmployee (hd_error rows)))).

(** The state of the loop-free builder of the PATCH handler; [sets] pairs
    each pushed placeholder with its column and value. *)
Record builder : Type := mkBuilder {
  updateFields : list string;
  params : list jsval;
  sets : list (Sql.employee_column * sqlval);
  paramIndex : N
}.

(** [if (v !== undefined) { updateFields.push(`c = $${paramIndex++}`);
    values.push(v); }] *)
Definition provide (c : Sql.employee_column) (v : jsval) (b : builder) : builder :=
  if defined v then
    mkBuilder
      (updateFields b ++ [(Sql.column_name c ++ " = $" ++ decimal (paramIndex b))%string])
      (params b ++ [v])
      (sets b ++ [(c, prepareValue v)])
      (paramIndex b + 1)
  else b.

Definition build (b : employee_body) : builder :=
  provide Sql.Coutlet (eb_outlet b)
    (provide Sql.Cdepartment (eb_department b)
      (provide Sql.Caddress (eb_address b)
        (provide Sql.Cphone (eb_phone b)
          (provide Sql.Cemail (eb_email b)
            (provide Sql.Cname (eb_name b)
              (mkBuilder [] [] [] 1)))))).

(** [PATCH /api/employees/:id] *)
Definition patch_employee (id : string) (b : employee_body) : world -> response * world :=
  handler (
    let u := build b in
    if Nat.eqb (List.length (updateFields u)) 0 then
      ret (mkResponse 400 (JError (Text "No fields to update")))
    else
      let query :=
        ("UPDATE employees SET " ++ String.concat ", " (updateFields u)
         ++ " WHERE id = $" ++ decimal (paramIndex u) ++ " RETURNING *")%string in
      await rows <- pool_query query (params u ++ [JStr id])
                      (Sql.update_employee (sets u) (Some id));
      if Nat.eqb (List.length rows) 0 then
        ret (mkResponse 404 (JError (Text "Employee not found")))
      else ret (mkResponse 200 (JEmployee (hd_error rows)))).

(** [DELETE /api/employees/:id] *)
Definition delete_employee (id : string) : world -> response * world :=
  handler (
    await _ <- pool_query "DELETE FROM attendance WHERE employee_id = $1"
                 [JStr id] (Sql.delete_attendance_of (Some id));
    await rows <- pool_query "DELETE FROM employees WHERE id = $1 RETURNING *"
                    [JStr id] (Sql.delete_employee (Some id));
    if Nat.eqb (List.length rows) 0 then
      ret (mkResponse 404 (JError (Text "Employee not found")))
    else ret (mkResponse 200 JSuccess)).

(** *** Departments *)

(** [GET /api/departments] *)
Definition get_departments : world -> response * world :=
  handler (
    await rows <- pool_query "SELECT * FROM departments" [] Sql.select_departments;
    ret (mkResponse 200 (JDepartments rows))).

(** [`dept-${Date.now()}`] *)
Definition department_id (now : N) : string := ("dept-" ++ decimal now)%string.

(** [POST /api/departments] *)
Definition post_departments (now : N) (b : department_body) : world -> response * world :=
  handler (
    let id := JStr (department_id now) in
    let description := or_empty (db_description b) in
    await rows <- pool_query
      "INSERT INTO departments (id, name, description, outlet) VALUES ($1, $2, $3, $4) RETURNING *"
      [id; db_name b; description; db_outlet b]
      (Sql.insert_department (prepareValue id) (prepareValue (db_name b))
         (prepareValue description) (prepareValue (db_outlet b)));
    ret (mkResponse 201 (JDepartment (hd_error rows)))).

(** [DELETE /api/departments/:id] *)
Definition delete_department (id : string) : world -> response * world :=
  handler (
    await rows <- pool_query "DELETE FROM departments WHERE id = $1 RETURNING *"
                    [JStr id] (Sql.delete_department (Some id));
    if Nat.eqb (List.length rows) 0 then
      ret (mkResponse 404 (JError (Text "Department not found")))
    else ret (mkResponse 200 JSuccess)).

(** *** Attendance *)

(** [GET /api/attendance] *)
Definition get_attendance : world -> response * world :=
  handler (
    await rows <- pool_query "SELECT * FROM attendance" [] Sql.select_attendance;
    ret (mkResponse 200 (JAttendances (map to_json rows)))).

(** [`${employeeId}-${date}`] *)
Definition attendance_id (employeeId date : jsval) : string :=
  (template employeeId ++ "-" ++ template date)%string.

(** [POST /api/attendance]: the upsert. *)
Definition post_attendance (b : attendance_body) : world -> response * world :=
  handler (
    let employeeId := ab_employeeId b in
    let date := ab_date b in
    let status := ab_status b in
    let id := JStr (attendance_id employeeId date) in
    await employeeResult <- pool_query "SELECT outlet FROM employees WHERE id = $1"
                              [employeeId] (Sql.select_outlet (prepareValue employeeId));
    let outlet := match employeeResult with
                  | o :: _ => from_sql o
                  | [] => JNull
                  end in
    await existingRecord <- pool_query
      "SELECT * FROM attendance WHERE employee_id = $1 AND date = $2"
      [employeeId; date]
      (Sql.select_attendance_on (prepareValue employeeId) (prepareValue date));
    let exists_ := Nat.ltb 0 (List.length existingRecord) in
    await result <-
      (if exists_ then
         pool_query
           "UPDATE attendance SET status = $1 WHERE employee_id = $2 AND date = $3 RETURNING *"
           [status; employeeId; date]
           (Sql.update_status (prepareValue status) (prepareValue employeeId)
              (prepareValue date))
       else
         pool_query
           "INSERT INTO attendance (id, employee_id, date, status, outlet) VALUES ($1, $2, $3, $4, $5) RETURNING *"
           [id; employeeId; date; status; outlet]
           (Sql.insert_attendance (prepareValue id) (prepareValue employeeId)
              (prepareValue date) (prepareValue status) (prepareValue outlet)));
    match result with
    | [] => throw TypeError
    | r :: _ => ret (mkResponse (if exists_ then 200 else 201) (JAttendance (to_json r)))
    end).

(** [DELETE /api/attendance/:employeeId/:date] *)
Definition delete_attendance (employeeId date : string) : world -> response * world :=
  handler (
    await rows <- pool_query
      "DELETE FROM attendance WHERE employee_id = $1 AND date = $2 RETURNING *"
      [JStr employeeId; JStr date]
      (Sql.delete_attendance_on (Some employeeId) (Some date));
    if Nat.eqb (List.length rows) 0 then
      ret (mkResponse 404 (JError (Text "Attendance record not found")))
    else ret (mkResponse 200 JSuccess)).

(** *** The data endpoints together *)

Inductive request : Type :=
| GetEmployees
| PostEmployees (now : N) (b : employee_body)
| PatchEmployee (id : string) (b : employee_body)
| DeleteEmployee (id : string)
| GetDepartments
| PostDepartments (now : N) (b : department_body)
| DeleteDepartment (id : string)
| GetAttendance
| PostAttendance (b : attendance_body)
| DeleteAttendance (employeeId date : string).

Definition handle (r : request) : world -> response * world :=
  match r with
  | GetEmployees => get_employees
  | PostEmployees now b => post_employees now b
  | PatchEmployee id b => patch_employee id b
  | DeleteEmployee id => delete_employee id
  | GetDepartments => get_departments
  | PostDepartments now b => post_departments now b
  | DeleteDepartment id => delete_department id
  | GetAttendance => get_attendance
  | PostAttendance b => post_attendance b
  | DeleteAttendance employeeId date => delete_attendance employeeId date
  end.

(** The world after a sequence of requests, served one after the other. *)
Definition serve (rs : list request) (w : world) : world :=
  fold_left (fun w r => snd (handle r w)) rs w.

(** The worlds the server can reach from freshly created tables. *)
Inductive reachable : world -> Prop :=
| reachable_initial : forall configured, reachable (initial configured)
| reachable_handle : forall w r, reachable w -> reachable (snd (handle r w)).

(** * Properties *)

(** ** Strings and column widths *)

Section Strings.

Lemma length_append (a b : string) :
  String.length (a ++ b)%string = String.length a + String.length b.
Proof. induction a as [|c a IH]; simpl; [reflexivity | now rewrite IH]. Qed.

Lemma append_assoc (a b c : string) :
  ((a ++ b) ++ c = a ++ (b ++ c))%string.
Proof. induction a as [|x a IH]; simpl; [reflexivity | now rewrite IH]. Qed.

Lemma take_all (n : nat) (s : string) :
  String.length s <= n -> take n s = s.
Proof.
  revert n; induction s as [|c s IH]; intros [|n] H; simpl in *;
    try reflexivity; try lia.
  rewrite IH by lia; reflexivity.
Qed.

Lemma take_take (m k : nat) (s : string) :
  m <= k -> take m (take k s) = take m s.
Proof.
  revert k s; induction m as [|m IH]; intros k s H; [reflexivity|].
  destruct k as [|k]; [lia|].
  destruct s as [|c s]; simpl; [reflexivity|].
  rewrite IH by lia; reflexivity.
Qed.

(** Cutting the right operand first does not change a cut of the whole. *)
Lemma take_append_r (m k : nat) (a b : string) :
  m <= k -> take m (a ++ take k b) = take m (a ++ b).
Proof.
  revert m; induction a as [|c a IH]; intros m H; simpl.
  - now apply take_take.
  - destruct m as [|m]; [reflexivity|].
    simpl; rewrite IH by lia; reflexivity.
Qed.

(** Nor does cutting the left operand first. *)
Lemma take_append_l (n : nat) (a b : string) :
  take n (take n a ++ b) = take n (a ++ b).
Proof.
  revert a; induction n as [|n IH]; intros a; [reflexivity|].
  destruct a as [|c a]; simpl; [reflexivity|].
  rewrite IH; reflexivity.
Qed.

(** What a successful assignment to a [VARCHAR] column stores. *)
Lemma varchar_stores (n : nat) (s : string) (v : sqlval) :
  varchar n (Some s) = inr v -> v = Some (take n s).
Proof.
  unfold varchar.
  destruct (Nat.leb (String.length s) n) eqn:E.
  - apply Nat.leb_le in E. intros H; inversion H; subst.
    now rewrite take_all.
  - destruct (all_spaces (drop n s)); intros H; inversion H; reflexivity.
Qed.

Lemma varchar_stores_string (n : nat) (s s' : string) :
  varchar n (Some s) = inr (Some s') -> s' = take n s.
Proof. intros H; apply varchar_stores in H; congruence. Qed.

Lemma varchar_fits (n : nat) (s : string) :
  String.length s <= n -> varchar n (Some s) = inr (Some s).
Proof.
  intros H; unfold varchar.
  apply Nat.leb_le in H; rewrite H; reflexivity.
Qed.

Lemma varchar_null (n : nat) (v : sqlval) :
  varchar n None = inr v -> v = None.
Proof. simpl; intros H; inversion H; reflexivity. Qed.

Lemma varchar_error (n : nat) (v : sqlval) (e : pg_error) :
  varchar n v = inl e -> e = StringTooLong n.
Proof.
  destruct v as [s|]; simpl; [|discriminate].
  destruct (Nat.leb _ _); [discriminate|].
  destruct (all_spaces _); [discriminate|].
  intros H; inversion H; reflexivity.
Qed.

Lemma sql_eq_true (a b : sqlval) :
  sql_eq a b = true <-> exists s, a = Some s /\ b = Some s.
Proof.
  destruct a as [x|], b as [y|]; simpl; split;
    try discriminate; try (intros (s & H1 & H2); discriminate).
  - intros H; apply String.eqb_eq in H; subst; eauto.
  - intros (s & H1 & H2); inversion H1; inversion H2; subst.
    apply String.eqb_refl.
Qed.

End Strings.

(** ** Lists of rows *)

Section Rows.

Context {A : Type}.

Lemma filter_nil_existsb (p : A -> bool) (l : list A) :
  filter p l = [] <-> existsb p l = false.
Proof.
  induction l as [|x l IH]; simpl; [tauto|].
  destruct (p x); simpl; [split; discriminate | exact IH].
Qed.

Lemma filter_negb_self (p : A -> bool) (l : list A) :
  filter p (filter (fun x => negb (p x)) l) = [].
Proof.
  induction l as [|x l IH]; simpl; [reflexivity|].
  destruct (p x) eqn:E; simpl; [exact IH | now rewrite E].
Qed.

Lemma filter_all (p : A -> bool) (l : list A) :
  (forall x, In x l -> p x = true) -> filter p l = l.
Proof.
  induction l as [|x l IH]; simpl; intros H; [reflexivity|].
  rewrite (H x) by now left.
  f_equal; apply IH; intros y Hy; apply H; now right.
Qed.

End Rows.

(** ** The guard on [pool] *)

Section Guard.

Lemma handler_no_pool (block : Q response) (w : world) :
  pool w = false ->
  handler block w =
    (mkResponse 503 (JError (Text "Database not available")), w).
Proof. intros H; unfold handler; rewrite H; reflexivity. Qed.

Lemma handler_pool (block : Q response) (w : world) :
  pool w = true ->
  handler block w =
    match block w with
    | (inr r, w1) => (r, w1)
    | (inl e, w1) => (mkResponse 500 (JError (ErrorMessage e)), w1)
    end.
Proof. intros H; unfold handler; rewrite H; reflexivity. Qed.

(** C9. Without a configured connection ([pool] unset) every employees,
    departments and attendance endpoint answers 503 and leaves the world as
    it was: the store is untouched and no statement is added to those sent. *)
Theorem no_pool_answers_503 (r : request) (w : world) :
  pool w = false ->
  fst (handle r w) = mkResponse 503 (JError (Text "Database not available"))
  /\ snd (handle r w) = w.
Proof.
  intros H.
  assert (E : handle r w =
              (mkResponse 503 (JError (Text "Database not available")), w))
    by (destruct r; apply handler_no_pool; exact H).
  rewrite E; split; reflexivity.
Qed.

Lemma no_pool_answers_503_witness :
  pool (initial false) = false
  /\ fst (handle (DeleteEmployee "emp-1") (initial false))
     = mkResponse 503 (JError (Text "Database not available"))
  /\ snd (handle (DeleteEmployee "emp-1") (initial false)) = initial false.
Proof.
  split; [reflexivity|].
  apply (no_pool_answers_503 (DeleteEmployee "emp-1") (initial false)).
  reflexivity.
Defined.

End Guard.

(** ** Partial update of an employee *)

Section Patch.

(** The body [{}]. *)
Definition no_fields : employee_body :=
  mkEmployeeBody JUndefined JUndefined JUndefined JUndefined JUndefined JUndefined.

(** C5. A PATCH of an employee with no field at all is answered without a
    round trip: whatever the id, the world (store and statements sent) is
    unchanged, and with a configured store the answer is 400, "No fields to
    update". *)
Theorem patch_no_fields (id : string) (w : world) :
  snd (patch_employee id no_fields w) = w
  /\ fst (patch_employee id no_fields w) =
       if pool w then mkResponse 400 (JError (Text "No fields to update"))
       else mkResponse 503 (JError (Text "Database not available")).
Proof.
  unfold patch_employee, handler.
  destruct (pool w); simpl; split; reflexivity.
Qed.

End Patch.

(** ** Required fields *)

Section Required.

Variable w : world.
Hypothesis configured : pool w = true.

Lemma post_employees_runs (now : N) (b : employee_body) :
  post_employees now b w =
    let id := JStr (employee_id now) in
    let email := or_empty (eb_email b) in
    let address := or_empty (eb_address b) in
    let department := or_empty (eb_department b) in
    let log := sent w ++ [mkStatement
      "INSERT INTO employees (id, name, email, phone, address, department, outlet) VALUES ($1, $2, $3, $4, $5, $6, $7) RETURNING *"
      (map prepareValue
         [id; eb_name b; email; eb_phone b; address; department; eb_outlet b])] in
    match Sql.insert_employee (prepareValue id) (prepareValue (eb_name b))
            (prepareValue email) (prepareValue (eb_phone b))
            (prepareValue address) (prepareValue department)
            (prepareValue (eb_outlet b)) (db w) with
    | inl e => (mkResponse 500 (JError (ErrorMessage (PgError e))),
                mkWorld true (db w) log)
    | inr (rows, s) => (mkResponse 201 (JEmployee (hd_error rows)),
                        mkWorld true s log)
    end.
Proof.
  unfold post_employees; rewrite handler_pool by exact configured.
  unfold bind, pool_query, ret; cbv zeta; rewrite configured.
  destruct (Sql.insert_employee _ _ _ _ _ _ _ _) as [e|[rows s]]; reflexivity.
Qed.

Lemma post_departments_runs (now : N) (b : department_body) :
  post_departments now b w =
    let id := JStr (department_id now) in
    let description := or_empty (db_description b) in
    let log := sent w ++ [mkStatement
      "INSERT INTO departments (id, name, description, outlet) VALUES ($1, $2, $3, $4) RETURNING *"
      (map prepareValue [id; db_name b; description; db_outlet b])] in
    match Sql.insert_department (prepareValue id) (prepareValue (db_name b))
            (prepareValue description) (prepareValue (db_outlet b)) (db w) with
    | inl e => (mkResponse 500 (JError (ErrorMessage (PgError e))),
                mkWorld true (db w) log)
    | inr (rows, s) => (mkResponse 201 (JDepartment (hd_error rows)),
                        mkWorld true s log)
    end.
Proof.
  unfold post_departments; rewrite handler_pool by exact configured.
  unfold bind, pool_query, ret; cbv zeta; rewrite configured.
  destruct (Sql.insert_department _ _ _ _ _) as [e|[rows s]]; reflexivity.
Qed.

End Required.

Section RequiredName.

Lemma insert_employee_null_name
    (id : string) (email phone address department outlet : sqlval) (s : store) :
  exists e,
    Sql.insert_employee (Some id) None email phone address department outlet s
      = inl e
    /\ (e = StringTooLong 255 \/ e = NotNullViolation "employees" "name").
Proof.
  unfold Sql.insert_employee, res_bind.
  destruct (varchar 255 (Some id)) as [e|id1] eqn:E1;
    [exists e; split; [reflexivity | left; eapply varchar_error; eauto]|].
  apply varchar_stores in E1; subst id1.
  change (varchar 255 None) with (@inr pg_error sqlval None); cbv iota beta.
  destruct (varchar 255 email) as [e|?] eqn:E2;
    [exists e; split; [reflexivity | left; eapply varchar_error; eauto]|].
  destruct (varchar 255 phone) as [e|?] eqn:E3;
    [exists e; split; [reflexivity | left; eapply varchar_error; eauto]|].
  destruct (varchar 255 department) as [e|?] eqn:E4;
    [exists e; split; [reflexivity | left; eapply varchar_error; eauto]|].
  destruct (varchar 255 outlet) as [e|?] eqn:E5;
    [exists e; split; [reflexivity | left; eapply varchar_error; eauto]|].
  simpl. eexists; split; [reflexivity | right; reflexivity].
Qed.

Lemma insert_department_null_name
    (id : string) (description outlet : sqlval) (s : store) :
  exists e,
    Sql.insert_department (Some id) None description outlet s = inl e
    /\ (e = StringTooLong 255 \/ e = NotNullViolation "departments" "name").
Proof.
  unfold Sql.insert_department, res_bind.
  destruct (varchar 255 (Some id)) as [e|id1] eqn:E1;
    [exists e; split; [reflexivity | left; eapply varchar_error; eauto]|].
  apply varchar_stores in E1; subst id1.
  change (varchar 255 None) with (@inr pg_error sqlval None); cbv iota beta.
  destruct (varchar 255 outlet) as [e|?] eqn:E5;
    [exists e; split; [reflexivity | left; eapply varchar_error; eauto]|].
  simpl. eexists; split; [reflexivity | right; reflexivity].
Qed.

End RequiredName.

(** C4, the code's behaviour.  The handlers do not validate [name]: a POST of
    an employee or a department whose [name] is absent (or null) sends its
    INSERT all the same; the store rejects it, nothing is inserted, and the
    answer is 500 with the store's own error: the NOT NULL violation on
    [name], or a width error raised before it. *)
Theorem create_without_name :
  (forall (now : N) (b : employee_body) (w : world),
      pool w = true -> prepareValue (eb_name b) = None ->
      exists e st,
        post_employees now b w =
          (mkResponse 500 (JError (ErrorMessage (PgError e))),
           mkWorld true (db w) (sent w ++ [st]))
        /\ (e = StringTooLong 255 \/ e = NotNullViolation "employees" "name"))
  /\
  (forall (now : N) (b : department_body) (w : world),
      pool w = true -> prepareValue (db_name b) = None ->
      exists e st,
        post_departments now b w =
          (mkResponse 500 (JError (ErrorMessage (PgError e))),
           mkWorld true (db w) (sent w ++ [st]))
        /\ (e = StringTooLong 255 \/ e = NotNullViolation "departments" "name")).
Proof.
  split; intros now b w Hp Hn.
  - rewrite (post_employees_runs w Hp); cbv zeta; rewrite Hn.
    change (prepareValue (JStr (employee_id now))) with (Some (employee_id now)).
    destruct (insert_employee_null_name (employee_id now)
                (prepareValue (or_empty (eb_email b)))
                (prepareValue (eb_phone b))
                (prepareValue (or_empty (eb_address b)))
                (prepareValue (or_empty (eb_department b)))
                (prepareValue (eb_outlet b)) (db w)) as (e & E & He).
    rewrite E. exists e; eexists; split; [reflexivity | exact He].
  - rewrite (post_departments_runs w Hp); cbv zeta; rewrite Hn.
    change (prepareValue (JStr (department_id now))) with (Some (department_id now)).
    destruct (insert_department_null_name (department_id now)
                (prepareValue (or_empty (db_description b)))
                (prepareValue (db_outlet b)) (db w)) as (e & E & He).
    rewrite E. exists e; eexists; split; [reflexivity | exact He].
Qed.

Lemma create_without_name_witness :
  pool (initial true) = true
  /\ prepareValue (eb_name no_fields) = None
  /\ exists e st,
       post_employees 17%N no_fields (initial true) =
         (mkResponse 500 (JError (ErrorMessage (PgError e))),
          mkWorld true (db (initial true)) (sent (initial true) ++ [st]))
       /\ (e = StringTooLong 255 \/ e = NotNullViolation "employees" "name").
Proof.
  split; [reflexivity|]. split; [reflexivity|].
  apply (proj1 create_without_name 17%N no_fields (initial true));
    reflexivity.
Defined.

(** C4 as stated fails: [POST /api/employees {}] on fresh tables is answered
    500 with the store's NOT NULL violation, not with a 4xx. *)
Lemma create_without_name_is_store_error :
  fst (post_employees 17%N no_fields (initial true)) =
    mkResponse 500
      (JError (ErrorMessage (PgError (NotNullViolation "employees" "name"))))
  /\ ~ (400 <= status (fst (post_employees 17%N no_fields (initial true))) < 500).
Proof. split; [reflexivity | vm_compute; lia]. Qed.

(** ** Defaults on creation *)

Section Creation.

Lemma insert_employee_ok
    (id name email phone address department outlet : sqlval)
    (s s' : store) (rows : list employee_row) :
  Sql.insert_employee id name email phone address department outlet s
    = inr (rows, s') ->
  exists row,
    rows = [row]
    /\ s' = set_employees (employees s ++ [row]) s
    /\ existsb (fun r => e_id r =? e_id row) (employees s) = false
    /\ varchar 255 id = inr (Some (e_id row))
    /\ varchar 255 name = inr (Some (e_name row))
    /\ varchar 255 email = inr (e_email row)
    /\ varchar 255 phone = inr (e_phone row)
    /\ e_address row = address
    /\ varchar 255 department = inr (e_department row)
    /\ varchar 255 outlet = inr (e_outlet row).
Proof.
  unfold Sql.insert_employee, res_bind.
  destruct (varchar 255 id) as [?|id1] eqn:E1; [discriminate|].
  destruct (varchar 255 name) as [?|name1] eqn:E2; [discriminate|].
  destruct (varchar 255 email) as [?|email1] eqn:E3; [discriminate|].
  destruct (varchar 255 phone) as [?|phone1] eqn:E4; [discriminate|].
  destruct (varchar 255 department) as [?|department1] eqn:E5; [discriminate|].
  destruct (varchar 255 outlet) as [?|outlet1] eqn:E6; [discriminate|].
  destruct id1 as [id2|]; [|discriminate].
  destruct name1 as [name2|]; [|discriminate].
  cbn [not_null].
  destruct (existsb _ (employees s)) eqn:E7; [discriminate|].
  intros H; inversion H; subst; clear H.
  eexists; repeat split; eauto.
Qed.

Lemma insert_department_ok
    (id name description outlet : sqlval)
    (s s' : store) (rows : list department_row) :
  Sql.insert_department id name description outlet s = inr (rows, s') ->
  exists row,
    rows = [row]
    /\ s' = set_departments (departments s ++ [row]) s
    /\ existsb (fun r => d_id r =? d_id row) (departments s) = false
    /\ varchar 255 id = inr (Some (d_id row))
    /\ varchar 255 name = inr (Some (d_name row))
    /\ d_description row = description
    /\ varchar 255 outlet = inr (d_outlet row).
Proof.
  unfold Sql.insert_department, res_bind.
  destruct (varchar 255 id) as [?|id1] eqn:E1; [discriminate|].
  destruct (varchar 255 name) as [?|name1] eqn:E2; [discriminate|].
  destruct (varchar 255 outlet) as [?|outlet1] eqn:E6; [discriminate|].
  destruct id1 as [id2|]; [|discriminate].
  destruct name1 as [name2|]; [|discriminate].
  cbn [not_null].
  destruct (existsb _ (departments s)) eqn:E7; [discriminate|].
  intros H; inversion H; subst; clear H.
  eexists; repeat split; eauto.
Qed.

Lemma varchar_empty (n : nat) (v : sqlval) :
  varchar n (Some "") = inr v -> v = Some "".
Proof. simpl; intros H; inversion H; reflexivity. Qed.

(** Listing right after a row was appended under a fresh key. *)
Lemma appended_once {A : Type} (key : A -> string) (l : list A) (row : A) :
  existsb (fun r => key r =? key row) l = false ->
  filter (fun r => key r =? key row) (l ++ [row]) = [row].
Proof.
  intros H; rewrite filter_app.
  apply filter_nil_existsb in H; rewrite H; simpl.
  now rewrite String.eqb_refl.
Qed.

Lemma employee_created (now : N) (b : employee_body) (w : world) :
  pool w = true ->
  status (fst (post_employees now b w)) = 201 ->
  exists row,
    body (fst (post_employees now b w)) = JEmployee (Some row)
    /\ (eb_email b = JUndefined -> e_email row = Some "")
    /\ (eb_address b = JUndefined -> e_address row = Some "")
    /\ (eb_department b = JUndefined -> e_department row = Some "")
    /\ (eb_phone b = JUndefined -> e_phone row = None)
    /\ (eb_outlet b = JUndefined -> e_outlet row = None)
    /\ fst (get_employees (snd (post_employees now b w)))
       = mkResponse 200 (JEmployees (employees (db w) ++ [row]))
    /\ filter (fun r => e_id r =? e_id row) (employees (db w) ++ [row]) = [row].
Proof.
  intros Hp.
  rewrite (post_employees_runs w Hp); cbv zeta.
  destruct (Sql.insert_employee _ _ _ _ _ _ _ _) as [e|[rows s]] eqn:E;
    [simpl; discriminate|].
  intros _.
  apply insert_employee_ok in E.
  destruct E as (row & -> & -> & Hfresh & _ & _ & Hem & Hph & Had & Hde & Hou).
  exists row; simpl.
  split; [reflexivity|].
  split; [intros U; rewrite U in Hem; exact (varchar_empty _ _ Hem)|].
  split; [intros U; rewrite U in Had; now rewrite Had|].
  split; [intros U; rewrite U in Hde; exact (varchar_empty _ _ Hde)|].
  split; [intros U; rewrite U in Hph; exact (varchar_null _ _ Hph)|].
  split; [intros U; rewrite U in Hou; exact (varchar_null _ _ Hou)|].
  split; [reflexivity|].
  now apply appended_once.
Qed.

End Creation.

Lemma department_created (now : N) (b : department_body) (w : world) :
  pool w = true ->
  status (fst (post_departments now b w)) = 201 ->
  exists row,
    body (fst (post_departments now b w)) = JDepartment (Some row)
    /\ (db_description b = JUndefined -> d_description row = Some "")
    /\ (db_outlet b = JUndefined -> d_outlet row = None)
    /\ fst (get_departments (snd (post_departments now b w)))
       = mkResponse 200 (JDepartments (departments (db w) ++ [row]))
    /\ filter (fun r => d_id r =? d_id row) (departments (db w) ++ [row]) = [row].
Proof.
  intros Hp.
  rewrite (post_departments_runs w Hp); cbv zeta.
  destruct (Sql.insert_department _ _ _ _ _) as [e|[rows s]] eqn:E;
    [simpl; discriminate|].
  intros _.
  apply insert_department_ok in E.
  destruct E as (row & -> & -> & Hfresh & _ & _ & Hde & Hou).
  exists row; simpl.
  split; [reflexivity|].
  split; [intros U; rewrite U in Hde; now rewrite Hde|].
  split; [intros U; rewrite U in Hou; exact (varchar_null _ _ Hou)|].
  split; [reflexivity|].
  now apply appended_once.
Qed.

(** C3, the code's behaviour.  When a creation is answered 201, the created
    row is the one returned; of the optional fields left out of the request,
    [email], [address] and [department] of an employee and [description] of
    a department are stored as the empty string, while [phone] and [outlet]
    are stored as NULL; and the list served next is the former list followed
    by the created row, the only row under its id. *)
Theorem create_then_list :
  (forall (now : N) (b : employee_body) (w : world),
      pool w = true ->
      status (fst (post_employees now b w)) = 201 ->
      exists row,
        body (fst (post_employees now b w)) = JEmployee (Some row)
        /\ (eb_email b = JUndefined -> e_email row = Some "")
        /\ (eb_address b = JUndefined -> e_address row = Some "")
        /\ (eb_department b = JUndefined -> e_department row = Some "")
        /\ (eb_phone b = JUndefined -> e_phone row = None)
        /\ (eb_outlet b = JUndefined -> e_outlet row = None)
        /\ fst (get_employees (snd (post_employees now b w)))
           = mkResponse 200 (JEmployees (employees (db w) ++ [row]))
        /\ filter (fun r => e_id r =? e_id row) (employees (db w) ++ [row])
           = [row])
  /\
  (forall (now : N) (b : department_body) (w : world),
      pool w = true ->
      status (fst (post_departments now b w)) = 201 ->
      exists row,
        body (fst (post_departments now b w)) = JDepartment (Some row)
        /\ (db_description b = JUndefined -> d_description row = Some "")
        /\ (db_outlet b = JUndefined -> d_outlet row = None)
        /\ fst (get_departments (snd (post_departments now b w)))
           = mkResponse 200 (JDepartments (departments (db w) ++ [row]))
        /\ filter (fun r => d_id r =? d_id row) (departments (db w) ++ [row])
           = [row]).
Proof.
  split; intros now b w Hp Hs.
  - exact (employee_created now b w Hp Hs).
  - exact (department_created now b w Hp Hs).
Qed.

(** The body [{ name: "Ann" }]. *)
Definition only_name : employee_body :=
  mkEmployeeBody (JStr "Ann") JUndefined JUndefined JUndefined JUndefined JUndefined.

Lemma create_then_list_witness :
  pool (initial true) = true
  /\ status (fst (post_employees 17%N only_name (initial true))) = 201
  /\ exists row,
       body (fst (post_employees 17%N only_name (initial true)))
         = JEmployee (Some row)
       /\ (eb_email only_name = JUndefined -> e_email row = Some "")
       /\ (eb_address only_name = JUndefined -> e_address row = Some "")
       /\ (eb_department only_name = JUndefined -> e_department row = Some "")
       /\ (eb_phone only_name = JUndefined -> e_phone row = None)
       /\ (eb_outlet only_name = JUndefined -> e_outlet row = None)
       /\ fst (get_employees (snd (post_employees 17%N only_name (initial true))))
          = mkResponse 200 (JEmployees (employees (db (initial true)) ++ [row]))
       /\ filter (fun r => e_id r =? e_id row)
            (employees (db (initial true)) ++ [row]) = [row].
Proof.
  split; [reflexivity|]. split; [reflexivity|].
  apply (proj1 create_then_list 17%N only_name (initial true));
    reflexivity.
Defined.

(** C3 as stated fails: [POST /api/employees { name: "Ann" }] on fresh tables
    stores and returns the omitted [phone] and [outlet] as NULL, not as the
    empty string. *)
Lemma create_leaves_outlet_null :
  exists row,
    fst (post_employees 17%N only_name (initial true))
      = mkResponse 201 (JEmployee (Some row))
    /\ employees (db (snd (post_employees 17%N only_name (initial true)))) = [row]
    /\ eb_phone only_name = JUndefined /\ e_phone row = None
    /\ eb_outlet only_name = JUndefined /\ e_outlet row = None
    /\ e_outlet row <> Some "" /\ e_phone row <> Some "".
Proof.
  eexists; repeat split; try reflexivity; simpl; discriminate.
Qed.

(** ** Deleting an employee *)

Section Cascade.

Variable id : string.

Let gone (a : attendance_row) : bool := sql_eq (a_employee_id a) (Some id).
Let hit (e : employee_row) : bool := sql_eq (Some (e_id e)) (Some id).

(** Once the handler's own DELETE has run, the store's cascade finds no
    attendance row left to remove. *)
Lemma cascade_idle (es : list employee_row) (l : list attendance_row) :
  filter
    (fun a => negb (existsb (fun e => sql_eq (a_employee_id a) (Some (e_id e)))
                      (filter hit es)))
    (filter (fun a => negb (gone a)) l)
  = filter (fun a => negb (gone a)) l.
Proof.
  apply filter_all; intros a Ha.
  apply filter_In in Ha; destruct Ha as [_ Ha].
  apply negb_true_iff. apply negb_true_iff in Ha.
  destruct (existsb _ _) eqn:E; [|reflexivity].
  apply existsb_exists in E; destruct E as (e & He & Hr).
  apply filter_In in He; destruct He as [_ He].
  unfold hit in He; simpl in He; apply String.eqb_eq in He.
  unfold gone in Ha; rewrite He in Hr; congruence.
Qed.

Lemma delete_employee_runs (w : world) :
  pool w = true ->
  delete_employee id w =
    (if Nat.eqb (List.length (filter hit (employees (db w)))) 0
     then mkResponse 404 (JError (Text "Employee not found"))
     else mkResponse 200 JSuccess,
     mkWorld true
       (mkStore (filter (fun e => negb (hit e)) (employees (db w)))
                (departments (db w))
                (filter (fun a => negb (gone a)) (attendance (db w))))
       (sent w ++
        [mkStatement "DELETE FROM attendance WHERE employee_id = $1" [Some id];
         mkStatement "DELETE FROM employees WHERE id = $1 RETURNING *" [Some id]])).
Proof.
  intros Hp.
  unfold delete_employee; rewrite handler_pool by exact Hp.
  unfold bind, pool_query, Sql.delete_attendance_of, Sql.delete_employee, ret.
  cbn [db pool sent employees departments attendance set_attendance map prepareValue].
  rewrite Hp.
  fold gone. fold hit.
  rewrite cascade_idle. rewrite <- app_assoc. cbn [app].
  destruct (Nat.eqb _ 0); reflexivity.
Qed.

End Cascade.

(** C6. With a configured store, deleting an employee sends two statements,
    first the DELETE of the attendance rows of that employee and then the
    DELETE of the employee row.  The attendance table afterwards is the old
    one without the rows that referenced the id, so none references it any
    more; and when the answer is 200 the employee row existed and is gone. *)
Theorem delete_employee_cascades (id : string) (w : world) :
  pool w = true ->
  let gone a := sql_eq (a_employee_id a) (Some id) in
  let w' := snd (delete_employee id w) in
  sent w' =
    sent w ++
    [mkStatement "DELETE FROM attendance WHERE employee_id = $1" [Some id];
     mkStatement "DELETE FROM employees WHERE id = $1 RETURNING *" [Some id]]
  /\ attendance (db w') = filter (fun a => negb (gone a)) (attendance (db w))
  /\ filter gone (attendance (db w')) = []
  /\ (status (fst (delete_employee id w)) = 200 ->
      existsb (fun e => e_id e =? id) (employees (db w)) = true
      /\ filter (fun e => e_id e =? id) (employees (db w')) = []).
Proof.
  intros Hp gone w'; subst w'.
  rewrite (delete_employee_runs id w Hp).
  cbn [fst snd db sent attendance employees].
  split; [reflexivity|]. split; [reflexivity|].
  split; [apply (filter_negb_self gone)|].
  intros Hs. split.
  - destruct (filter _ (employees (db w))) eqn:E; [simpl in Hs; discriminate|].
    destruct (existsb _ _) eqn:X; [reflexivity|].
    apply filter_nil_existsb in X. simpl in E. rewrite X in E. discriminate.
  - apply (filter_negb_self (fun e => e_id e =? id)).
Qed.

Definition ann : employee_row :=
  mkEmployee "emp-17" "Ann" (Some "") None (Some "") (Some "") (Some "North").

Definition ann_present : attendance_row :=
  mkAttendance "emp-17-2024-01-01" (Some "emp-17") "2024-01-01" "present"
    (Some "North").

Definition one_day : world := mkWorld true (mkStore [ann] [] [ann_present]) [].

Lemma delete_employee_cascades_witness :
  pool one_day = true
  /\ filter (fun a => sql_eq (a_employee_id a) (Some "emp-17"))
       (attendance (db (snd (delete_employee "emp-17" one_day)))) = []
  /\ status (fst (delete_employee "emp-17" one_day)) = 200.
Proof.
  split; [reflexivity|].
  split; [|reflexivity].
  apply (delete_employee_cascades "emp-17" one_day).
  reflexivity.
Defined.

(** ** The attendance upsert *)

Section Upsert.

Variable b : attendance_body.

Let employeeId : sqlval := prepareValue (ab_employeeId b).
Let date : sqlval := prepareValue (ab_date b).
Let status : sqlval := prepareValue (ab_status b).

(** The outlet the upsert resolves from the employees table. *)
Definition resolved_outlet (s : store) : jsval :=
  match map e_outlet
          (filter (fun r => sql_eq (Some (e_id r)) (prepareValue (ab_employeeId b)))
             (employees s)) with
  | o :: _ => from_sql o
  | [] => JNull
  end.

(** The two look-ups every upsert starts with. *)
Definition lookups : list statement :=
  [mkStatement "SELECT outlet FROM employees WHERE id = $1"
     [prepareValue (ab_employeeId b)];
   mkStatement "SELECT * FROM attendance WHERE employee_id = $1 AND date = $2"
     [prepareValue (ab_employeeId b); prepareValue (ab_date b)]].

Definition update_sent : statement :=
  mkStatement
    "UPDATE attendance SET status = $1 WHERE employee_id = $2 AND date = $3 RETURNING *"
    [prepareValue (ab_status b); prepareValue (ab_employeeId b);
     prepareValue (ab_date b)].

Definition insert_sent (outlet : sqlval) : statement :=
  mkStatement
    "INSERT INTO attendance (id, employee_id, date, status, outlet) VALUES ($1, $2, $3, $4, $5) RETURNING *"
    [Some (attendance_id (ab_employeeId b) (ab_date b));
     prepareValue (ab_employeeId b); prepareValue (ab_date b);
     prepareValue (ab_status b); outlet].

(** No row for the day: the handler inserts. *)
Lemma post_attendance_inserts (w : world) :
  pool w = true ->
  filter (Sql.on_day employeeId date) (attendance (db w)) = [] ->
  post_attendance b w =
    let outlet := prepareValue (resolved_outlet (db w)) in
    let log := sent w ++ lookups ++ [insert_sent outlet] in
    match Sql.insert_attendance
            (Some (attendance_id (ab_employeeId b) (ab_date b)))
            employeeId date status outlet (db w) with
    | inl e => (mkResponse 500 (JError (ErrorMessage (PgError e))),
                mkWorld true (db w) log)
    | inr ([], s) => (mkResponse 500 (JError (ErrorMessage TypeError)),
                      mkWorld true s log)
    | inr (r :: _, s) => (mkResponse 201 (JAttendance (to_json r)),
                          mkWorld true s log)
    end.
Proof.
  intros Hp Hnone.
  unfold post_attendance; rewrite handler_pool by exact Hp.
  unfold bind at 1 2. unfold pool_query at 1 2.
  unfold Sql.select_outlet, Sql.select_attendance_on.
  cbn [db pool sent fst snd].
  fold employeeId date status. rewrite Hnone.
  cbn [List.length Nat.ltb Nat.leb].
  unfold bind, pool_query, ret, throw, insert_sent, lookups.
  cbn [db pool sent map prepareValue]. rewrite Hp.
  fold employeeId date status. fold (resolved_outlet (db w)).
  repeat rewrite <- app_assoc. cbn [app].
  destruct (Sql.insert_attendance _ _ _ _ _ _) as [e|[[|r rows] s]]; reflexivity.
Qed.

(** A row for the day: the handler updates. *)
Lemma post_attendance_updates (w : world) :
  pool w = true ->
  filter (Sql.on_day employeeId date) (attendance (db w)) <> [] ->
  post_attendance b w =
    let log := sent w ++ lookups ++ [update_sent] in
    match Sql.update_status status employeeId date (db w) with
    | inl e => (mkResponse 500 (JError (ErrorMessage (PgError e))),
                mkWorld true (db w) log)
    | inr ([], s) => (mkResponse 500 (JError (ErrorMessage TypeError)),
                      mkWorld true s log)
    | inr (r :: _, s) => (mkResponse 200 (JAttendance (to_json r)),
                          mkWorld true s log)
    end.
Proof.
  intros Hp Hsome.
  unfold post_attendance; rewrite handler_pool by exact Hp.
  unfold bind at 1 2. unfold pool_query at 1 2.
  unfold Sql.select_outlet, Sql.select_attendance_on.
  cbn [db pool sent fst snd].
  fold employeeId date status.
  destruct (filter (Sql.on_day employeeId date) (attendance (db w)))
    as [|r0 rest] eqn:E; [congruence|].
  cbn [List.length Nat.ltb Nat.leb].
  unfold bind, pool_query, ret, throw, update_sent, lookups.
  cbn [db pool sent map prepareValue]. rewrite Hp.
  fold employeeId date status.
  repeat rewrite <- app_assoc. cbn [app].
  destruct (Sql.update_status _ _ _ _) as [e|[[|r rows] s]]; reflexivity.
Qed.

End Upsert.

Section InsertAttendance.

Lemma insert_attendance_ok
    (id employee_id date status outlet : sqlval)
    (s s' : store) (rows : list attendance_row) :
  Sql.insert_attendance id employee_id date status outlet s = inr (rows, s') ->
  exists row,
    rows = [row]
    /\ s' = set_attendance (attendance s ++ [row]) s
    /\ existsb (fun r => a_id r =? a_id row) (attendance s) = false
    /\ varchar 255 id = inr (Some (a_id row))
    /\ varchar 255 employee_id = inr (a_employee_id row)
    /\ varchar 255 date = inr (Some (a_date row))
    /\ varchar 50 status = inr (Some (a_status row))
    /\ varchar 255 outlet = inr (a_outlet row)
    /\ match a_employee_id row with
       | None => True
       | Some e => existsb (fun r => e_id r =? e) (employees s) = true
       end.
Proof.
  unfold Sql.insert_attendance, res_bind.
  destruct (varchar 255 id) as [?|id1] eqn:E1; [discriminate|].
  destruct (varchar 255 employee_id) as [?|employee_id1] eqn:E2; [discriminate|].
  destruct (varchar 255 date) as [?|date1] eqn:E3; [discriminate|].
  destruct (varchar 50 status) as [?|status1] eqn:E4; [discriminate|].
  destruct (varchar 255 outlet) as [?|outlet1] eqn:E5; [discriminate|].
  destruct id1 as [id2|]; [|discriminate].
  destruct date1 as [date2|]; [|discriminate].
  destruct status1 as [status2|]; [|discriminate].
  cbn [not_null].
  destruct (existsb _ (attendance s)) eqn:E6; [discriminate|].
  destruct employee_id1 as [e|].
  - destruct (existsb _ (employees s)) eqn:E7; [|discriminate].
    intros H; inversion H; subst; clear H.
    eexists; repeat split; eauto.
  - intros H; inversion H; subst; clear H.
    eexists; repeat split; eauto.
Qed.

(** When every value fits its column, the key is free and the employee
    exists, the INSERT appends the row as given. *)
Lemma insert_attendance_fits
    (e d st : string) (outlet : sqlval) (s : store) :
  varchar 255 outlet = inr outlet ->
  String.length (e ++ "-" ++ d)%string <= 255 ->
  String.length st <= 50 ->
  existsb (fun r => a_id r =? (e ++ "-" ++ d)%string) (attendance s) = false ->
  existsb (fun r => e_id r =? e) (employees s) = true ->
  let row := mkAttendance (e ++ "-" ++ d)%string (Some e) d st outlet in
  Sql.insert_attendance (Some (e ++ "-" ++ d)%string) (Some e) (Some d)
    (Some st) outlet s
  = inr ([row], set_attendance (attendance s ++ [row]) s).
Proof.
  intros Ho Hl Hs Hfree Hemp row.
  assert (Hl' := Hl). rewrite !length_append in Hl'. simpl in Hl'.
  unfold Sql.insert_attendance, res_bind.
  rewrite (varchar_fits 255 (e ++ "-" ++ d)) by exact Hl.
  rewrite (varchar_fits 255 e) by lia.
  rewrite (varchar_fits 255 d) by lia.
  rewrite (varchar_fits 50 st) by exact Hs.
  rewrite Ho. cbn [not_null]. rewrite Hfree, Hemp. reflexivity.
Qed.

(** The same INSERT for an employee id the employees table does not hold. *)
Lemma insert_attendance_unreferenced
    (e d st : string) (outlet : sqlval) (s : store) :
  varchar 255 outlet = inr outlet ->
  String.length (e ++ "-" ++ d)%string <= 255 ->
  String.length st <= 50 ->
  existsb (fun r => a_id r =? (e ++ "-" ++ d)%string) (attendance s) = false ->
  existsb (fun r => e_id r =? e) (employees s) = false ->
  Sql.insert_attendance (Some (e ++ "-" ++ d)%string) (Some e) (Some d)
    (Some st) outlet s
  = inl (ForeignKeyViolation "attendance" "employees").
Proof.
  intros Ho Hl Hs Hfree Hemp.
  assert (Hl' := Hl). rewrite !length_append in Hl'. simpl in Hl'.
  unfold Sql.insert_attendance, res_bind.
  rewrite (varchar_fits 255 (e ++ "-" ++ d)) by exact Hl.
  rewrite (varchar_fits 255 e) by lia.
  rewrite (varchar_fits 255 d) by lia.
  rewrite (varchar_fits 50 st) by exact Hs.
  rewrite Ho. cbn [not_null]. rewrite Hfree, Hemp. reflexivity.
Qed.

Lemma all_spaces_append (a c : string) :
  all_spaces (a ++ c) = true -> all_spaces c = true.
Proof.
  induction a as [|x a IH]; simpl; [tauto|].
  intros H; apply andb_true_iff in H; tauto.
Qed.

(** The dash of a synthesized id is not a space, so a cut never falls at or
    before it. *)
Lemma dash_survives (n : nat) (a c : string) :
  n <= String.length a ->
  all_spaces (drop n (a ++ "-" ++ c)) = false.
Proof.
  revert a; induction n as [|n IH]; intros a H.
  - cbn [drop]. destruct (all_spaces _) eqn:E; [|reflexivity].
    apply all_spaces_append in E. simpl in E. discriminate.
  - destruct a as [|x a]; simpl in *; [lia|].
    apply IH; lia.
Qed.

Lemma varchar_id_bounds_employee (n : nat) (a c : string) (v : sqlval) :
  varchar n (Some (a ++ "-" ++ c)%string) = inr v -> String.length a < n.
Proof.
  unfold varchar.
  destruct (Nat.leb _ n) eqn:E.
  - apply Nat.leb_le in E. rewrite length_append in E. simpl in E. lia.
  - destruct (Nat.le_gt_cases n (String.length a)) as [H|H]; [|lia].
    rewrite (dash_survives n a c H). discriminate.
Qed.

End InsertAttendance.

Section UnknownEmployee.

Variables (e : string) (d st : jsval) (w : world).

Let b : attendance_body := mkAttendanceBody (JStr e) d st.

Hypothesis configured : pool w = true.
Hypothesis unknown : existsb (fun r => e_id r =? e) (employees (db w)) = false.
Hypothesis unreferenced :
  existsb (fun a => sql_eq (a_employee_id a) (Some e)) (attendance (db w)) = false.

Lemma unknown_resolves_null : resolved_outlet b (db w) = JNull.
Proof.
  unfold resolved_outlet; cbn [b ab_employeeId prepareValue].
  apply filter_nil_existsb in unknown.
  cbn [sql_eq]. rewrite unknown. reflexivity.
Qed.

Lemma unknown_has_no_row :
  filter (Sql.on_day (Some e) (prepareValue d)) (attendance (db w)) = [].
Proof.
  apply filter_nil_existsb.
  destruct (existsb (Sql.on_day _ _) _) eqn:E; [|reflexivity].
  apply existsb_exists in E; destruct E as (a & Ha & Hd).
  unfold Sql.on_day in Hd; apply andb_true_iff in Hd; destruct Hd as [Hd _].
  assert (X : existsb (fun a => sql_eq (a_employee_id a) (Some e))
                (attendance (db w)) = true)
    by (apply existsb_exists; eauto).
  congruence.
Qed.

Lemma unknown_insert_fails :
  exists err,
    Sql.insert_attendance (Some (attendance_id (JStr e) d)) (Some e)
      (prepareValue d) (prepareValue st) None (db w) = inl err.
Proof.
  destruct (Sql.insert_attendance _ _ _ _ _ _) as [err|[rows s]] eqn:E;
    [eauto|exfalso].
  apply insert_attendance_ok in E.
  destruct E as (row & _ & _ & _ & Hid & He & _ & _ & _ & Hfk).
  apply varchar_id_bounds_employee in Hid.
  rewrite varchar_fits in He by (cbn [template] in Hid; lia).
  inversion He as [He']; rewrite <- He' in Hfk.
  congruence.
Qed.

End UnknownEmployee.

(** C7, the code's behaviour.  For an employee id that no employee row
    carries (in a store that honours the foreign key, so that no attendance
    row references it either) the outlet resolves to null and the INSERT is
    sent with a NULL outlet; the store rejects the INSERT, the answer is 500
    and the store is unchanged.  When the values fit their columns and the
    synthesized id is free, the error is the foreign-key violation. *)
Theorem upsert_unknown_employee (e : string) (d st : jsval) (w : world) :
  let b := mkAttendanceBody (JStr e) d st in
  pool w = true ->
  existsb (fun r => e_id r =? e) (employees (db w)) = false ->
  existsb (fun a => sql_eq (a_employee_id a) (Some e)) (attendance (db w)) = false ->
  resolved_outlet b (db w) = JNull
  /\ exists err,
       post_attendance b w =
         (mkResponse 500 (JError (ErrorMessage (PgError err))),
          mkWorld true (db w) (sent w ++ lookups b ++ [insert_sent b None]))
       /\ forall d' st',
            d = JStr d' -> st = JStr st' ->
            String.length (e ++ "-" ++ d')%string <= 255 ->
            String.length st' <= 50 ->
            existsb (fun r => a_id r =? (e ++ "-" ++ d')%string)
              (attendance (db w)) = false ->
            err = ForeignKeyViolation "attendance" "employees".
Proof.
  intros b Hp Hu Hr; subst b.
  split; [exact (unknown_resolves_null e d st w Hu)|].
  destruct (unknown_insert_fails e d st w Hu Hr) as (err & E).
  exists err. split.
  - rewrite (post_attendance_inserts (mkAttendanceBody (JStr e) d st) w Hp
               (unknown_has_no_row e d w Hr)).
    cbv zeta. rewrite (unknown_resolves_null e d st w Hu).
    cbn [ab_employeeId ab_date ab_status prepareValue].
    rewrite E. reflexivity.
  - intros d' st' -> -> Hl Hs Hfree.
    unfold attendance_id in E; cbn [prepareValue template] in E.
    rewrite (insert_attendance_unreferenced e d' st' None (db w)) in E
      by (assumption || reflexivity).
    congruence.
Qed.

Definition e1_present : attendance_body :=
  mkAttendanceBody (JStr "e1") (JStr "2024-01-01") (JStr "present").

Lemma upsert_unknown_employee_witness :
  pool (initial true) = true
  /\ existsb (fun r => e_id r =? "e1") (employees (db (initial true))) = false
  /\ existsb (fun a => sql_eq (a_employee_id a) (Some "e1"))
       (attendance (db (initial true))) = false
  /\ resolved_outlet e1_present (db (initial true)) = JNull
  /\ exists err,
       post_attendance e1_present (initial true) =
         (mkResponse 500 (JError (ErrorMessage (PgError err))),
          mkWorld true (db (initial true))
            (sent (initial true) ++ lookups e1_present
             ++ [insert_sent e1_present None]))
       /\ forall d' st',
            JStr "2024-01-01" = JStr d' -> JStr "present" = JStr st' ->
            String.length ("e1" ++ "-" ++ d')%string <= 255 ->
            String.length st' <= 50 ->
            existsb (fun r => a_id r =? ("e1" ++ "-" ++ d')%string)
              (attendance (db (initial true))) = false ->
            err = ForeignKeyViolation "attendance" "employees".
Proof.
  split; [reflexivity|]. split; [reflexivity|]. split; [reflexivity|].
  apply (upsert_unknown_employee "e1" (JStr "2024-01-01") (JStr "present")
           (initial true)); reflexivity.
Defined.

(** C7 as stated fails: on fresh tables the upsert for ["e1"], an id of no
    employee, is answered 500 with the store's foreign-key violation and
    records no attendance row. *)
Lemma upsert_unknown_employee_rejected :
  employees (db (initial true)) = []
  /\ fst (post_attendance e1_present (initial true)) =
       mkResponse 500
         (JError (ErrorMessage
                    (PgError (ForeignKeyViolation "attendance" "employees"))))
  /\ attendance (db (snd (post_attendance e1_present (initial true)))) = [].
Proof. repeat split. Qed.

Section UpdateStatus.

Variables (status employee_id date : sqlval) (s : store).

Let hit : attendance_row -> bool := Sql.on_day employee_id date.

Lemma update_status_ok (st : string) :
  filter hit (attendance s) <> [] ->
  varchar 50 status = inr (Some st) ->
  let upd r := if hit r then Sql.with_status st r else r in
  Sql.update_status status employee_id date s =
    inr (map upd (filter hit (attendance s)),
         set_attendance (map upd (attendance s)) s).
Proof.
  intros Hsome Hst upd.
  unfold Sql.update_status. fold hit.
  destruct (existsb hit (attendance s)) eqn:E.
  - unfold res_bind. rewrite Hst. reflexivity.
  - apply filter_nil_existsb in E. contradiction.
Qed.

(** The UPDATE changes no column but [status]. *)
Lemma with_status_frame (st : string) (l : list attendance_row) :
  let upd r := if hit r then Sql.with_status st r else r in
  map a_id (map upd l) = map a_id l
  /\ map a_employee_id (map upd l) = map a_employee_id l
  /\ map a_date (map upd l) = map a_date l
  /\ map a_outlet (map upd l) = map a_outlet l.
Proof.
  intros upd; rewrite !map_map.
  repeat split; apply map_ext; intros r; unfold upd;
    destruct (hit r); reflexivity.
Qed.

(** Rows that already carry the status are left as they are. *)
Lemma with_status_same (st : string) (l : list attendance_row) :
  (forall r, In r l -> hit r = true -> a_status r = st) ->
  map (fun r => if hit r then Sql.with_status st r else r) l = l.
Proof.
  intros H. rewrite <- (map_id l) at 2.
  apply map_ext_in; intros r Hr.
  destruct (hit r) eqn:E; [|reflexivity].
  rewrite <- (H r Hr E). destruct r; reflexivity.
Qed.

End UpdateStatus.

(** C8. When the upsert finds a row for (employeeId, date) and the new
    status fits its column, the answer is 200 and every row of that day gets
    the status; the [id], [employee_id], [date] and [outlet] columns of the
    attendance table, and the other two tables, are as before.  The row
    answered is the first one found with its status replaced, so its outlet
    is the one recorded at insertion, whatever the employee's outlet is
    now. *)
Theorem upsert_updates_status_only (b : attendance_body) (w : world) (st : string) :
  let hit := Sql.on_day (prepareValue (ab_employeeId b)) (prepareValue (ab_date b)) in
  let upd r := if hit r then Sql.with_status st r else r in
  let w' := snd (post_attendance b w) in
  pool w = true ->
  filter hit (attendance (db w)) <> [] ->
  varchar 50 (prepareValue (ab_status b)) = inr (Some st) ->
  (exists r rest,
      filter hit (attendance (db w)) = r :: rest
      /\ fst (post_attendance b w) =
           mkResponse 200 (JAttendance (to_json (Sql.with_status st r))))
  /\ attendance (db w') = map upd (attendance (db w))
  /\ map a_id (attendance (db w')) = map a_id (attendance (db w))
  /\ map a_employee_id (attendance (db w')) = map a_employee_id (attendance (db w))
  /\ map a_date (attendance (db w')) = map a_date (attendance (db w))
  /\ map a_outlet (attendance (db w')) = map a_outlet (attendance (db w))
  /\ employees (db w') = employees (db w)
  /\ departments (db w') = departments (db w).
Proof.
  intros hit upd w' Hp Hsome Hst; subst w'.
  rewrite (post_attendance_updates b w Hp Hsome). cbv zeta.
  rewrite (update_status_ok _ _ _ (db w) st Hsome Hst). cbv zeta.
  fold hit. fold upd.
  destruct (filter hit (attendance (db w))) as [|r rest] eqn:E; [congruence|].
  assert (Hr : hit r = true).
  { assert (In r (filter hit (attendance (db w)))) by (rewrite E; now left).
    apply filter_In in H; tauto. }
  cbn [map fst snd db attendance employees departments set_attendance].
  split.
  - exists r, rest. split; [reflexivity|].
    unfold upd at 1. rewrite Hr. reflexivity.
  - split; [reflexivity|].
    destruct (with_status_frame (prepareValue (ab_employeeId b))
                (prepareValue (ab_date b)) st (attendance (db w)))
      as (H1 & H2 & H3 & H4).
    repeat split; assumption.
Qed.

(** Ann is hired at outlet North, is marked present, and then moves to
    outlet South. *)
Definition ann_moved : world :=
  serve
    [PostEmployees 17%N
       (mkEmployeeBody (JStr "Ann") JUndefined JUndefined JUndefined JUndefined
          (JStr "North"));
     PostAttendance
       (mkAttendanceBody (JStr "emp-17") (JStr "2024-01-01") (JStr "present"));
     PatchEmployee "emp-17"
       (mkEmployeeBody JUndefined JUndefined JUndefined JUndefined JUndefined
          (JStr "South"))]
    (initial true).

Definition ann_absent : attendance_body :=
  mkAttendanceBody (JStr "emp-17") (JStr "2024-01-01") (JStr "absent").

Lemma upsert_updates_status_only_witness :
  pool ann_moved = true
  /\ map e_outlet (employees (db ann_moved)) = [Some "South"]
  /\ filter (Sql.on_day (Some "emp-17") (Some "2024-01-01"))
       (attendance (db ann_moved)) <> []
  /\ varchar 50 (prepareValue (ab_status ann_absent)) = inr (Some "absent")
  /\ map a_outlet (attendance (db (snd (post_attendance ann_absent ann_moved))))
     = map a_outlet (attendance (db ann_moved))
  /\ map a_outlet (attendance (db ann_moved)) = [Some "North"].
Proof.
  split; [reflexivity|]. split; [reflexivity|].
  split; [vm_compute; discriminate|]. split; [reflexivity|].
  split; [|reflexivity].
  apply (upsert_updates_status_only ann_absent ann_moved "absent");
    [reflexivity | vm_compute; discriminate | reflexivity].
Defined.

(** ** Idempotence of the upsert *)

(** Every outlet in the employees table respects the column width. *)
Definition outlets_fit (s : store) : bool :=
  forallb (fun r => match e_outlet r with
                    | Some o => Nat.leb (String.length o) 255
                    | None => true
                    end) (employees s).

Section Twice.

Variables (e d st : string) (w : world).

Let b : attendance_body := mkAttendanceBody (JStr e) (JStr d) (JStr st).
Let key : string := (e ++ "-" ++ d)%string.

Hypothesis configured : pool w = true.
Hypothesis hired : existsb (fun r => e_id r =? e) (employees (db w)) = true.
Hypothesis fresh :
  filter (Sql.on_day (Some e) (Some d)) (attendance (db w)) = [].
Hypothesis free : existsb (fun r => a_id r =? key) (attendance (db w)) = false.
Hypothesis widths : outlets_fit (db w) = true.
Hypothesis key_fits : String.length key <= 255.
Hypothesis status_fits : String.length st <= 50.

Let outlet : sqlval := prepareValue (resolved_outlet b (db w)).
Let row : attendance_row := mkAttendance key (Some e) d st outlet.

Lemma resolved_outlet_fits : varchar 255 outlet = inr outlet.
Proof.
  unfold outlet, resolved_outlet.
  destruct (filter _ (employees (db w))) as [|r rest] eqn:E; [reflexivity|].
  assert (Hr : In r (employees (db w))).
  { assert (In r (r :: rest)) by now left.
    rewrite <- E in H. apply filter_In in H; tauto. }
  unfold outlets_fit in widths.
  rewrite forallb_forall in widths. specialize (widths r Hr).
  cbn [map]. destruct (e_outlet r) as [o|]; [|reflexivity].
  cbn [from_sql prepareValue]. apply varchar_fits.
  now apply Nat.leb_le.
Qed.

Lemma first_upsert :
  post_attendance b w =
    (mkResponse 201 (JAttendance (to_json row)),
     mkWorld true (set_attendance (attendance (db w) ++ [row]) (db w))
       (sent w ++ lookups b ++ [insert_sent b outlet])).
Proof.
  rewrite (post_attendance_inserts b w configured fresh). cbv zeta.
  unfold attendance_id; cbn [b ab_employeeId ab_date ab_status prepareValue template].
  fold b. fold outlet. fold key.
  unfold key at 1.
  rewrite (insert_attendance_fits e d st outlet (db w)
             resolved_outlet_fits key_fits status_fits free hired).
  reflexivity.
Qed.

Let w1 : world := snd (post_attendance b w).

Lemma one_row_after_first :
  filter (Sql.on_day (Some e) (Some d)) (attendance (db w1)) = [row].
Proof.
  unfold w1. rewrite first_upsert.
  cbn [snd db set_attendance attendance].
  rewrite filter_app, fresh. cbn [app filter].
  unfold Sql.on_day, row; cbn [a_employee_id a_date sql_eq].
  now rewrite !String.eqb_refl.
Qed.

Lemma second_upsert :
  post_attendance b w1 =
    (mkResponse 200 (JAttendance (to_json row)),
     mkWorld true (db w1) (sent w1 ++ lookups b ++ [update_sent b])).
Proof.
  assert (Hp : pool w1 = true) by (unfold w1; rewrite first_upsert; reflexivity).
  assert (Hone := one_row_after_first).
  assert (Hsome : filter (Sql.on_day (prepareValue (ab_employeeId b))
                            (prepareValue (ab_date b))) (attendance (db w1)) <> [])
    by (cbn [b ab_employeeId ab_date prepareValue]; rewrite Hone; discriminate).
  rewrite (post_attendance_updates b w1 Hp Hsome). cbv zeta.
  rewrite (update_status_ok _ _ _ (db w1) st Hsome)
    by (cbn [b ab_status prepareValue]; now apply varchar_fits).
  cbv zeta. cbn [b ab_employeeId ab_date ab_status prepareValue].
  rewrite Hone. cbn [map].
  rewrite with_status_same.
  - unfold Sql.on_day at 1, row at 1; cbn [a_employee_id a_date sql_eq].
    rewrite !String.eqb_refl. cbn [andb].
    replace (set_attendance (attendance (db w1)) (db w1)) with (db w1)
      by (destruct (db w1); reflexivity).
    reflexivity.
  - intros r Hr Hhit.
    assert (In r [row]) by (rewrite <- Hone; apply filter_In; tauto).
    destruct H as [<-|[]]. reflexivity.
Qed.

End Twice.

(** C1, the code's behaviour.  Take an employee that exists and a day for
    which the attendance table holds no row, with the synthesized id free and
    the values within the column widths.  Two upserts with the same
    arguments are answered 201 and then 200, both with the same row; the
    second leaves the store as the first left it, and the table then holds
    exactly one row for the pair, carrying the supplied status. *)
Theorem upsert_twice (e d st : string) (w : world) :
  let b := mkAttendanceBody (JStr e) (JStr d) (JStr st) in
  let key := (e ++ "-" ++ d)%string in
  pool w = true ->
  existsb (fun r => e_id r =? e) (employees (db w)) = true ->
  filter (Sql.on_day (Some e) (Some d)) (attendance (db w)) = [] ->
  existsb (fun r => a_id r =? key) (attendance (db w)) = false ->
  outlets_fit (db w) = true ->
  String.length key <= 255 ->
  String.length st <= 50 ->
  let w1 := snd (post_attendance b w) in
  let w2 := snd (post_attendance b w1) in
  exists outlet,
    let row := mkAttendance key (Some e) d st outlet in
    fst (post_attendance b w) = mkResponse 201 (JAttendance (to_json row))
    /\ fst (post_attendance b w1) = mkResponse 200 (JAttendance (to_json row))
    /\ db w2 = db w1
    /\ attendance (db w2) = attendance (db w) ++ [row]
    /\ filter (Sql.on_day (Some e) (Some d)) (attendance (db w2)) = [row].
Proof.
  intros b key Hp Hh Hf Hk Ho Hkl Hsl w1 w2.
  exists (prepareValue (resolved_outlet b (db w))). cbv zeta.
  assert (E1 := first_upsert e d st w Hp Hh Hf Hk Ho Hkl Hsl).
  assert (E2 := second_upsert e d st w Hp Hh Hf Hk Ho Hkl Hsl).
  assert (E3 := one_row_after_first e d st w Hp Hh Hf Hk Ho Hkl Hsl).
  fold b in E1, E2, E3. fold key in E1, E2, E3. fold w1 in E2, E3.
  subst w2. rewrite E2, E1. cbn [fst snd db].
  assert (Ew1 : attendance (db w1) = attendance (db w) ++ [mkAttendance key (Some e) d st (prepareValue (resolved_outlet b (db w)))])
    by (unfold w1; rewrite E1; reflexivity).
  repeat split; assumption.
Qed.

(** Ann has just been hired at outlet North. *)
Definition ann_hired : world :=
  serve
    [PostEmployees 17%N
       (mkEmployeeBody (JStr "Ann") JUndefined JUndefined JUndefined JUndefined
          (JStr "North"))]
    (initial true).

Definition ann_is_present : attendance_body :=
  mkAttendanceBody (JStr "emp-17") (JStr "2024-01-01") (JStr "present").

Definition ann_once : world := snd (post_attendance ann_is_present ann_hired).

Definition ann_twice : world := snd (post_attendance ann_is_present ann_once).

Lemma upsert_twice_witness :
  pool ann_hired = true
  /\ existsb (fun r => e_id r =? "emp-17") (employees (db ann_hired)) = true
  /\ filter (Sql.on_day (Some "emp-17") (Some "2024-01-01"))
       (attendance (db ann_hired)) = []
  /\ existsb (fun r => a_id r =? "emp-17-2024-01-01")
       (attendance (db ann_hired)) = false
  /\ outlets_fit (db ann_hired) = true
  /\ String.length "emp-17-2024-01-01" <= 255
  /\ String.length "present" <= 50
  /\ exists outlet,
       fst (post_attendance ann_is_present ann_hired)
         = mkResponse 201
             (JAttendance
                (to_json (mkAttendance "emp-17-2024-01-01" (Some "emp-17")
                            "2024-01-01" "present" outlet)))
       /\ fst (post_attendance ann_is_present ann_once)
          = mkResponse 200
              (JAttendance
                 (to_json (mkAttendance "emp-17-2024-01-01" (Some "emp-17")
                             "2024-01-01" "present" outlet)))
       /\ db ann_twice = db ann_once
       /\ attendance (db ann_twice)
          = attendance (db ann_hired)
            ++ [mkAttendance "emp-17-2024-01-01" (Some "emp-17") "2024-01-01"
                  "present" outlet]
       /\ filter (Sql.on_day (Some "emp-17") (Some "2024-01-01"))
            (attendance (db ann_twice))
          = [mkAttendance "emp-17-2024-01-01" (Some "emp-17") "2024-01-01"
               "present" outlet].
Proof.
  split; [reflexivity|]. split; [reflexivity|]. split; [reflexivity|].
  split; [reflexivity|]. split; [reflexivity|].
  split; [simpl; lia|]. split; [simpl; lia|].
  apply (upsert_twice "emp-17" "2024-01-01" "present" ann_hired);
    try reflexivity; simpl; lia.
Defined.

Definition e1_once : world := snd (post_attendance e1_present (initial true)).

Definition e1_twice : world := snd (post_attendance e1_present e1_once).

(** C1 as stated fails: on fresh tables, where no employee ["e1"] exists,
    both identical upserts are answered 500 and no row is recorded. *)
Lemma upsert_twice_unknown_employee :
  status (fst (post_attendance e1_present (initial true))) = 500
  /\ status (fst (post_attendance e1_present e1_once)) = 500
  /\ attendance (db e1_twice) = []
  /\ status (fst (post_attendance e1_present (initial true))) <> 201
  /\ status (fst (post_attendance e1_present e1_once)) <> 200.
Proof.
  repeat split; vm_compute; discriminate.
Qed.

(** ** The synthesized attendance id *)

(** Employees ["a"] and ["a-b"], the latter marked present on day ["c"]. *)
Definition two_employees : world :=
  mkWorld true
    (mkStore
       [mkEmployee "a" "A" None None None None None;
        mkEmployee "a-b" "B" None None None None None]
       [] [])
    [].

Definition marked : world :=
  snd (post_attendance
         (mkAttendanceBody (JStr "a-b") (JStr "c") (JStr "present"))
         two_employees).

(** C10. The id [employeeId + "-" + date] does not determine the pair:
    ("a-b", "c") and ("a", "b-c") both give ["a-b-c"].  With employees ["a"]
    and ["a-b"] in the store and ("a-b", "c") recorded, the upsert for
    ("a", "b-c") finds no row for its pair, inserts, and is answered 500 by
    the primary key of the existing row. *)
Theorem attendance_id_collides :
  (exists e1 d1 e2 d2 : string,
      (e1, d1) <> (e2, d2)
      /\ attendance_id (JStr e1) (JStr d1) = attendance_id (JStr e2) (JStr d2))
  /\ map (fun r => (a_id r, a_employee_id r, a_date r)) (attendance (db marked))
     = [("a-b-c", Some "a-b", "c")]
  /\ filter (Sql.on_day (Some "a") (Some "b-c")) (attendance (db marked)) = []
  /\ attendance_id (JStr "a") (JStr "b-c") = "a-b-c"
  /\ post_attendance
       (mkAttendanceBody (JStr "a") (JStr "b-c") (JStr "present")) marked
     = (mkResponse 500
          (JError (ErrorMessage (PgError (UniqueViolation "attendance")))),
        mkWorld true (db marked)
          (sent marked
           ++ lookups (mkAttendanceBody (JStr "a") (JStr "b-c") (JStr "present"))
           ++ [insert_sent
                 (mkAttendanceBody (JStr "a") (JStr "b-c") (JStr "present"))
                 None])).
Proof.
  split.
  - exists "a-b", "c", "a", "b-c". split; [discriminate | reflexivity].
  - repeat split.
Qed.

(** ** One attendance row per employee and day *)

(** At most one row for each date and each employee id that is not NULL. *)
Definition one_per_day (l : list attendance_row) : Prop :=
  forall e d : string,
    List.length (filter (Sql.on_day (Some e) (Some d)) l) <= 1.

(** The inductive invariant behind it: ids are unique, and the id of a row
    with an employee id is the one synthesized from that id and the date, as
    the [id] column stores it. *)
Definition keyed (l : list attendance_row) : Prop :=
  NoDup (map a_id l)
  /\ forall r e, In r l -> a_employee_id r = Some e ->
       a_id r = take 255 (e ++ "-" ++ a_date r).

Section Keyed.

Lemma on_day_true (e d : string) (r : attendance_row) :
  Sql.on_day (Some e) (Some d) r = true ->
  a_employee_id r = Some e /\ a_date r = d.
Proof.
  unfold Sql.on_day; intros H; apply andb_true_iff in H; destruct H as [H1 H2].
  apply sql_eq_true in H1; destruct H1 as (x & -> & Hx); inversion Hx; subst.
  simpl in H2; apply String.eqb_eq in H2. tauto.
Qed.

Lemma keyed_nil : keyed [].
Proof. split; [constructor | intros r e []]. Qed.

Lemma keyed_tail (r : attendance_row) (l : list attendance_row) :
  keyed (r :: l) -> keyed l.
Proof.
  intros [Hn Hk]; split.
  - now inversion Hn.
  - intros r' e Hr; apply Hk; now right.
Qed.

Lemma keyed_one_per_day (l : list attendance_row) : keyed l -> one_per_day l.
Proof.
  intros K e d; induction l as [|r l IH]; simpl; [lia|].
  specialize (IH (keyed_tail _ _ K)).
  destruct (Sql.on_day (Some e) (Some d) r) eqn:Hr; [|exact IH].
  destruct (filter (Sql.on_day (Some e) (Some d)) l) as [|r' rest] eqn:E;
    [simpl; lia|exfalso].
  assert (Hin : In r' (filter (Sql.on_day (Some e) (Some d)) l))
    by (rewrite E; now left).
  apply filter_In in Hin; destruct Hin as [Hin Hr'].
  apply on_day_true in Hr, Hr'. destruct Hr as [He Hd], Hr' as [He' Hd'].
  destruct K as [Hn Hk].
  assert (Hid : a_id r' = a_id r).
  { rewrite (Hk r e) by (auto; now left).
    rewrite (Hk r' e) by (auto; now right). now rewrite Hd, Hd'. }
  inversion Hn as [|? ? Hnotin _]; subst.
  apply Hnotin. rewrite <- Hid. now apply in_map.
Qed.

(** Removing rows keeps the ids unique. *)
Lemma unique_ids_filter (p : attendance_row -> bool) (l : list attendance_row) :
  NoDup (map a_id l) -> NoDup (map a_id (filter p l)).
Proof.
  induction l as [|r l IH]; cbn [map filter]; intros U; [constructor|].
  apply NoDup_cons_iff in U; destruct U as [Hfresh U].
  destruct (p r); cbn [map]; [|exact (IH U)].
  apply NoDup_cons; [|exact (IH U)].
  contradict Hfresh.
  apply in_map_iff in Hfresh; destruct Hfresh as (r' & Hid & Hin).
  apply filter_In in Hin. apply in_map_iff; exists r'; tauto.
Qed.

Lemma keyed_filter (p : attendance_row -> bool) (l : list attendance_row) :
  keyed l -> keyed (filter p l).
Proof.
  intros [Hn Hk]; split.
  - now apply unique_ids_filter.
  - intros r e Hr; apply filter_In in Hr; apply Hk; tauto.
Qed.

Lemma keyed_with_status (hit : attendance_row -> bool) (st : string)
    (l : list attendance_row) :
  keyed l -> keyed (map (fun r => if hit r then Sql.with_status st r else r) l).
Proof.
  intros [Hn Hk]; split.
  - rewrite map_map.
    erewrite map_ext; [exact Hn|].
    intros r; destruct (hit r); reflexivity.
  - intros r' e Hr' He.
    apply in_map_iff in Hr'; destruct Hr' as (r & <- & Hr).
    destruct (hit r); [|now apply Hk].
    cbn [Sql.with_status a_id a_date a_employee_id] in *. now apply Hk.
Qed.

Lemma keyed_append (row : attendance_row) (l : list attendance_row) :
  keyed l ->
  existsb (fun r => a_id r =? a_id row) l = false ->
  (forall e, a_employee_id row = Some e ->
             a_id row = take 255 (e ++ "-" ++ a_date row)) ->
  keyed (l ++ [row]).
Proof.
  intros [Hn Hk] Hfree Hrow; split.
  - rewrite map_app; cbn [map].
    apply NoDup_app; repeat split.
    + exact Hn.
    + constructor; [intros []|constructor].
    + intros x Hx [<-|[]].
      apply in_map_iff in Hx; destruct Hx as (r & Hid & Hr).
      assert (X : existsb (fun r => a_id r =? a_id row) l = true)
        by (apply existsb_exists; exists r; split; [exact Hr|];
            now apply String.eqb_eq).
      congruence.
  - intros r e Hr; apply in_app_or in Hr; destruct Hr as [Hr|[<-|[]]].
    + now apply Hk.
    + apply Hrow.
Qed.

(** The id synthesized by the upsert, as stored, is the id synthesized from
    the stored employee id and date. *)
Lemma stored_key (e d : string) :
  take 255 (e ++ "-" ++ d) = take 255 (take 255 e ++ "-" ++ take 255 d).
Proof.
  rewrite (take_append_l 255 e).
  rewrite <- !append_assoc.
  now rewrite (take_append_r 255 255 (e ++ "-") d) by lia.
Qed.

Lemma insert_attendance_keyed (employeeId date : jsval) (status outlet : sqlval)
    (s s' : store) (rows : list attendance_row) :
  keyed (attendance s) ->
  Sql.insert_attendance (Some (attendance_id employeeId date))
    (prepareValue employeeId) (prepareValue date) status outlet s
    = inr (rows, s') ->
  keyed (attendance s').
Proof.
  intros K E. apply insert_attendance_ok in E.
  destruct E as (row & _ & -> & Hfree & Hid & He & Hd & _ & _ & _).
  cbn [attendance set_attendance].
  apply keyed_append; [exact K | exact Hfree |].
  intros e Hrow. rewrite Hrow in He.
  apply varchar_stores_string in Hid.
  destruct employeeId as [| |x]; cbn [prepareValue] in He;
    try (apply varchar_null in He; discriminate).
  apply varchar_stores_string in He.
  destruct date as [| |y]; cbn [prepareValue] in Hd;
    try (apply varchar_null in Hd; discriminate).
  apply varchar_stores_string in Hd.
  rewrite Hid, He, Hd.
  unfold attendance_id; cbn [template].
  apply stored_key.
Qed.

End Keyed.

(** ** Store invariants through the handlers *)

Section Preservation.

Variable P : store -> Prop.

(** A block keeps [P] when the store satisfies it after the block, however
    the block ends. *)
Definition preserves {A : Type} (m : Q A) : Prop :=
  forall w out w', P (db w) -> m w = (out, w') -> P (db w').

Lemma preserves_ret {A : Type} (a : A) : preserves (ret a).
Proof. intros w out w' H E; inversion E; subst; exact H. Qed.

Lemma preserves_throw {A : Type} (e : exn) : preserves (@throw A e).
Proof. intros w out w' H E; inversion E; subst; exact H. Qed.

Lemma preserves_bind {A B : Type} (m : Q A) (k : A -> Q B) :
  preserves m -> (forall a, preserves (k a)) -> preserves (bind m k).
Proof.
  intros Hm Hk w out w' H E. unfold bind in E.
  destruct (m w) as [[e|a] w1] eqn:E1.
  - inversion E; subst. exact (Hm _ _ _ H E1).
  - exact (Hk a _ _ _ (Hm _ _ _ H E1) E).
Qed.

Lemma preserves_pool_query {A : Type} (text : string) (values : list jsval)
    (run : store -> res (A * store)) :
  (forall s a s', P s -> run s = inr (a, s') -> P s') ->
  preserves (pool_query text values run).
Proof.
  intros Hrun w out w' H E. unfold pool_query in E.
  destruct (run (db w)) as [e|[a s]] eqn:E1; inversion E; subst; cbn [db].
  - exact H.
  - exact (Hrun _ _ _ H E1).
Qed.

Lemma preserves_handler (block : Q response) (w : world) :
  preserves block -> P (db w) -> P (db (snd (handler block w))).
Proof.
  intros Hb H. unfold handler.
  destruct (negb (pool w)); [exact H|].
  destruct (block w) as [[e|r] w1] eqn:E; exact (Hb _ _ _ H E).
Qed.

End Preservation.

Section KeyedPreserved.

Let K (s : store) : Prop := keyed (attendance s).

Ltac same_store :=
  let s := fresh "s" in let a := fresh "a" in let s' := fresh "s'" in
  let H := fresh "H" in let E := fresh "E" in
  intros s a s' H E; inversion E; subst; exact H.

Lemma insert_employee_keeps_attendance
    (id name email phone address department outlet : sqlval)
    (s s' : store) (rows : list employee_row) :
  Sql.insert_employee id name email phone address department outlet s
    = inr (rows, s') ->
  attendance s' = attendance s.
Proof.
  intros E; apply insert_employee_ok in E.
  destruct E as (row & _ & -> & _); reflexivity.
Qed.

Lemma insert_department_keeps_attendance
    (id name description outlet : sqlval)
    (s s' : store) (rows : list department_row) :
  Sql.insert_department id name description outlet s = inr (rows, s') ->
  attendance s' = attendance s.
Proof.
  intros E; apply insert_department_ok in E.
  destruct E as (row & _ & -> & _); reflexivity.
Qed.

Lemma update_employee_keeps_attendance
    (sets : list (Sql.employee_column * sqlval)) (id : sqlval)
    (s s' : store) (rows : list employee_row) :
  Sql.update_employee sets id s = inr (rows, s') ->
  attendance s' = attendance s.
Proof.
  unfold Sql.update_employee, res_bind.
  destruct (Sql.coerce_sets sets) as [?|sets1]; [discriminate|].
  destruct (existsb _ (employees s)); [|intros E; inversion E; reflexivity].
  destruct (Sql.check_sets sets1); [discriminate|].
  intros E; inversion E; reflexivity.
Qed.

Lemma update_status_keyed (status employee_id date : sqlval)
    (s s' : store) (rows : list attendance_row) :
  K s -> Sql.update_status status employee_id date s = inr (rows, s') -> K s'.
Proof.
  unfold Sql.update_status, res_bind, K.
  destruct (varchar 50 status) as [?|st1]; [discriminate|].
  destruct (existsb _ (attendance s)); [|intros H E; inversion E; subst; exact H].
  destruct (not_null _ _ st1) as [?|st2]; [discriminate|].
  intros H E; inversion E; subst. cbn [attendance set_attendance].
  now apply keyed_with_status.
Qed.

Lemma handle_keyed (r : request) (w : world) :
  K (db w) -> K (db (snd (handle r w))).
Proof.
  intros H. destruct r; cbn [handle].
  - unfold get_employees; apply (preserves_handler K); [|exact H].
    apply preserves_bind; [apply preserves_pool_query; same_store|].
    intros; apply preserves_ret.
  - unfold post_employees; apply (preserves_handler K); [|exact H]. cbv zeta.
    apply preserves_bind; [apply preserves_pool_query|intros; apply preserves_ret].
    intros s a s' Hs E; unfold K.
    now rewrite (insert_employee_keeps_attendance _ _ _ _ _ _ _ _ _ _ E).
  - unfold patch_employee; apply (preserves_handler K); [|exact H]. cbv zeta.
    destruct (Nat.eqb _ 0); [apply preserves_ret|].
    apply preserves_bind; [apply preserves_pool_query|].
    + intros s a s' Hs E; unfold K.
      now rewrite (update_employee_keeps_attendance _ _ _ _ _ E).
    + intros rows; destruct (Nat.eqb _ 0); apply preserves_ret.
  - unfold delete_employee; apply (preserves_handler K); [|exact H].
    apply preserves_bind; [apply preserves_pool_query|intros _].
    + intros s a s' Hs E; inversion E; subst; unfold K; cbn [attendance set_attendance].
      now apply keyed_filter.
    + apply preserves_bind; [apply preserves_pool_query|].
      * intros s a s' Hs E; inversion E; subst; unfold K; cbn [attendance].
        now apply keyed_filter.
      * intros rows; destruct (Nat.eqb _ 0); apply preserves_ret.
  - unfold get_departments; apply (preserves_handler K); [|exact H].
    apply preserves_bind; [apply preserves_pool_query; same_store|].
    intros; apply preserves_ret.
  - unfold post_departments; apply (preserves_handler K); [|exact H]. cbv zeta.
    apply preserves_bind; [apply preserves_pool_query|intros; apply preserves_ret].
    intros s a s' Hs E; unfold K.
    now rewrite (insert_department_keeps_attendance _ _ _ _ _ _ _ E).
  - unfold delete_department; apply (preserves_handler K); [|exact H].
    apply preserves_bind; [apply preserves_pool_query|].
    + intros s a s' Hs E; inversion E; subst; exact Hs.
    + intros rows; destruct (Nat.eqb _ 0); apply preserves_ret.
  - unfold get_attendance; apply (preserves_handler K); [|exact H].
    apply preserves_bind; [apply preserves_pool_query; same_store|].
    intros; apply preserves_ret.
  - unfold post_attendance; apply (preserves_handler K); [|exact H]. cbv zeta.
    apply preserves_bind; [apply preserves_pool_query; same_store|intros outlets].
    apply preserves_bind; [apply preserves_pool_query; same_store|intros existing].
    apply preserves_bind.
    + destruct (Nat.ltb 0 _); apply preserves_pool_query.
      * intros s a s' Hs E. exact (update_status_keyed _ _ _ _ _ _ Hs E).
      * intros s a s' Hs E.
        exact (insert_attendance_keyed _ _ _ _ _ _ _ Hs E).
    + intros [|row rows]; [apply preserves_throw | apply preserves_ret].
  - unfold delete_attendance; apply (preserves_handler K); [|exact H].
    apply preserves_bind; [apply preserves_pool_query|].
    + intros s a s' Hs E; inversion E; subst; unfold K; cbn [attendance set_attendance].
      now apply keyed_filter.
    + intros rows; destruct (Nat.eqb _ 0); apply preserves_ret.
Qed.

End KeyedPreserved.

Lemma reachable_keyed (w : world) : reachable w -> keyed (attendance (db w)).
Proof.
  induction 1 as [c|w r _ IH]; [apply keyed_nil | now apply handle_keyed].
Qed.

Lemma reachable_serve (rs : list request) (w : world) :
  reachable w -> reachable (serve rs w).
Proof.
  revert w; induction rs as [|r rs IH]; intros w H; [exact H|].
  apply IH. now apply reachable_handle.
Qed.

Section Decision.

Variables (b : attendance_body) (w : world).

Let hit : attendance_row -> bool :=
  Sql.on_day (prepareValue (ab_employeeId b)) (prepareValue (ab_date b)).

(** With a row for the day the upsert adds none: the key columns of the
    table are as before, whether the UPDATE succeeds or not. *)
Lemma upsert_existing_adds_no_row :
  filter hit (attendance (db w)) <> [] ->
  let w' := snd (post_attendance b w) in
  map a_id (attendance (db w')) = map a_id (attendance (db w))
  /\ map a_employee_id (attendance (db w')) = map a_employee_id (attendance (db w))
  /\ map a_date (attendance (db w')) = map a_date (attendance (db w)).
Proof.
  intros Hsome w'; subst w'.
  destruct (pool w) eqn:Hp.
  - rewrite (post_attendance_updates b w Hp Hsome). cbv zeta.
    unfold Sql.update_status, res_bind. fold hit.
    destruct (varchar 50 _) as [?|st1]; [cbn [snd db]; repeat split|].
    destruct (existsb hit (attendance (db w)));
      [|cbn [snd db]; repeat split].
    destruct (not_null _ _ st1) as [?|st2]; [cbn [snd db]; repeat split|].
    destruct (with_status_frame (prepareValue (ab_employeeId b))
                (prepareValue (ab_date b)) st2 (attendance (db w)))
      as (H1 & H2 & H3 & _).
    fold hit in H1, H2, H3.
    destruct (filter hit (attendance (db w))); cbn [map snd db attendance set_attendance];
      repeat split; assumption.
  - unfold post_attendance. rewrite handler_no_pool by exact Hp.
    repeat split.
Qed.

(** Without one it adds at most the row it inserts. *)
Lemma upsert_fresh_adds_one_row :
  filter hit (attendance (db w)) = [] ->
  let w' := snd (post_attendance b w) in
  attendance (db w') = attendance (db w)
  \/ exists row, attendance (db w') = attendance (db w) ++ [row].
Proof.
  intros Hnone w'; subst w'.
  destruct (pool w) eqn:Hp.
  - rewrite (post_attendance_inserts b w Hp Hnone). cbv zeta.
    destruct (Sql.insert_attendance _ _ _ _ _ _) as [e|[rows s]] eqn:E;
      [left; reflexivity|].
    apply insert_attendance_ok in E. destruct E as (row & -> & -> & _).
    right; exists row; reflexivity.
  - unfold post_attendance. rewrite handler_no_pool by exact Hp.
    left; reflexivity.
Qed.

End Decision.

(** Two column values that show the same: NULL beside NULL included. *)
Definition same_value (a b : sqlval) : bool :=
  match a, b with
  | Some x, Some y => x =? y
  | None, None => true
  | _, _ => false
  end.

(** The rows of a table that show a given (employeeId, date) pair. *)
Definition rows_of_pair (employee_id : sqlval) (date : string)
    (l : list attendance_row) : list attendance_row :=
  filter (fun r => same_value (a_employee_id r) employee_id && (a_date r =? date)) l.

Section Pairs.

Lemma rows_of_known_pair (e d : string) (l : list attendance_row) :
  rows_of_pair (Some e) d l = filter (Sql.on_day (Some e) (Some d)) l.
Proof.
  apply filter_ext; intros r. unfold Sql.on_day.
  destruct (a_employee_id r); reflexivity.
Qed.

Lemma one_per_day_pairs (l : list attendance_row) :
  one_per_day l <->
  forall e d : string, List.length (rows_of_pair (Some e) d l) <= 1.
Proof.
  split; intros H e d; specialize (H e d);
    now rewrite rows_of_known_pair in *.
Qed.

Lemma on_day_with_status (k d : sqlval) (st : string) (r : attendance_row) :
  Sql.on_day k d (Sql.with_status st r) = Sql.on_day k d r.
Proof. reflexivity. Qed.

(** An UPDATE of the status moves no row in or out of a pair. *)
Lemma rows_after_status (hit : attendance_row -> bool) (k d : sqlval)
    (st : string) (l : list attendance_row) :
  List.length
    (filter (Sql.on_day k d)
       (map (fun r => if hit r then Sql.with_status st r else r) l))
  = List.length (filter (Sql.on_day k d) l).
Proof.
  induction l as [|r l IH]; [reflexivity|]. cbn [map filter].
  replace (Sql.on_day k d (if hit r then Sql.with_status st r else r))
    with (Sql.on_day k d r) by (destruct (hit r); reflexivity).
  destruct (Sql.on_day k d r); cbn [List.length]; now rewrite IH.
Qed.

Variables (b : attendance_body) (w : world).

Let hit : attendance_row -> bool :=
  Sql.on_day (prepareValue (ab_employeeId b)) (prepareValue (ab_date b)).

Hypothesis stored_as_sent :
  varchar 255 (prepareValue (ab_date b)) = inr (prepareValue (ab_date b)).

(** The row an upsert inserts is found again by the look-up of the same
    request. *)
Lemma inserted_row_is_looked_up (rows : list attendance_row) (s : store)
    (outlet : sqlval) (row : attendance_row) :
  Sql.insert_attendance (Some (attendance_id (ab_employeeId b) (ab_date b)))
    (prepareValue (ab_employeeId b)) (prepareValue (ab_date b))
    (prepareValue (ab_status b)) outlet (db w) = inr (rows, s) ->
  In row rows ->
  forall e d, Sql.on_day (Some e) (Some d) row = true ->
    prepareValue (ab_employeeId b) = Some e /\ prepareValue (ab_date b) = Some d.
Proof.
  intros I Hrow e d Hon.
  apply insert_attendance_ok in I.
  destruct I as (row' & -> & _ & _ & Hid & He & Hd & _).
  destruct Hrow as [<-|[]].
  apply on_day_true in Hon. destruct Hon as [He' Hd'].
  rewrite He' in He. rewrite Hd' in Hd. rewrite stored_as_sent in Hd.
  split; [|congruence].
  destruct (ab_employeeId b) as [| |x]; cbn [prepareValue] in *;
    try (apply varchar_null in He; discriminate).
  apply varchar_stores_string in He.
  unfold attendance_id in Hid. cbn [template] in Hid.
  apply varchar_id_bounds_employee in Hid.
  rewrite take_all in He by lia. now subst.
Qed.

Lemma upsert_keeps_one_per_day :
  one_per_day (attendance (db w)) ->
  one_per_day (attendance (db (snd (post_attendance b w)))).
Proof.
  intros H.
  destruct (pool w) eqn:Hp;
    [|unfold post_attendance; now rewrite handler_no_pool by exact Hp].
  destruct (filter hit (attendance (db w))) as [|r0 rest] eqn:E.
  - rewrite (post_attendance_inserts b w Hp E). cbv zeta.
    destruct (Sql.insert_attendance _ _ _ _ _ _) as [err|[rows s]] eqn:I;
      [exact H|].
    assert (I' := I). apply insert_attendance_ok in I'.
    destruct I' as (row & -> & -> & _).
    assert (G : one_per_day (attendance (db w) ++ [row])).
    { intros e d. rewrite filter_app, length_app. cbn [filter].
      destruct (Sql.on_day (Some e) (Some d) row) eqn:Hon;
        [|specialize (H e d); cbn [List.length]; lia].
      destruct (inserted_row_is_looked_up _ _ _ row I (or_introl eq_refl) e d Hon)
        as [He Hd].
      unfold hit in E. rewrite He, Hd in E. rewrite E. cbn [List.length]. lia. }
    exact G.
  - assert (Hsome : filter hit (attendance (db w)) <> [])
      by (rewrite E; discriminate).
    rewrite (post_attendance_updates b w Hp Hsome). cbv zeta.
    unfold Sql.update_status, res_bind. fold hit.
    destruct (varchar 50 _) as [?|st1]; [exact H|].
    destruct (existsb hit (attendance (db w))); [|exact H].
    destruct (not_null _ _ st1) as [?|st2]; [exact H|].
    assert (G : one_per_day
                  (map (fun r => if hit r then Sql.with_status st2 r else r)
                     (attendance (db w))))
      by (intros e d; rewrite rows_after_status; apply H).
    rewrite E. exact G.
Qed.

End Pairs.

(** C2, the code's behaviour.  In every store the server reaches from
    freshly created tables there is at most one attendance row for each date
    and each employee id that is not NULL.  And in any store, reached by the
    server or not, where that holds, it holds after an upsert whose date is
    stored as sent: the upsert looks the pair up first; when it finds rows it
    adds none (the [id], [employee_id] and [date] columns are as before), and
    only when it finds none does it append a row. *)
Theorem one_row_per_employee_day :
  (forall w : world,
      reachable w ->
      forall e d : string,
        List.length (rows_of_pair (Some e) d (attendance (db w))) <= 1)
  /\
  (forall (w : world) (b : attendance_body),
      varchar 255 (prepareValue (ab_date b)) = inr (prepareValue (ab_date b)) ->
      (forall e d : string,
          List.length (rows_of_pair (Some e) d (attendance (db w))) <= 1) ->
      let hit := Sql.on_day (prepareValue (ab_employeeId b))
                   (prepareValue (ab_date b)) in
      let w' := snd (post_attendance b w) in
      (forall e d : string,
          List.length (rows_of_pair (Some e) d (attendance (db w'))) <= 1)
      /\ (filter hit (attendance (db w)) <> [] ->
          map a_id (attendance (db w')) = map a_id (attendance (db w))
          /\ map a_employee_id (attendance (db w'))
             = map a_employee_id (attendance (db w))
          /\ map a_date (attendance (db w')) = map a_date (attendance (db w)))
      /\ (filter hit (attendance (db w)) = [] ->
          attendance (db w') = attendance (db w)
          \/ exists row, attendance (db w') = attendance (db w) ++ [row])).
Proof.
  split.
  - intros w Hr. apply one_per_day_pairs.
    apply keyed_one_per_day. now apply reachable_keyed.
  - intros w b Hd H hit w'. split; [|split].
    + apply one_per_day_pairs. apply (upsert_keeps_one_per_day b w Hd).
      now apply one_per_day_pairs.
    + exact (upsert_existing_adds_no_row b w).
    + exact (upsert_fresh_adds_one_row b w).
Qed.

(** A store another client has written: the row of Ann's day carries an id
    the server would not have synthesized. *)
Definition imported : world :=
  mkWorld true
    (mkStore [ann] []
       [mkAttendance "row-1" (Some "emp-17") "2024-01-01" "present" (Some "North")])
    [].

Lemma imported_one_per_day (e d : string) :
  List.length (rows_of_pair (Some e) d (attendance (db imported))) <= 1.
Proof.
  unfold rows_of_pair. cbn [imported db attendance filter].
  destruct (_ && _); cbn [List.length]; lia.
Qed.

Lemma one_row_per_employee_day_witness :
  reachable ann_moved
  /\ (forall e d,
        List.length (rows_of_pair (Some e) d (attendance (db ann_moved))) <= 1)
  /\ varchar 255 (prepareValue (ab_date ann_absent))
     = inr (prepareValue (ab_date ann_absent))
  /\ (forall e d,
        List.length
          (rows_of_pair (Some e) d
             (attendance (db (snd (post_attendance ann_absent imported))))) <= 1)
  /\ map a_id (attendance (db (snd (post_attendance ann_absent imported))))
     = ["row-1"].
Proof.
  assert (R : reachable ann_moved)
    by (apply reachable_serve; apply reachable_initial).
  split; [exact R|].
  split; [exact (proj1 one_row_per_employee_day ann_moved R)|].
  split; [reflexivity|].
  split; [|reflexivity].
  apply (proj2 one_row_per_employee_day imported ann_absent eq_refl
           imported_one_per_day).
Defined.

(** The upsert of a day, first without [employeeId] and then with
    [employeeId: null]. *)
Definition nobody_twice : world :=
  serve
    [PostAttendance
       (mkAttendanceBody JUndefined (JStr "2024-01-01") (JStr "present"));
     PostAttendance
       (mkAttendanceBody JNull (JStr "2024-01-01") (JStr "present"))]
    (initial true).

(** C2 as stated fails: the server reaches a store with two attendance rows
    that show the same (employeeId, date) pair, a NULL employee id on
    2024-01-01; the look-up finds neither, NULL being equal to nothing, and
    their ids differ. *)
Lemma null_employee_rows_repeat :
  reachable nobody_twice
  /\ map (fun r => (a_id r, a_employee_id r, a_date r)) (attendance (db nobody_twice))
     = [("undefined-2024-01-01", None, "2024-01-01");
        ("null-2024-01-01", None, "2024-01-01")]
  /\ List.length (rows_of_pair None "2024-01-01" (attendance (db nobody_twice))) = 2
  /\ ~ List.length (rows_of_pair None "2024-01-01" (attendance (db nobody_twice))) <= 1.
Proof.
  split; [apply reachable_serve; apply reachable_initial|].
  split; [reflexivity|]. split; [reflexivity|].
  vm_compute. lia.
Qed.

(** * Further properties of the handlers *)

(** ** The probes

    [GET /api/test] and [GET /health] do not consult the store; they report
    whether [pool] is set.  [now] is what [new Date().toISOString()] gives. *)

Inductive probe_json : Type :=
| ApiTest (message timestamp database : string)
| Health (status timestamp database : string).

(** [pool ? 'connected' : 'not connected'] *)
Definition database_label (w : world) : string :=
  if pool w then "connected" else "not connected".

(** [GET /api/test] *)
Definition api_test (now : string) (w : world) : (nat * probe_json) * world :=
  ((200, ApiTest "API is working" now (database_label w)), w).

(** [GET /health] *)
Definition health (now : string) (w : world) : (nat * probe_json) * world :=
  ((200, Health "ok" now (database_label w)), w).

(** ** What each handler does with a configured store *)

Section Runs.

Variable w : world.
Hypothesis configured : pool w = true.

Lemma world_eta : mkWorld true (db w) (sent w) = w.
Proof. destruct w as [p s l]; cbn in *; now subst p. Qed.

Lemma get_employees_runs :
  get_employees w =
    (mkResponse 200 (JEmployees (employees (db w))),
     mkWorld true (db w) (sent w ++ [mkStatement "SELECT * FROM employees" []])).
Proof.
  unfold get_employees; rewrite handler_pool by exact configured.
  unfold bind, pool_query, ret, Sql.select_employees; cbn. now rewrite configured.
Qed.

Lemma get_departments_runs :
  get_departments w =
    (mkResponse 200 (JDepartments (departments (db w))),
     mkWorld true (db w) (sent w ++ [mkStatement "SELECT * FROM departments" []])).
Proof.
  unfold get_departments; rewrite handler_pool by exact configured.
  unfold bind, pool_query, ret, Sql.select_departments; cbn. now rewrite configured.
Qed.

Lemma get_attendance_runs :
  get_attendance w =
    (mkResponse 200 (JAttendances (map to_json (attendance (db w)))),
     mkWorld true (db w) (sent w ++ [mkStatement "SELECT * FROM attendance" []])).
Proof.
  unfold get_attendance; rewrite handler_pool by exact configured.
  unfold bind, pool_query, ret, Sql.select_attendance; cbn. now rewrite configured.
Qed.

(** The statement a PATCH with at least one field sends. *)
Definition patch_sent (id : string) (b : employee_body) : statement :=
  mkStatement
    ("UPDATE employees SET " ++ String.concat ", " (updateFields (build b))
     ++ " WHERE id = $" ++ decimal (paramIndex (build b)) ++ " RETURNING *")%string
    (map prepareValue (params (build b) ++ [JStr id])).

Lemma patch_employee_runs (id : string) (b : employee_body) :
  patch_employee id b w =
    if Nat.eqb (List.length (updateFields (build b))) 0 then
      (mkResponse 400 (JError (Text "No fields to update")), w)
    else
      match Sql.update_employee (sets (build b)) (Some id) (db w) with
      | inl e => (mkResponse 500 (JError (ErrorMessage (PgError e))),
                  mkWorld true (db w) (sent w ++ [patch_sent id b]))
      | inr (rows, s) =>
          (if Nat.eqb (List.length rows) 0
           then mkResponse 404 (JError (Text "Employee not found"))
           else mkResponse 200 (JEmployee (hd_error rows)),
           mkWorld true s (sent w ++ [patch_sent id b]))
      end.
Proof.
  unfold patch_employee; rewrite handler_pool by exact configured.
  cbv zeta.
  destruct (Nat.eqb (List.length (updateFields (build b))) 0); [reflexivity|].
  unfold bind, pool_query, ret, patch_sent. rewrite configured.
  destruct (Sql.update_employee _ _ _) as [e|[rows s]]; [reflexivity|].
  destruct (Nat.eqb (List.length rows) 0); reflexivity.
Qed.

Lemma delete_department_runs (id : string) :
  let hit r := d_id r =? id in
  delete_department id w =
    (if Nat.eqb (List.length (filter hit (departments (db w)))) 0
     then mkResponse 404 (JError (Text "Department not found"))
     else mkResponse 200 JSuccess,
     mkWorld true
       (set_departments (filter (fun r => negb (hit r)) (departments (db w))) (db w))
       (sent w ++
        [mkStatement "DELETE FROM departments WHERE id = $1 RETURNING *" [Some id]])).
Proof.
  intros hit.
  unfold delete_department; rewrite handler_pool by exact configured.
  unfold bind, pool_query, ret, Sql.delete_department.
  cbn [db pool sent map prepareValue sql_eq]. rewrite configured.
  fold hit. destruct (Nat.eqb _ 0); reflexivity.
Qed.

Lemma delete_attendance_runs (employeeId date : string) :
  let hit := Sql.on_day (Some employeeId) (Some date) in
  delete_attendance employeeId date w =
    (if Nat.eqb (List.length (filter hit (attendance (db w)))) 0
     then mkResponse 404 (JError (Text "Attendance record not found"))
     else mkResponse 200 JSuccess,
     mkWorld true
       (set_attendance (filter (fun r => negb (hit r)) (attendance (db w))) (db w))
       (sent w ++
        [mkStatement
           "DELETE FROM attendance WHERE employee_id = $1 AND date = $2 RETURNING *"
           [Some employeeId; Some date]])).
Proof.
  intros hit.
  unfold delete_attendance; rewrite handler_pool by exact configured.
  unfold bind, pool_query, ret, Sql.delete_attendance_on.
  cbn [db pool sent map prepareValue]. rewrite configured.
  fold hit. destruct (Nat.eqb _ 0); reflexivity.
Qed.

End Runs.

(** ** Deleting by key *)

Section Filters.

Context {A : Type}.

Lemma filter_none_keeps_all (p : A -> bool) (l : list A) :
  filter p l = [] -> filter (fun x => negb (p x)) l = l.
Proof.
  intros H; apply filter_all; intros x Hx.
  destruct (p x) eqn:E; [|reflexivity].
  assert (X : In x (filter p l)) by (apply filter_In; tauto).
  rewrite H in X; destruct X.
Qed.

Lemma filter_twice (p : A -> bool) (l : list A) :
  filter p (filter p l) = filter p l.
Proof.
  apply filter_all; intros x Hx; apply filter_In in Hx; tauto.
Qed.

Lemma eqb_zero_length (l : list A) :
  Nat.eqb (List.length l) 0 = true <-> l = [].
Proof. destruct l; cbn; split; congruence. Qed.

End Filters.

Lemma store_eta (s : store) :
  mkStore (employees s) (departments s) (attendance s) = s.
Proof. destruct s; reflexivity. Qed.

(** X1. [DELETE /api/attendance/:employeeId/:date] with a configured store
    answers 404 exactly when the table holds no row for the pair, and then
    changes nothing; otherwise it answers 200.  In both cases the table
    afterwards is the old one without the rows of that pair, and the other
    two tables are untouched. *)
Theorem delete_attendance_by_pair (e d : string) (w : world) :
  pool w = true ->
  let hit := Sql.on_day (Some e) (Some d) in
  let r := delete_attendance e d w in
  (filter hit (attendance (db w)) = [] ->
     fst r = mkResponse 404 (JError (Text "Attendance record not found"))
     /\ db (snd r) = db w)
  /\ (filter hit (attendance (db w)) <> [] -> fst r = mkResponse 200 JSuccess)
  /\ attendance (db (snd r)) = filter (fun a => negb (hit a)) (attendance (db w))
  /\ filter hit (attendance (db (snd r))) = []
  /\ employees (db (snd r)) = employees (db w)
  /\ departments (db (snd r)) = departments (db w).
Proof.
  intros Hp hit r; subst r.
  rewrite (delete_attendance_runs w Hp e d); cbv zeta; fold hit.
  cbn [fst snd db attendance employees departments set_attendance].
  split; [|split; [|split; [|split; [|split]]]]; try reflexivity.
  - intros H. rewrite H; cbn. split; [reflexivity|].
    rewrite (filter_none_keeps_all hit) by (rewrite <- H; reflexivity).
    apply store_eta.
  - intros H. destruct (filter hit (attendance (db w))); [congruence|reflexivity].
  - apply (filter_negb_self hit).
Qed.

Lemma delete_attendance_by_pair_witness :
  pool one_day = true
  /\ fst (delete_attendance "emp-17" "2024-01-01" one_day) = mkResponse 200 JSuccess
  /\ attendance (db (snd (delete_attendance "emp-17" "2024-01-01" one_day))) = [].
Proof.
  split; [reflexivity|].
  split.
  - apply (delete_attendance_by_pair "emp-17" "2024-01-01" one_day eq_refl).
    vm_compute; discriminate.
  - reflexivity.
Defined.

(** X2. [DELETE /api/departments/:id] with a configured store answers 404
    exactly when no department carries the id, and then changes nothing;
    otherwise it answers 200.  The departments table afterwards is the old
    one without the rows of that id; employees, whose [department] is a
    free-text label, and attendance rows are untouched. *)
Theorem delete_department_by_id (id : string) (w : world) :
  pool w = true ->
  let hit r := d_id r =? id in
  let r := delete_department id w in
  (filter hit (departments (db w)) = [] ->
     fst r = mkResponse 404 (JError (Text "Department not found"))
     /\ db (snd r) = db w)
  /\ (filter hit (departments (db w)) <> [] -> fst r = mkResponse 200 JSuccess)
  /\ departments (db (snd r)) = filter (fun a => negb (hit a)) (departments (db w))
  /\ employees (db (snd r)) = employees (db w)
  /\ attendance (db (snd r)) = attendance (db w).
Proof.
  intros Hp hit r; subst r.
  rewrite (delete_department_runs w Hp id); cbv zeta; fold hit.
  cbn [fst snd db attendance employees departments set_departments].
  split; [|split; [|split; [|split]]]; try reflexivity.
  - intros H. rewrite H; cbn. split; [reflexivity|].
    rewrite (filter_none_keeps_all hit) by (rewrite <- H; reflexivity).
    apply store_eta.
  - intros H. destruct (filter hit (departments (db w))); [congruence|reflexivity].
Qed.

Definition sales : department_row := mkDepartment "dept-5" "Sales" (Some "") (Some "HQ").

Definition with_sales : world := mkWorld true (mkStore [ann] [sales] []) [].

Lemma delete_department_by_id_witness :
  pool with_sales = true
  /\ fst (delete_department "dept-5" with_sales) = mkResponse 200 JSuccess
  /\ employees (db (snd (delete_department "dept-5" with_sales))) = [ann].
Proof.
  split; [reflexivity|].
  split.
  - apply (delete_department_by_id "dept-5" with_sales eq_refl).
    vm_compute; discriminate.
  - apply (delete_department_by_id "dept-5" with_sales eq_refl).
Defined.

(** X3. Repeating a delete.  After [DELETE /api/employees/:id], whatever it
    answered, the same request answers 404 and leaves the store as it is;
    likewise for departments and for attendance pairs. *)
Theorem delete_again_is_not_found (w : world) :
  pool w = true ->
  (forall id,
      let w1 := snd (delete_employee id w) in
      fst (delete_employee id w1) = mkResponse 404 (JError (Text "Employee not found"))
      /\ db (snd (delete_employee id w1)) = db w1)
  /\ (forall id,
      let w1 := snd (delete_department id w) in
      fst (delete_department id w1)
        = mkResponse 404 (JError (Text "Department not found"))
      /\ db (snd (delete_department id w1)) = db w1)
  /\ (forall e d,
      let w1 := snd (delete_attendance e d w) in
      fst (delete_attendance e d w1)
        = mkResponse 404 (JError (Text "Attendance record not found"))
      /\ db (snd (delete_attendance e d w1)) = db w1).
Proof.
  intros Hp. split; [|split].
  - intros id w1; subst w1.
    rewrite (delete_employee_runs id w Hp). cbn [snd].
    rewrite delete_employee_runs by reflexivity.
    cbn [fst snd db employees departments attendance].
    rewrite (filter_negb_self (fun e => sql_eq (Some (e_id e)) (Some id))).
    rewrite (filter_twice (fun e => negb (sql_eq (Some (e_id e)) (Some id)))).
    rewrite (filter_twice (fun a => negb (sql_eq (a_employee_id a) (Some id)))).
    split; reflexivity.
  - intros id w1; subst w1.
    rewrite (delete_department_runs w Hp id). cbn [snd].
    rewrite delete_department_runs by reflexivity.
    cbn [fst snd db employees departments attendance set_departments].
    rewrite (filter_negb_self (fun r => d_id r =? id)).
    rewrite (filter_twice (fun r => negb (d_id r =? id))).
    split; reflexivity.
  - intros e d w1; subst w1.
    rewrite (delete_attendance_runs w Hp e d). cbn [snd].
    rewrite delete_attendance_runs by reflexivity.
    cbn [fst snd db employees departments attendance set_attendance].
    rewrite (filter_negb_self (Sql.on_day (Some e) (Some d))).
    rewrite (filter_twice (fun r => negb (Sql.on_day (Some e) (Some d) r))).
    split; reflexivity.
Qed.

Lemma delete_again_is_not_found_witness :
  pool one_day = true
  /\ fst (delete_employee "emp-17" one_day) = mkResponse 200 JSuccess
  /\ fst (delete_employee "emp-17" (snd (delete_employee "emp-17" one_day)))
     = mkResponse 404 (JError (Text "Employee not found")).
Proof.
  split; [reflexivity|]. split; [reflexivity|].
  apply (proj1 (delete_again_is_not_found one_day eq_refl) "emp-17").
Defined.

(** ** The statement a PATCH builds *)

(** The columns a PATCH can set, in the order the handler tests them. *)
Definition all_columns : list Sql.employee_column :=
  [Sql.Cname; Sql.Cemail; Sql.Cphone; Sql.Caddress; Sql.Cdepartment; Sql.Coutlet].

(** The request field that feeds a column. *)
Definition field (b : employee_body) (c : Sql.employee_column) : jsval :=
  match c with
  | Sql.Cname => eb_name b
  | Sql.Cemail => eb_email b
  | Sql.Cphone => eb_phone b
  | Sql.Caddress => eb_address b
  | Sql.Cdepartment => eb_department b
  | Sql.Coutlet => eb_outlet b
  end.

(** [c1 = $i, c2 = $i+1, ...] *)
Fixpoint placeholders (i : N) (cols : list Sql.employee_column) : list string :=
  match cols with
  | [] => []
  | c :: rest =>
      (Sql.column_name c ++ " = $" ++ decimal i)%string :: placeholders (i + 1) rest
  end.

Lemma build_sets (b : employee_body) :
  sets (build b) =
    map (fun c => (c, prepareValue (field b c)))
      (filter (fun c => defined (field b c)) all_columns).
Proof.
  destruct b as [n e p a d o].
  destruct n, e, p, a, d, o; reflexivity.
Qed.

Lemma build_shape (id : string) (b : employee_body) :
  let cols := filter (fun c => defined (field b c)) all_columns in
  updateFields (build b) = placeholders 1 cols
  /\ values (patch_sent id b)
     = map (fun c => prepareValue (field b c)) cols ++ [Some id]
  /\ paramIndex (build b) = N.of_nat (List.length (values (patch_sent id b))).
Proof.
  destruct b as [n e p a d o].
  destruct n, e, p, a, d, o; repeat split.
Qed.

(** X4. The UPDATE that a PATCH builds is well formed.  Its SET list names
    exactly the fields present in the body ([null] counts as present), in the
    handler's order, the i-th one bound to placeholder [$i]; the values are
    sent in the same order, followed by the id, which is what the
    placeholder of the WHERE clause refers to. *)
Theorem patch_statement_shape (id : string) (b : employee_body) :
  let cols := filter (fun c => defined (field b c)) all_columns in
  updateFields (build b) = placeholders 1 cols
  /\ values (patch_sent id b)
     = map (fun c => prepareValue (field b c)) cols ++ [Some id]
  /\ paramIndex (build b) = N.of_nat (List.length (values (patch_sent id b)))
  /\ sets (build b) = map (fun c => (c, prepareValue (field b c))) cols.
Proof.
  intros cols.
  destruct (build_shape id b) as (H1 & H2 & H3).
  repeat split; try assumption. apply build_sets.
Qed.

(** ** What a PATCH changes *)

(** A column of an employee row, as the store holds it. *)
Definition column_of (c : Sql.employee_column) (r : employee_row) : sqlval :=
  match c with
  | Sql.Cname => Some (e_name r)
  | Sql.Cemail => e_email r
  | Sql.Cphone => e_phone r
  | Sql.Caddress => e_address r
  | Sql.Cdepartment => e_department r
  | Sql.Coutlet => e_outlet r
  end.

Section SetColumns.

Lemma set_column_id (r : employee_row) (cv : Sql.employee_column * sqlval) :
  e_id (Sql.set_column r cv) = e_id r.
Proof. destruct cv as [[] v]; reflexivity. Qed.

Lemma set_columns_id (l : list (Sql.employee_column * sqlval)) (r : employee_row) :
  e_id (fold_left Sql.set_column l r) = e_id r.
Proof.
  revert r; induction l as [|cv l IH]; intros r; cbn [fold_left]; [reflexivity|].
  now rewrite IH, set_column_id.
Qed.

Lemma set_column_other (c : Sql.employee_column) (r : employee_row)
    (cv : Sql.employee_column * sqlval) :
  fst cv <> c -> column_of c (Sql.set_column r cv) = column_of c r.
Proof. destruct cv as [[] v], c; cbn; intros H; congruence. Qed.

Lemma set_columns_other (c : Sql.employee_column)
    (l : list (Sql.employee_column * sqlval)) (r : employee_row) :
  ~ In c (map fst l) -> column_of c (fold_left Sql.set_column l r) = column_of c r.
Proof.
  revert r; induction l as [|cv l IH]; intros r H; cbn [fold_left]; [reflexivity|].
  cbn [map] in H.
  rewrite IH by (intros X; apply H; now right).
  apply set_column_other. intros X; apply H; now left.
Qed.

Lemma coerce_sets_columns (l l1 : list (Sql.employee_column * sqlval)) :
  Sql.coerce_sets l = inr l1 -> map fst l1 = map fst l.
Proof.
  revert l1; induction l as [|[c v] l IH]; intros l1; cbn [Sql.coerce_sets].
  - intros H; inversion H; reflexivity.
  - unfold res_bind.
    destruct (Sql.coerce_column c v) as [?|v1]; [discriminate|].
    destruct (Sql.coerce_sets l) as [?|l2]; [discriminate|].
    intros H; inversion H; subst. cbn [map fst]. now rewrite (IH l2 eq_refl).
Qed.

Lemma absent_not_set (b : employee_body) (c : Sql.employee_column) :
  field b c = JUndefined -> ~ In c (map fst (sets (build b))).
Proof.
  intros H X. rewrite build_sets, map_map in X. cbn [fst] in X.
  rewrite map_id in X. apply filter_In in X. rewrite H in X.
  destruct X; discriminate.
Qed.

(** What a successful UPDATE of employees leaves alone. *)
Lemma update_employee_frame (b : employee_body) (id : sqlval)
    (s s' : store) (rows : list employee_row) :
  Sql.update_employee (sets (build b)) id s = inr (rows, s') ->
  departments s' = departments s
  /\ attendance s' = attendance s
  /\ map e_id (employees s') = map e_id (employees s)
  /\ filter (fun r => negb (sql_eq (Some (e_id r)) id)) (employees s')
     = filter (fun r => negb (sql_eq (Some (e_id r)) id)) (employees s)
  /\ forall c, field b c = JUndefined ->
       map (column_of c) (employees s') = map (column_of c) (employees s).
Proof.
  unfold Sql.update_employee, res_bind.
  destruct (Sql.coerce_sets (sets (build b))) as [?|sets1] eqn:C; [discriminate|].
  destruct (existsb _ (employees s));
    [|intros E; inversion E; subst; repeat split; reflexivity].
  destruct (Sql.check_sets sets1); [discriminate|].
  intros E; inversion E; subst; clear E.
  cbn [departments attendance employees set_employees].
  split; [reflexivity|]. split; [reflexivity|].
  apply coerce_sets_columns in C.
  split; [|split].
  - rewrite map_map. apply map_ext; intros r.
    change (match id with Some y => e_id r =? y | None => false end)
      with (sql_eq (Some (e_id r)) id).
    destruct (sql_eq (Some (e_id r)) id); [apply set_columns_id | reflexivity].
  - induction (employees s) as [|r l IH]; cbn [map filter]; [reflexivity|].
    change (match id with Some y => e_id r =? y | None => false end)
      with (sql_eq (Some (e_id r)) id).
    destruct (sql_eq (Some (e_id r)) id) eqn:Hr.
    + rewrite set_columns_id, Hr. exact IH.
    + rewrite Hr. cbn [negb]. now rewrite IH.
  - intros c Hc. rewrite map_map. apply map_ext; intros r.
    change (match id with Some y => e_id r =? y | None => false end)
      with (sql_eq (Some (e_id r)) id).
    destruct (sql_eq (Some (e_id r)) id); [|reflexivity].
    apply set_columns_other. rewrite C. now apply absent_not_set.
Qed.

End SetColumns.

(** X5. A PATCH, whatever it answers, leaves the departments and attendance
    tables as they are (so an attendance row keeps the outlet it was written
    with), keeps the id of every employee row, leaves every row under another
    id as it is, and leaves every column whose field is absent from the body
    as it is, in all rows. *)
Theorem patch_frame (id : string) (b : employee_body) (w : world) :
  let w' := snd (patch_employee id b w) in
  departments (db w') = departments (db w)
  /\ attendance (db w') = attendance (db w)
  /\ map e_id (employees (db w')) = map e_id (employees (db w))
  /\ filter (fun r => negb (e_id r =? id)) (employees (db w'))
     = filter (fun r => negb (e_id r =? id)) (employees (db w))
  /\ forall c, field b c = JUndefined ->
       map (column_of c) (employees (db w')) = map (column_of c) (employees (db w)).
Proof.
  intros w'; subst w'.
  destruct (pool w) eqn:Hp.
  - rewrite (patch_employee_runs w Hp).
    destruct (Nat.eqb _ 0); [repeat split; reflexivity|].
    destruct (Sql.update_employee _ _ _) as [e|[rows s]] eqn:E;
      [repeat split; reflexivity|].
    exact (update_employee_frame b (Some id) (db w) s rows E).
  - unfold patch_employee; rewrite handler_no_pool by exact Hp.
    repeat split; reflexivity.
Qed.

(** ** A PATCH that reaches rows *)

(** A string no longer than [n]; [null] and an absent field pass. *)
Definition within (n : nat) (v : jsval) : bool :=
  match v with
  | JStr s => Nat.leb (String.length s) n
  | _ => true
  end.

(** Every field of the body fits the column it feeds ([address] is TEXT). *)
Definition fits_columns (b : employee_body) : bool :=
  within 255 (eb_name b) && within 255 (eb_email b) && within 255 (eb_phone b)
  && within 255 (eb_department b) && within 255 (eb_outlet b).

(** Some field is present in the body. *)
Definition some_field (b : employee_body) : bool :=
  existsb (fun c => defined (field b c)) all_columns.

(** A field that is present replaces the column; [null] empties it. *)
Definition pick (v : jsval) (old : sqlval) : sqlval :=
  if defined v then prepareValue v else old.

(** The row a PATCH is meant to leave: present fields replace their columns,
    the others stay. *)
Definition patched (b : employee_body) (r : employee_row) : employee_row :=
  mkEmployee (e_id r)
    (match eb_name b with JStr n => n | _ => e_name r end)
    (pick (eb_email b) (e_email r))
    (pick (eb_phone b) (e_phone r))
    (pick (eb_address b) (e_address r))
    (pick (eb_department b) (e_department r))
    (pick (eb_outlet b) (e_outlet r)).

Section PatchRows.

Variable b : employee_body.

Lemma within_coerces (c : Sql.employee_column) :
  fits_columns b = true ->
  Sql.coerce_column c (prepareValue (field b c)) = inr (prepareValue (field b c)).
Proof.
  unfold fits_columns; intros H.
  repeat (apply andb_true_iff in H; destruct H as [H ?]).
  destruct c; cbn [field Sql.coerce_column]; try reflexivity;
    match goal with
    | |- varchar 255 (prepareValue ?v) = _ =>
        destruct v as [| |s]; [reflexivity | reflexivity |];
        cbn [prepareValue within] in *; apply varchar_fits; now apply Nat.leb_le
    end.
Qed.

Lemma coerce_sets_fits :
  fits_columns b = true ->
  Sql.coerce_sets (sets (build b)) = inr (sets (build b)).
Proof.
  intros H. rewrite build_sets.
  induction (filter (fun c => defined (field b c)) all_columns) as [|c l IH];
    [reflexivity|].
  cbn [map Sql.coerce_sets]. unfold res_bind.
  now rewrite (within_coerces c H), IH.
Qed.

Lemma check_sets_named :
  eb_name b <> JNull -> Sql.check_sets (sets (build b)) = inr tt.
Proof.
  intros H. rewrite build_sets.
  assert (G : forall l, Sql.check_sets
                (map (fun c => (c, prepareValue (field b c)))
                   (filter (fun c => defined (field b c)) l)) = inr tt).
  { induction l as [|c l IH]; [reflexivity|]. cbn [filter].
    destruct (defined (field b c)) eqn:D; [|exact IH].
    cbn [map Sql.check_sets].
    destruct c; try exact IH.
    cbn [field] in *. destruct (eb_name b); [discriminate|congruence|exact IH]. }
  apply G.
Qed.

Lemma fold_patched (r : employee_row) :
  fold_left Sql.set_column (sets (build b)) r = patched b r.
Proof.
  destruct b as [n e p a d o], r.
  destruct n, e, p, a, d, o; reflexivity.
Qed.

Lemma some_field_pushed :
  some_field b = true -> Nat.eqb (List.length (updateFields (build b))) 0 = false.
Proof.
  destruct b as [n e p a d o].
  destruct n, e, p, a, d, o; cbn; congruence.
Qed.

End PatchRows.

(** X6. A PATCH that names at least one field, none wider than its column
    and [name] not null, for an id some employee carries: the answer is 200
    with the first row of that id as patched, and the employees table is the
    old one with each row of that id patched, that is, present fields
    replaced ([null] empties a column) and absent ones kept. *)
Theorem patch_applies (id : string) (b : employee_body) (w : world) :
  pool w = true ->
  some_field b = true ->
  eb_name b <> JNull ->
  fits_columns b = true ->
  filter (fun r => e_id r =? id) (employees (db w)) <> [] ->
  let w' := snd (patch_employee id b w) in
  (exists r rest,
      filter (fun r => e_id r =? id) (employees (db w)) = r :: rest
      /\ fst (patch_employee id b w)
         = mkResponse 200 (JEmployee (Some (patched b r))))
  /\ employees (db w')
     = map (fun r => if e_id r =? id then patched b r else r) (employees (db w))
  /\ sent w' = sent w ++ [patch_sent id b].
Proof.
  intros Hp Hs Hn Hf He w'; subst w'.
  rewrite (patch_employee_runs w Hp).
  rewrite (some_field_pushed b Hs).
  unfold Sql.update_employee, res_bind. cbn [sql_eq].
  rewrite (coerce_sets_fits b Hf).
  destruct (existsb (fun r => e_id r =? id) (employees (db w))) eqn:X;
    [|apply filter_nil_existsb in X; contradiction].
  rewrite (check_sets_named b Hn).
  destruct (filter (fun r => e_id r =? id) (employees (db w))) as [|r rest] eqn:E;
    [congruence|].
  assert (Hr : (e_id r =? id) = true).
  { assert (In r (filter (fun r => e_id r =? id) (employees (db w))))
      by (rewrite E; now left).
    apply filter_In in H; tauto. }
  cbn [map List.length Nat.eqb fst snd db sent employees set_employees hd_error].
  rewrite Hr, fold_patched.
  split; [exists r, rest; split; reflexivity|].
  split; [|reflexivity].
  apply map_ext; intros x. now rewrite fold_patched.
Qed.

(** The body [{ outlet: "South", phone: null }]. *)
Definition moves_south : employee_body :=
  mkEmployeeBody JUndefined JUndefined JNull JUndefined JUndefined (JStr "South").

Lemma patch_applies_witness :
  pool ann_hired = true
  /\ some_field moves_south = true
  /\ eb_name moves_south <> JNull
  /\ fits_columns moves_south = true
  /\ filter (fun r => e_id r =? "emp-17") (employees (db ann_hired)) <> []
  /\ employees (db (snd (patch_employee "emp-17" moves_south ann_hired)))
     = map (fun r => if e_id r =? "emp-17" then patched moves_south r else r)
         (employees (db ann_hired))
  /\ map e_outlet (employees (db (snd (patch_employee "emp-17" moves_south ann_hired))))
     = [Some "South"].
Proof.
  split; [reflexivity|]. split; [reflexivity|]. split; [discriminate|].
  split; [reflexivity|]. split; [vm_compute; discriminate|].
  split; [|reflexivity].
  apply (patch_applies "emp-17" moves_south ann_hired);
    try reflexivity; try discriminate; vm_compute; discriminate.
Defined.

(** X7. A PATCH that names at least one field, none wider than its column,
    for an id no employee carries is answered 404; the UPDATE was sent and
    the store is unchanged. *)
Theorem patch_unknown_employee (id : string) (b : employee_body) (w : world) :
  pool w = true ->
  some_field b = true ->
  fits_columns b = true ->
  existsb (fun r => e_id r =? id) (employees (db w)) = false ->
  patch_employee id b w =
    (mkResponse 404 (JError (Text "Employee not found")),
     mkWorld true (db w) (sent w ++ [patch_sent id b])).
Proof.
  intros Hp Hs Hf He.
  rewrite (patch_employee_runs w Hp).
  rewrite (some_field_pushed b Hs).
  unfold Sql.update_employee, res_bind. cbn [sql_eq].
  rewrite (coerce_sets_fits b Hf), He. reflexivity.
Qed.

Lemma patch_unknown_employee_witness :
  pool ann_hired = true
  /\ some_field moves_south = true
  /\ fits_columns moves_south = true
  /\ existsb (fun r => e_id r =? "emp-18") (employees (db ann_hired)) = false
  /\ fst (patch_employee "emp-18" moves_south ann_hired)
     = mkResponse 404 (JError (Text "Employee not found")).
Proof.
  split; [reflexivity|]. split; [reflexivity|]. split; [reflexivity|].
  split; [reflexivity|].
  rewrite (patch_unknown_employee "emp-18" moves_south ann_hired);
    reflexivity.
Defined.

(** X8. [name] cannot be emptied: a PATCH whose [name] is null, with its
    other fields within the column widths, for an id some employee carries is
    answered 500 with the store's NOT NULL violation, and the store is
    unchanged, the other fields of the body included. *)
Theorem patch_null_name (id : string) (b : employee_body) (w : world) :
  pool w = true ->
  eb_name b = JNull ->
  fits_columns b = true ->
  existsb (fun r => e_id r =? id) (employees (db w)) = true ->
  patch_employee id b w =
    (mkResponse 500
       (JError (ErrorMessage (PgError (NotNullViolation "employees" "name")))),
     mkWorld true (db w) (sent w ++ [patch_sent id b])).
Proof.
  intros Hp Hn Hf He.
  rewrite (patch_employee_runs w Hp).
  assert (Hs : some_field b = true)
    by (unfold some_field; cbn [existsb all_columns field]; now rewrite Hn).
  rewrite (some_field_pushed b Hs).
  unfold Sql.update_employee, res_bind. cbn [sql_eq].
  rewrite (coerce_sets_fits b Hf), He.
  rewrite build_sets. cbn [all_columns filter field]. rewrite Hn.
  cbn [defined map field]. rewrite Hn. reflexivity.
Qed.

(** The body [{ name: null, email: "ann@example.org" }]. *)
Definition unnamed : employee_body :=
  mkEmployeeBody JNull (JStr "ann@example.org") JUndefined JUndefined JUndefined
    JUndefined.

Lemma patch_null_name_witness :
  pool ann_hired = true
  /\ eb_name unnamed = JNull
  /\ fits_columns unnamed = true
  /\ existsb (fun r => e_id r =? "emp-17") (employees (db ann_hired)) = true
  /\ db (snd (patch_employee "emp-17" unnamed ann_hired)) = db ann_hired.
Proof.
  split; [reflexivity|]. split; [reflexivity|]. split; [reflexivity|].
  split; [reflexivity|].
  rewrite (patch_null_name "emp-17" unnamed ann_hired); reflexivity.
Defined.

(** ** Answers and their effect on the store *)

(** The answers of an endpoint that are not failures of the request. *)
Definition served (r : request) : list nat :=
  match r with
  | GetEmployees | GetDepartments | GetAttendance => [200]
  | PostEmployees _ _ | PostDepartments _ _ => [201]
  | PatchEmployee _ _ => [200; 404]
  | DeleteEmployee _ | DeleteDepartment _ | DeleteAttendance _ _ => [200; 404]
  | PostAttendance _ => [200; 201]
  end.

(** The refusals of an endpoint. *)
Definition refused (r : request) : list nat :=
  match r with
  | PatchEmployee _ _ => [400; 500]
  | _ => [500]
  end.

Section Outcomes.

Variable w : world.
Hypothesis configured : pool w = true.

Lemma update_status_rows (status employee_id date : sqlval) (s s' : store) :
  filter (Sql.on_day employee_id date) (attendance s) <> [] ->
  Sql.update_status status employee_id date s = inr ([], s') -> False.
Proof.
  intros Hsome. unfold Sql.update_status, res_bind.
  destruct (varchar 50 status) as [?|st1]; [discriminate|].
  destruct (existsb _ (attendance s)) eqn:X;
    [|apply filter_nil_existsb in X; contradiction].
  destruct (not_null _ _ st1) as [?|st2]; [discriminate|].
  destruct (filter _ (attendance s)); [congruence|discriminate].
Qed.

Lemma post_attendance_outcome (b : attendance_body) :
  In (status (fst (post_attendance b w))) [200; 201]
  \/ (status (fst (post_attendance b w)) = 500
      /\ db (snd (post_attendance b w)) = db w).
Proof.
  destruct (filter (Sql.on_day (prepareValue (ab_employeeId b))
                      (prepareValue (ab_date b))) (attendance (db w)))
    as [|r0 rest] eqn:E.
  - rewrite (post_attendance_inserts b w configured E). cbv zeta.
    destruct (Sql.insert_attendance _ _ _ _ _ _) as [e|[[|r rows] s]] eqn:I.
    + right; split; reflexivity.
    + apply insert_attendance_ok in I. destruct I as (row & X & _). discriminate.
    + left; cbn; tauto.
  - assert (Hsome : filter (Sql.on_day (prepareValue (ab_employeeId b))
                              (prepareValue (ab_date b))) (attendance (db w)) <> [])
      by (rewrite E; discriminate).
    rewrite (post_attendance_updates b w configured Hsome). cbv zeta.
    destruct (Sql.update_status _ _ _ _) as [e|[[|r rows] s]] eqn:U.
    + right; split; reflexivity.
    + exfalso. exact (update_status_rows _ _ _ _ _ Hsome U).
    + left; cbn; tauto.
Qed.

Lemma handle_outcome (r : request) :
  In (status (fst (handle r w))) (served r)
  \/ (In (status (fst (handle r w))) (refused r)
      /\ db (snd (handle r w)) = db w).
Proof.
  destruct r; cbn [handle served refused].
  - rewrite (get_employees_runs w configured). left; cbn; tauto.
  - rewrite (post_employees_runs w configured). cbv zeta.
    destruct (Sql.insert_employee _ _ _ _ _ _ _ _) as [e|[rows s]];
      [right | left]; cbn; tauto.
  - rewrite (patch_employee_runs w configured).
    destruct (Nat.eqb _ 0); [right; cbn; tauto|].
    destruct (Sql.update_employee _ _ _) as [e|[rows s]]; [right; cbn; tauto|].
    left. destruct (Nat.eqb _ 0); cbn; tauto.
  - rewrite (delete_employee_runs id w configured).
    left. destruct (Nat.eqb _ 0); cbn; tauto.
  - rewrite (get_departments_runs w configured). left; cbn; tauto.
  - rewrite (post_departments_runs w configured). cbv zeta.
    destruct (Sql.insert_department _ _ _ _ _) as [e|[rows s]];
      [right | left]; cbn; tauto.
  - rewrite (delete_department_runs w configured id). cbv zeta.
    left. destruct (Nat.eqb _ 0); cbn; tauto.
  - rewrite (get_attendance_runs w configured). left; cbn; tauto.
  - destruct (post_attendance_outcome b) as [H|[H1 H2]];
      [left; exact H | right; split; [rewrite H1; now left | exact H2]].
  - rewrite (delete_attendance_runs w configured employeeId date). cbv zeta.
    left. destruct (Nat.eqb _ 0); cbn; tauto.
Qed.

End Outcomes.

Lemma handle_no_pool (r : request) (w : world) :
  pool w = false ->
  handle r w = (mkResponse 503 (JError (Text "Database not available")), w).
Proof. intros H; destruct r; apply handler_no_pool; exact H. Qed.

Section Refusals.

Variable w : world.
Hypothesis configured : pool w = true.

(** With a configured store, an error of the [try] block is answered 500. *)
Lemma thrown_is_500 (r : request) (x : exn) :
  body (fst (handle r w)) = JError (ErrorMessage x) ->
  status (fst (handle r w)) = 500.
Proof.
  destruct r; cbn [handle].
  - rewrite (get_employees_runs w configured). cbn; discriminate.
  - rewrite (post_employees_runs w configured). cbv zeta.
    destruct (Sql.insert_employee _ _ _ _ _ _ _ _) as [e|[rows s]];
      cbn; [reflexivity | discriminate].
  - rewrite (patch_employee_runs w configured).
    destruct (Nat.eqb _ 0); [cbn; discriminate|].
    destruct (Sql.update_employee _ _ _) as [e|[rows s]]; [reflexivity|].
    destruct (Nat.eqb _ 0); cbn; discriminate.
  - rewrite (delete_employee_runs id w configured).
    destruct (Nat.eqb _ 0); cbn; discriminate.
  - rewrite (get_departments_runs w configured). cbn; discriminate.
  - rewrite (post_departments_runs w configured). cbv zeta.
    destruct (Sql.insert_department _ _ _ _ _) as [e|[rows s]];
      cbn; [reflexivity | discriminate].
  - rewrite (delete_department_runs w configured id). cbv zeta.
    destruct (Nat.eqb _ 0); cbn; discriminate.
  - rewrite (get_attendance_runs w configured). cbn; discriminate.
  - destruct (filter (Sql.on_day (prepareValue (ab_employeeId b))
                        (prepareValue (ab_date b))) (attendance (db w)))
      as [|r0 rest] eqn:E.
    + rewrite (post_attendance_inserts b w configured E). cbv zeta.
      destruct (Sql.insert_attendance _ _ _ _ _ _) as [e|[[|r rows] s]];
        cbn; [reflexivity | reflexivity | discriminate].
    + assert (Hsome : filter (Sql.on_day (prepareValue (ab_employeeId b))
                                (prepareValue (ab_date b)))
                        (attendance (db w)) <> [])
        by (rewrite E; discriminate).
      rewrite (post_attendance_updates b w configured Hsome). cbv zeta.
      destruct (Sql.update_status _ _ _ _) as [e|[[|r rows] s]];
        cbn; [reflexivity | reflexivity | discriminate].
  - rewrite (delete_attendance_runs w configured employeeId date). cbv zeta.
    destruct (Nat.eqb _ 0); cbn; discriminate.
Qed.

(** With a configured store, only a PATCH without fields is answered 400,
    and it sends nothing. *)
Lemma only_patch_answers_400 (r : request) :
  status (fst (handle r w)) = 400 -> snd (handle r w) = w.
Proof.
  intros X.
  assert (P : exists id b, r = PatchEmployee id b).
  { destruct (handle_outcome w configured r) as [H|[H _]];
      rewrite X in H; destruct r; cbn in H; try lia; eauto. }
  destruct P as (id & b & ->). cbn [handle] in *. revert X.
  rewrite (patch_employee_runs w configured).
  destruct (Nat.eqb _ 0); [reflexivity|].
  destruct (Sql.update_employee _ _ _) as [e|[rows s]]; [cbn; discriminate|].
  destruct (Nat.eqb _ 0); cbn; discriminate.
Qed.

End Refusals.

(** X9. A refused request changes nothing.  When a data endpoint answers 400
    or 503 it has sent no statement and the world is as it was; and when it
    answers with a refusal of the store, one of the schema's constraints,
    the store is as it was before the request. *)
Theorem refusal_changes_nothing (r : request) (w : world) :
  (In (status (fst (handle r w))) [400; 503] -> snd (handle r w) = w)
  /\ (forall e : pg_error,
        body (fst (handle r w)) = JError (ErrorMessage (PgError e)) ->
        status (fst (handle r w)) = 500 /\ db (snd (handle r w)) = db w).
Proof.
  destruct (pool w) eqn:Hp.
  - split.
    + intros [X|[X|[]]]; symmetry in X.
      * exact (only_patch_answers_400 w Hp r X).
      * exfalso. destruct (handle_outcome w Hp r) as [H|[H _]];
          rewrite X in H; destruct r; cbn in H; lia.
    + intros e X. assert (S := thrown_is_500 w Hp r _ X).
      split; [exact S|].
      destruct (handle_outcome w Hp r) as [H|[_ H]]; [exfalso|exact H].
      rewrite S in H. destruct r; cbn in H; lia.
  - rewrite (handle_no_pool r w Hp). cbn [fst snd body]. split.
    + reflexivity.
    + intros e X. discriminate.
Qed.

Lemma refusal_changes_nothing_witness :
  body (fst (handle (PatchEmployee "emp-17" unnamed) ann_hired))
    = JError (ErrorMessage (PgError (NotNullViolation "employees" "name")))
  /\ In (status (fst (handle (PatchEmployee "emp-17" no_fields) ann_hired)))
       [400; 503]
  /\ db (snd (handle (PatchEmployee "emp-17" unnamed) ann_hired)) = db ann_hired
  /\ snd (handle (PatchEmployee "emp-17" no_fields) ann_hired) = ann_hired.
Proof.
  split; [reflexivity|]. split; [vm_compute; tauto|]. split.
  - apply (proj2 (refusal_changes_nothing (PatchEmployee "emp-17" unnamed)
                    ann_hired) (NotNullViolation "employees" "name")).
    reflexivity.
  - apply (proj1 (refusal_changes_nothing (PatchEmployee "emp-17" no_fields)
                    ann_hired)).
    vm_compute; tauto.
Defined.

(** X10. The answers of each endpoint: 503 exactly when no store is
    configured; otherwise a list answers 200, a creation 201, a partial
    update 200, 400 or 404, a delete 200 or 404, the upsert 200 or 201, or
    any of them 500. *)
Theorem answers_by_endpoint (r : request) (w : world) :
  (status (fst (handle r w)) = 503 <-> pool w = false)
  /\ In (status (fst (handle r w))) (503 :: served r ++ refused r).
Proof.
  destruct (pool w) eqn:Hp.
  - assert (H : In (status (fst (handle r w))) (served r ++ refused r)).
    { destruct (handle_outcome w Hp r) as [H|[H _]];
        apply in_or_app; [left|right]; exact H. }
    split; [|now right].
    split; [|discriminate].
    intros X; exfalso. rewrite X in H.
    destruct r; cbn in H; lia.
  - rewrite (handle_no_pool r w Hp). cbn [fst status].
    split; [tauto | now left].
Qed.

(** X11. The probes answer 200 and leave the world alone, and what they
    report agrees with the data endpoints: [database] is ["connected"]
    exactly when a data endpoint would not answer 503. *)
Theorem probes_agree_with_endpoints (now : string) (r : request) (w : world) :
  health now w = ((200, Health "ok" now (database_label w)), w)
  /\ api_test now w = ((200, ApiTest "API is working" now (database_label w)), w)
  /\ (database_label w = "connected" <-> status (fst (handle r w)) <> 503)
  /\ (database_label w = "not connected" <-> status (fst (handle r w)) = 503).
Proof.
  split; [reflexivity|]. split; [reflexivity|].
  unfold database_label.
  destruct (pool w) eqn:Hp.
  - destruct (handle_outcome w Hp r) as [H|[H _]];
      (split; split; try discriminate; try reflexivity;
       [intros _ X | intros X; exfalso]; rewrite X in H;
       destruct r; cbn in H; lia).
  - rewrite (handle_no_pool r w Hp). cbn [fst status].
    split; split; try discriminate; try reflexivity; congruence.
Qed.

(** ** The constraints of the schema through the handlers *)

Section Kept.

Variable P : store -> Prop.

(** A statement keeps [P] when the store satisfies it after every successful
    run from a store that satisfies it. *)
Definition kept {A : Type} (run : store -> res (A * store)) : Prop :=
  forall s a s', P s -> run s = inr (a, s') -> P s'.

Hypothesis insert_employee_kept :
  forall id name email phone address department outlet,
    kept (Sql.insert_employee id name email phone address department outlet).
Hypothesis update_employee_kept :
  forall b id, kept (Sql.update_employee (sets (build b)) id).
Hypothesis delete_attendance_of_kept :
  forall id, kept (Sql.delete_attendance_of id).
Hypothesis delete_employee_kept :
  forall id, kept (Sql.delete_employee id).
Hypothesis insert_department_kept :
  forall id name description outlet,
    kept (Sql.insert_department id name description outlet).
Hypothesis delete_department_kept :
  forall id, kept (Sql.delete_department id).
Hypothesis update_status_kept :
  forall status employee_id date,
    kept (Sql.update_status status employee_id date).
Hypothesis insert_attendance_kept :
  forall id employee_id date status outlet,
    kept (Sql.insert_attendance id employee_id date status outlet).
Hypothesis delete_attendance_on_kept :
  forall employee_id date, kept (Sql.delete_attendance_on employee_id date).

Ltac reads :=
  apply preserves_pool_query;
  let s := fresh "s" in let a := fresh "a" in let s' := fresh "s'" in
  let H := fresh "H" in let E := fresh "E" in
  intros s a s' H E; inversion E; subst; exact H.

Ltac writes H := apply preserves_pool_query; apply H.

Lemma handle_keeps (r : request) (w : world) :
  P (db w) -> P (db (snd (handle r w))).
Proof.
  intros H. destruct r; cbn [handle].
  - unfold get_employees; apply (preserves_handler P); [|exact H].
    apply preserves_bind; [reads | intros; apply preserves_ret].
  - unfold post_employees; apply (preserves_handler P); [|exact H]. cbv zeta.
    apply preserves_bind;
      [writes insert_employee_kept | intros; apply preserves_ret].
  - unfold patch_employee; apply (preserves_handler P); [|exact H]. cbv zeta.
    destruct (Nat.eqb _ 0); [apply preserves_ret|].
    apply preserves_bind; [writes update_employee_kept|].
    intros rows; destruct (Nat.eqb _ 0); apply preserves_ret.
  - unfold delete_employee; apply (preserves_handler P); [|exact H].
    apply preserves_bind; [writes delete_attendance_of_kept | intros _].
    apply preserves_bind; [writes delete_employee_kept|].
    intros rows; destruct (Nat.eqb _ 0); apply preserves_ret.
  - unfold get_departments; apply (preserves_handler P); [|exact H].
    apply preserves_bind; [reads | intros; apply preserves_ret].
  - unfold post_departments; apply (preserves_handler P); [|exact H]. cbv zeta.
    apply preserves_bind;
      [writes insert_department_kept | intros; apply preserves_ret].
  - unfold delete_department; apply (preserves_handler P); [|exact H].
    apply preserves_bind; [writes delete_department_kept|].
    intros rows; destruct (Nat.eqb _ 0); apply preserves_ret.
  - unfold get_attendance; apply (preserves_handler P); [|exact H].
    apply preserves_bind; [reads | intros; apply preserves_ret].
  - unfold post_attendance; apply (preserves_handler P); [|exact H]. cbv zeta.
    apply preserves_bind; [reads | intros outlets].
    apply preserves_bind; [reads | intros existing].
    apply preserves_bind.
    + destruct (Nat.ltb 0 _);
        [writes update_status_kept | writes insert_attendance_kept].
    + intros [|row rows]; [apply preserves_throw | apply preserves_ret].
  - unfold delete_attendance; apply (preserves_handler P); [|exact H].
    apply preserves_bind; [writes delete_attendance_on_kept|].
    intros rows; destruct (Nat.eqb _ 0); apply preserves_ret.
Qed.

Lemma reachable_keeps (w : world) :
  P empty_store -> reachable w -> P (db w).
Proof.
  intros H0; induction 1 as [c|w r _ IH]; [exact H0 | now apply handle_keeps].
Qed.

End Kept.

(** The primary keys: no two rows of a table share an id. *)
Definition unique_keys (s : store) : Prop :=
  NoDup (map e_id (employees s))
  /\ NoDup (map d_id (departments s))
  /\ NoDup (map a_id (attendance s)).

(** The foreign key: an attendance row with an employee id belongs to an
    employee row. *)
Definition referenced (s : store) : Prop :=
  forall a e, In a (attendance s) -> a_employee_id a = Some e ->
    existsb (fun r => e_id r =? e) (employees s) = true.

Definition sound (s : store) : Prop := unique_keys s /\ referenced s.

Section Keys.

Context {A : Type} (key : A -> string).

Lemma unique_after_removal (p : A -> bool) (l : list A) :
  NoDup (map key l) -> NoDup (map key (filter p l)).
Proof.
  intros U. induction l as [|x l IH]; [exact U|].
  cbn [map] in U. apply NoDup_cons_iff in U. destruct U as [Hx U].
  cbn [filter]. destruct (p x); [|exact (IH U)].
  cbn [map]. apply NoDup_cons_iff. split; [|exact (IH U)].
  intros X. apply Hx. apply in_map_iff in X. destruct X as (y & Hy & Y).
  apply filter_In in Y. apply in_map_iff. exists y. tauto.
Qed.

Lemma unique_after_append (row : A) (l : list A) :
  NoDup (map key l) ->
  existsb (fun r => key r =? key row) l = false ->
  NoDup (map key (l ++ [row])).
Proof.
  intros U F. rewrite map_app. cbn [map].
  apply NoDup_app; [exact U | |].
  - apply NoDup_cons; [intros [] | apply NoDup_nil].
  - intros k Hk [<-|[]].
    apply in_map_iff in Hk. destruct Hk as (r & Hr & R).
    assert (X : existsb (fun r => key r =? key row) l = true).
    { apply existsb_exists. exists r. split; [exact R|].
      now apply String.eqb_eq. }
    congruence.
Qed.

Lemma existsb_by_keys (k : string) (l l' : list A) :
  map key l = map key l' ->
  existsb (fun r => key r =? k) l = existsb (fun r => key r =? k) l'.
Proof.
  revert l'. induction l as [|x l IH]; intros [|y l'] E; cbn in E;
    try discriminate; [reflexivity|].
  inversion E as [[E1 E2]]. cbn [existsb]. now rewrite E1, (IH l' E2).
Qed.

End Keys.

Section Sound.

Lemma sound_empty : sound empty_store.
Proof.
  repeat split; try apply NoDup_nil. intros a e [].
Qed.

Lemma insert_employee_sound id name email phone address department outlet :
  kept sound (Sql.insert_employee id name email phone address department outlet).
Proof.
  intros s rows s' [(U1 & U2 & U3) R] E.
  apply insert_employee_ok in E. destruct E as (row & _ & -> & F & _).
  split; [split; [|split]|]; unfold referenced; cbn [employees departments attendance set_employees].
  - now apply unique_after_append.
  - exact U2.
  - exact U3.
  - intros a e Ha He. rewrite existsb_app. now rewrite (R a e Ha He).
Qed.

Lemma update_employee_sound b id :
  kept sound (Sql.update_employee (sets (build b)) id).
Proof.
  intros s rows s' [(U1 & U2 & U3) R] E.
  apply update_employee_frame in E. destruct E as (D & T & I & _).
  split; [split; [|split]|].
  - now rewrite I.
  - now rewrite D.
  - now rewrite T.
  - intros a e Ha He. rewrite T in Ha.
    rewrite (existsb_by_keys e_id e _ _ I). exact (R a e Ha He).
Qed.

Lemma delete_attendance_of_sound id : kept sound (Sql.delete_attendance_of id).
Proof.
  intros s rows s' [(U1 & U2 & U3) R] E. inversion E; subst; clear E.
  split; [split; [|split]|]; unfold referenced; cbn [employees departments attendance set_attendance].
  - exact U1.
  - exact U2.
  - now apply unique_after_removal.
  - intros a e Ha He. apply filter_In in Ha. exact (R a e (proj1 Ha) He).
Qed.

Lemma delete_employee_sound id : kept sound (Sql.delete_employee id).
Proof.
  intros s rows s' [(U1 & U2 & U3) R] E. inversion E; subst; clear E.
  split; [split; [|split]|]; unfold referenced; cbn [employees departments attendance].
  - now apply unique_after_removal.
  - exact U2.
  - now apply unique_after_removal.
  - intros a e Ha He. apply filter_In in Ha. destruct Ha as [Ha Hkeep].
    specialize (R a e Ha He).
    apply existsb_exists in R. destruct R as (r & Hr & Hid).
    apply existsb_exists. exists r. split; [|exact Hid].
    apply filter_In. split; [exact Hr|].
    destruct (sql_eq (Some (e_id r)) id) eqn:Hdel;
      [exfalso | exact (f_equal negb Hdel)].
    apply negb_true_iff in Hkeep.
    assert (X : existsb (fun e0 => sql_eq (a_employee_id a) (Some (e_id e0)))
                  (filter (fun r => sql_eq (Some (e_id r)) id) (employees s)) = true).
    { apply existsb_exists. exists r. split; [apply filter_In; tauto|].
      rewrite He. cbn [sql_eq]. rewrite String.eqb_sym. exact Hid. }
    exact (eq_true_false_abs _ X Hkeep).
Qed.

Lemma insert_department_sound id name description outlet :
  kept sound (Sql.insert_department id name description outlet).
Proof.
  intros s rows s' [(U1 & U2 & U3) R] E.
  apply insert_department_ok in E. destruct E as (row & _ & -> & F & _).
  split; [split; [|split]|]; unfold referenced; cbn [employees departments attendance set_departments].
  - exact U1.
  - now apply unique_after_append.
  - exact U3.
  - exact R.
Qed.

Lemma delete_department_sound id : kept sound (Sql.delete_department id).
Proof.
  intros s rows s' [(U1 & U2 & U3) R] E. inversion E; subst; clear E.
  split; [split; [|split]|]; unfold referenced; cbn [employees departments attendance set_departments].
  - exact U1.
  - now apply unique_after_removal.
  - exact U3.
  - exact R.
Qed.

Lemma update_status_sound status employee_id date :
  kept sound (Sql.update_status status employee_id date).
Proof.
  intros s rows s' [(U1 & U2 & U3) R]. unfold Sql.update_status, res_bind.
  destruct (varchar 50 status) as [?|st1]; [discriminate|].
  destruct (existsb _ (attendance s));
    [|intros E; inversion E; subst; repeat split; assumption].
  destruct (not_null _ _ st1) as [?|st2]; [discriminate|].
  intros E; inversion E; subst; clear E.
  destruct (with_status_frame employee_id date st2 (attendance s))
    as (I1 & I2 & _).
  split; [split; [|split]|]; unfold referenced; cbn [employees departments attendance set_attendance].
  - exact U1.
  - exact U2.
  - now rewrite I1.
  - intros a e Ha He. apply in_map_iff in Ha. destruct Ha as (a0 & <- & Ha0).
    apply (R a0 e Ha0).
    destruct (Sql.on_day employee_id date a0); exact He.
Qed.

Lemma insert_attendance_sound id employee_id date status outlet :
  kept sound (Sql.insert_attendance id employee_id date status outlet).
Proof.
  intros s rows s' [(U1 & U2 & U3) R] E.
  apply insert_attendance_ok in E.
  destruct E as (row & _ & -> & F & _ & _ & _ & _ & _ & K).
  split; [split; [|split]|]; unfold referenced; cbn [employees departments attendance set_attendance].
  - exact U1.
  - exact U2.
  - now apply unique_after_append.
  - intros a e Ha He. apply in_app_or in Ha. destruct Ha as [Ha|[<-|[]]].
    + exact (R a e Ha He).
    + rewrite He in K. exact K.
Qed.

Lemma delete_attendance_on_sound employee_id date :
  kept sound (Sql.delete_attendance_on employee_id date).
Proof.
  intros s rows s' [(U1 & U2 & U3) R] E. inversion E; subst; clear E.
  split; [split; [|split]|]; unfold referenced; cbn [employees departments attendance set_attendance].
  - exact U1.
  - exact U2.
  - now apply unique_after_removal.
  - intros a e Ha He. apply filter_In in Ha. exact (R a e (proj1 Ha) He).
Qed.

Lemma reachable_sound (w : world) : reachable w -> sound (db w).
Proof.
  apply (reachable_keeps sound);
    [ exact insert_employee_sound | exact update_employee_sound
    | exact delete_attendance_of_sound | exact delete_employee_sound
    | exact insert_department_sound | exact delete_department_sound
    | exact update_status_sound | exact insert_attendance_sound
    | exact delete_attendance_on_sound | exact sound_empty ].
Qed.

End Sound.

(** X12. The constraints the schema declares hold in every store the server
    reaches from freshly created tables: ids are unique within each of the
    three tables, and every attendance row that carries an employee id
    refers to an employee row that exists. *)
Theorem schema_constraints_hold (w : world) :
  reachable w ->
  NoDup (map e_id (employees (db w)))
  /\ NoDup (map d_id (departments (db w)))
  /\ NoDup (map a_id (attendance (db w)))
  /\ forall a e, In a (attendance (db w)) -> a_employee_id a = Some e ->
       exists r, In r (employees (db w)) /\ e_id r = e.
Proof.
  intros H. destruct (reachable_sound w H) as [(U1 & U2 & U3) R].
  repeat split; try assumption.
  intros a e Ha He. specialize (R a e Ha He).
  apply existsb_exists in R. destruct R as (r & Hr & Hid).
  exists r. split; [exact Hr | now apply String.eqb_eq].
Qed.

Lemma reachable_ann_moved : reachable ann_moved.
Proof. apply reachable_serve. apply reachable_initial. Qed.

Lemma schema_constraints_hold_witness :
  reachable ann_moved
  /\ NoDup (map e_id (employees (db ann_moved)))
  /\ map a_employee_id (attendance (db ann_moved)) = [Some "emp-17"]
  /\ map e_id (employees (db ann_moved)) = ["emp-17"].
Proof.
  split; [exact reachable_ann_moved|].
  split; [|split; reflexivity].
  apply (schema_constraints_hold ann_moved reachable_ann_moved).
Defined.

(** ** Consequences in reachable stores *)

Lemma unreferenced_when_unknown (s : store) (id : string) :
  referenced s ->
  existsb (fun r => e_id r =? id) (employees s) = false ->
  existsb (fun a => sql_eq (a_employee_id a) (Some id)) (attendance s) = false.
Proof.
  intros R H.
  destruct (existsb (fun a => sql_eq (a_employee_id a) (Some id)) (attendance s))
    eqn:X; [exfalso|reflexivity].
  apply existsb_exists in X. destruct X as (a & Ha & Hid).
  apply sql_eq_true in Hid. destruct Hid as (x & Hx & Hy).
  inversion Hy; subst x.
  rewrite (R a id Ha Hx) in H. discriminate.
Qed.

(** X13. In a store the server has reached, deleting an employee id that no
    employee carries is answered 404 and changes nothing; an id that some
    employee carries is answered 200. *)
Theorem delete_unknown_employee (id : string) (w : world) :
  reachable w ->
  pool w = true ->
  (existsb (fun r => e_id r =? id) (employees (db w)) = false ->
     fst (delete_employee id w) = mkResponse 404 (JError (Text "Employee not found"))
     /\ db (snd (delete_employee id w)) = db w)
  /\ (existsb (fun r => e_id r =? id) (employees (db w)) = true ->
     fst (delete_employee id w) = mkResponse 200 JSuccess).
Proof.
  intros Hr Hp. rewrite (delete_employee_runs id w Hp). cbn [fst snd db sql_eq].
  split; intros H.
  - assert (U := unreferenced_when_unknown (db w) id
                   (proj2 (reachable_sound w Hr)) H).
    apply filter_nil_existsb in H. apply filter_nil_existsb in U.
    rewrite H. cbn [List.length Nat.eqb].
    rewrite (filter_none_keeps_all _ _ H), (filter_none_keeps_all _ _ U).
    split; [reflexivity | apply store_eta].
  - destruct (filter _ (employees (db w))) eqn:E; [|reflexivity].
    apply filter_nil_existsb in E. congruence.
Qed.

Lemma delete_unknown_employee_witness :
  reachable ann_moved
  /\ pool ann_moved = true
  /\ existsb (fun r => e_id r =? "emp-18") (employees (db ann_moved)) = false
  /\ fst (delete_employee "emp-18" ann_moved)
     = mkResponse 404 (JError (Text "Employee not found"))
  /\ db (snd (delete_employee "emp-18" ann_moved)) = db ann_moved.
Proof.
  split; [exact reachable_ann_moved|]. split; [reflexivity|].
  split; [reflexivity|].
  apply (delete_unknown_employee "emp-18" ann_moved reachable_ann_moved eq_refl).
  reflexivity.
Defined.

(** X14. In a store the server has reached, an upsert for an employee id
    that no employee carries is answered 500 and records nothing, whatever
    the date and the status. *)
Theorem upsert_needs_employee (e : string) (d st : jsval) (w : world) :
  reachable w ->
  pool w = true ->
  existsb (fun r => e_id r =? e) (employees (db w)) = false ->
  status (fst (post_attendance (mkAttendanceBody (JStr e) d st) w)) = 500
  /\ db (snd (post_attendance (mkAttendanceBody (JStr e) d st) w)) = db w.
Proof.
  intros Hr Hp Hu.
  assert (U := unreferenced_when_unknown (db w) e
                 (proj2 (reachable_sound w Hr)) Hu).
  rewrite (post_attendance_inserts (mkAttendanceBody (JStr e) d st) w Hp
             (unknown_has_no_row e d w U)).
  cbv zeta. rewrite (unknown_resolves_null e d st w Hu).
  cbn [ab_employeeId ab_date ab_status prepareValue].
  destruct (unknown_insert_fails e d st w Hu U) as (err & E).
  rewrite E. split; reflexivity.
Qed.

Lemma upsert_needs_employee_witness :
  reachable ann_moved
  /\ pool ann_moved = true
  /\ existsb (fun r => e_id r =? "emp-18") (employees (db ann_moved)) = false
  /\ status (fst (post_attendance
                    (mkAttendanceBody (JStr "emp-18") (JStr "2024-01-01")
                       (JStr "present")) ann_moved)) = 500
  /\ db (snd (post_attendance
                (mkAttendanceBody (JStr "emp-18") (JStr "2024-01-01")
                   (JStr "present")) ann_moved)) = db ann_moved.
Proof.
  split; [exact reachable_ann_moved|]. split; [reflexivity|].
  split; [reflexivity|].
  apply (upsert_needs_employee "emp-18" (JStr "2024-01-01") (JStr "present")
           ann_moved reachable_ann_moved); reflexivity.
Defined.

(** ** Generated ids *)

From Stdlib Require DecimalN.

Lemma decimal_injective (n m : N) : decimal n = decimal m -> n = m.
Proof.
  unfold decimal. intros H.
  apply (f_equal NilEmpty.uint_of_string) in H.
  rewrite !NilEmpty.usu in H. inversion H as [H'].
  now apply DecimalN.Unsigned.to_uint_inj.
Qed.

(** X15. Ids generated at different readings of the clock differ, for
    employees and for departments. *)
Theorem generated_ids_differ (n m : N) :
  n <> m ->
  employee_id n <> employee_id m /\ department_id n <> department_id m.
Proof.
  unfold employee_id, department_id. intros H.
  split; intros X; apply H; apply decimal_injective;
    cbn [append] in X; now inversion X.
Qed.

Lemma generated_ids_differ_witness :
  (17 <> 18)%N
  /\ employee_id 17 <> employee_id 18 /\ department_id 17 <> department_id 18.
Proof.
  split; [discriminate|].
  apply (generated_ids_differ 17 18). discriminate.
Defined.

(** X16. Two creations at the same reading of the clock collide: when a POST
    of an employee (or a department) was answered 201, a further one with
    the same [Date.now()] is answered 500, whatever its body, and stores
    nothing. *)
Theorem same_instant_collides (now : N) (w : world) :
  pool w = true ->
  (forall b b',
      status (fst (post_employees now b w)) = 201 ->
      let w1 := snd (post_employees now b w) in
      status (fst (post_employees now b' w1)) = 500
      /\ db (snd (post_employees now b' w1)) = db w1)
  /\ (forall b b',
      status (fst (post_departments now b w)) = 201 ->
      let w1 := snd (post_departments now b w) in
      status (fst (post_departments now b' w1)) = 500
      /\ db (snd (post_departments now b' w1)) = db w1).
Proof.
  intros Hp. split; intros b b'.
  - rewrite (post_employees_runs w Hp). cbv zeta.
    destruct (Sql.insert_employee _ _ _ _ _ _ _ _) as [e|[rows s]] eqn:E;
      [cbn; discriminate|]. intros _. cbn [snd].
    rewrite post_employees_runs by reflexivity. cbv zeta. cbn [db sent].
    apply insert_employee_ok in E.
    destruct E as (row & _ & -> & _ & Hid & _).
    destruct (Sql.insert_employee _ _ _ _ _ _ _ _) as [e|[rows' s']] eqn:E';
      [split; reflexivity | exfalso].
    apply insert_employee_ok in E'.
    destruct E' as (row' & _ & _ & Hfree & Hid' & _).
    rewrite Hid in Hid'. inversion Hid' as [Hsame].
    cbn [employees set_employees] in Hfree.
    rewrite existsb_app in Hfree. cbn [existsb] in Hfree.
    rewrite Hsame, String.eqb_refl in Hfree.
    rewrite orb_true_r in Hfree. discriminate.
  - rewrite (post_departments_runs w Hp). cbv zeta.
    destruct (Sql.insert_department _ _ _ _ _) as [e|[rows s]] eqn:E;
      [cbn; discriminate|]. intros _. cbn [snd].
    rewrite post_departments_runs by reflexivity. cbv zeta. cbn [db sent].
    apply insert_department_ok in E.
    destruct E as (row & _ & -> & _ & Hid & _).
    destruct (Sql.insert_department _ _ _ _ _) as [e|[rows' s']] eqn:E';
      [split; reflexivity | exfalso].
    apply insert_department_ok in E'.
    destruct E' as (row' & _ & _ & Hfree & Hid' & _).
    rewrite Hid in Hid'. inversion Hid' as [Hsame].
    cbn [departments set_departments] in Hfree.
    rewrite existsb_app in Hfree. cbn [existsb] in Hfree.
    rewrite Hsame, String.eqb_refl in Hfree.
    rewrite orb_true_r in Hfree. discriminate.
Qed.

Lemma same_instant_collides_witness :
  pool (initial true) = true
  /\ status (fst (post_employees 17 only_name (initial true))) = 201
  /\ status (fst (post_employees 17 moves_south
                    (snd (post_employees 17 only_name (initial true))))) = 500.
Proof.
  split; [reflexivity|]. split; [reflexivity|].
  apply (proj1 (same_instant_collides 17 (initial true) eq_refl)
           only_name moves_south).
  reflexivity.
Defined.

(** ** Round trips *)

(** X17. Upsert, then list.  When the upsert answers 201, the row it answers
    with is the one appended to the table, [GET /api/attendance] served next
    lists the former rows followed by it, and it is the only row under its
    id. *)
Theorem upsert_then_list (b : attendance_body) (w : world) :
  pool w = true ->
  status (fst (post_attendance b w)) = 201 ->
  let w' := snd (post_attendance b w) in
  exists row,
    fst (post_attendance b w) = mkResponse 201 (JAttendance (to_json row))
    /\ attendance (db w') = attendance (db w) ++ [row]
    /\ fst (get_attendance w')
       = mkResponse 200
           (JAttendances (map to_json (attendance (db w)) ++ [to_json row]))
    /\ filter (fun r => a_id r =? a_id row) (attendance (db w')) = [row].
Proof.
  intros Hp. intros Hs w'; subst w'. revert Hs.
  destruct (filter (Sql.on_day (prepareValue (ab_employeeId b))
                      (prepareValue (ab_date b))) (attendance (db w)))
    as [|r0 rest] eqn:E.
  - rewrite (post_attendance_inserts b w Hp E). cbv zeta.
    destruct (Sql.insert_attendance _ _ _ _ _ _) as [e|[[|r rows] s]] eqn:I;
      try (cbn; discriminate).
    intros _. apply insert_attendance_ok in I.
    destruct I as (row & X & -> & F & _). inversion X; subst; clear X.
    exists row. cbn [fst snd db attendance set_attendance].
    split; [reflexivity|]. split; [reflexivity|].
    split; [|now apply appended_once].
    rewrite get_attendance_runs by reflexivity.
    cbn [fst db attendance set_attendance]. now rewrite map_app.
  - assert (Hsome : filter (Sql.on_day (prepareValue (ab_employeeId b))
                              (prepareValue (ab_date b))) (attendance (db w)) <> [])
      by (rewrite E; discriminate).
    rewrite (post_attendance_updates b w Hp Hsome). cbv zeta.
    destruct (Sql.update_status _ _ _ _) as [e|[[|r rows] s]];
      cbn; discriminate.
Qed.

Lemma upsert_then_list_witness :
  pool ann_hired = true
  /\ status (fst (post_attendance ann_is_present ann_hired)) = 201
  /\ exists row,
       fst (post_attendance ann_is_present ann_hired)
         = mkResponse 201 (JAttendance (to_json row))
       /\ attendance (db ann_once) = attendance (db ann_hired) ++ [row]
       /\ fst (get_attendance ann_once)
          = mkResponse 200
              (JAttendances (map to_json (attendance (db ann_hired))
                             ++ [to_json row]))
       /\ filter (fun r => a_id r =? a_id row) (attendance (db ann_once)) = [row].
Proof.
  split; [reflexivity|]. split; [reflexivity|].
  apply (upsert_then_list ann_is_present ann_hired); reflexivity.
Defined.

(** X18. Create, then delete.  In a store the server has reached, deleting
    the employee a POST has just created (answered 201) is answered 200 and
    gives back the store as it was before the POST. *)
Theorem create_then_delete (now : N) (b : employee_body) (w : world) :
  reachable w ->
  pool w = true ->
  status (fst (post_employees now b w)) = 201 ->
  let w1 := snd (post_employees now b w) in
  exists row,
    body (fst (post_employees now b w)) = JEmployee (Some row)
    /\ fst (delete_employee (e_id row) w1) = mkResponse 200 JSuccess
    /\ db (snd (delete_employee (e_id row) w1)) = db w.
Proof.
  intros Hr Hp. rewrite (post_employees_runs w Hp). cbv zeta.
  destruct (Sql.insert_employee _ _ _ _ _ _ _ _) as [e|[rows s]] eqn:E;
    [cbn; discriminate|]. intros _.
  apply insert_employee_ok in E. destruct E as (row & -> & -> & F & _).
  exists row. cbn [fst snd body hd_error]. split; [reflexivity|].
  rewrite delete_employee_runs by reflexivity.
  cbn [fst snd db employees departments attendance set_employees sql_eq].
  rewrite !filter_app. cbn [filter]. rewrite String.eqb_refl. cbn [negb].
  assert (U := unreferenced_when_unknown (db w) (e_id row)
                 (proj2 (reachable_sound w Hr)) F).
  apply filter_nil_existsb in F. apply filter_nil_existsb in U.
  rewrite F, (filter_none_keeps_all _ _ F), (filter_none_keeps_all _ _ U).
  rewrite app_nil_r. cbn [app List.length Nat.eqb].
  split; [reflexivity | apply store_eta].
Qed.

Lemma create_then_delete_witness :
  reachable (initial true)
  /\ pool (initial true) = true
  /\ status (fst (post_employees 17 only_name (initial true))) = 201
  /\ exists row,
       body (fst (post_employees 17 only_name (initial true)))
         = JEmployee (Some row)
       /\ fst (delete_employee (e_id row)
                 (snd (post_employees 17 only_name (initial true))))
          = mkResponse 200 JSuccess
       /\ db (snd (delete_employee (e_id row)
                     (snd (post_employees 17 only_name (initial true)))))
          = db (initial true).
Proof.
  split; [apply reachable_initial|]. split; [reflexivity|].
  split; [reflexivity|].
  apply (create_then_delete 17 only_name (initial true));
    [apply reachable_initial | reflexivity | reflexivity].
Defined.

(** X19. Upsert, then delete.  Under the conditions of a first upsert that
    inserts (the employee exists, no row for the pair, the synthesized id
    free, the values within the column widths), deleting the pair afterwards
    is answered 200 and gives back the store as it was before the upsert. *)
Theorem upsert_then_delete (e d st : string) (w : world) :
  pool w = true ->
  existsb (fun r => e_id r =? e) (employees (db w)) = true ->
  filter (Sql.on_day (Some e) (Some d)) (attendance (db w)) = [] ->
  existsb (fun r => a_id r =? (e ++ "-" ++ d)%string) (attendance (db w)) = false ->
  outlets_fit (db w) = true ->
  String.length (e ++ "-" ++ d)%string <= 255 ->
  String.length st <= 50 ->
  let w1 := snd (post_attendance (mkAttendanceBody (JStr e) (JStr d) (JStr st)) w) in
  status (fst (post_attendance (mkAttendanceBody (JStr e) (JStr d) (JStr st)) w))
    = 201
  /\ fst (delete_attendance e d w1) = mkResponse 200 JSuccess
  /\ db (snd (delete_attendance e d w1)) = db w.
Proof.
  intros Hp Hh Hf Hk Ho Hkl Hsl w1; subst w1.
  rewrite (first_upsert e d st w Hp Hh Hf Hk Ho Hkl Hsl).
  cbn [fst snd status]. split; [reflexivity|].
  rewrite delete_attendance_runs by reflexivity. cbv zeta.
  cbn [fst snd db employees departments attendance set_attendance].
  rewrite !filter_app. rewrite Hf, (filter_none_keeps_all _ _ Hf).
  cbn [filter]. unfold Sql.on_day at 1 2. cbn [a_employee_id a_date sql_eq].
  rewrite !String.eqb_refl. cbn [andb negb app List.length Nat.eqb].
  rewrite app_nil_r. split; [reflexivity|].
  unfold set_attendance; cbn [employees departments]. apply store_eta.
Qed.

Lemma upsert_then_delete_witness :
  pool ann_hired = true
  /\ existsb (fun r => e_id r =? "emp-17") (employees (db ann_hired)) = true
  /\ filter (Sql.on_day (Some "emp-17") (Some "2024-01-01"))
       (attendance (db ann_hired)) = []
  /\ existsb (fun r => a_id r =? "emp-17-2024-01-01")
       (attendance (db ann_hired)) = false
  /\ outlets_fit (db ann_hired) = true
  /\ String.length "emp-17-2024-01-01" <= 255
  /\ String.length "present" <= 50
  /\ fst (delete_attendance "emp-17" "2024-01-01" ann_once) = mkResponse 200 JSuccess
  /\ db (snd (delete_attendance "emp-17" "2024-01-01" ann_once)) = db ann_hired.
Proof.
  split; [reflexivity|]. split; [reflexivity|]. split; [reflexivity|].
  split; [reflexivity|]. split; [reflexivity|].
  split; [simpl; lia|]. split; [simpl; lia|].
  apply (upsert_then_delete "emp-17" "2024-01-01" "present" ann_hired);
    try reflexivity; simpl; lia.
Defined.

(** ** Upserts with fields missing *)

Section Missing.

Lemma no_row_for_null_employee (date : sqlval) (l : list attendance_row) :
  filter (Sql.on_day None date) l = [].
Proof.
  apply filter_nil_existsb.
  induction l as [|r l IH]; [reflexivity|]. cbn [existsb].
  rewrite IH. unfold Sql.on_day.
  destruct (a_employee_id r); reflexivity.
Qed.

Lemma no_row_for_null_date (employee_id : sqlval) (l : list attendance_row) :
  filter (Sql.on_day employee_id None) l = [].
Proof.
  apply filter_nil_existsb.
  induction l as [|r l IH]; [reflexivity|]. cbn [existsb].
  rewrite IH. unfold Sql.on_day. cbn [sql_eq]. now rewrite andb_false_r.
Qed.

End Missing.

(** X20. An upsert whose [employeeId] is absent or null never finds a row to
    update, so it is never answered 200.  When it is answered 201 the row
    recorded has a NULL employee id; repeating the request is then answered
    500 and records nothing: without an employee id the upsert is not
    idempotent. *)
Theorem upsert_without_employee (b : attendance_body) (w : world) :
  pool w = true ->
  prepareValue (ab_employeeId b) = None ->
  let w1 := snd (post_attendance b w) in
  status (fst (post_attendance b w)) <> 200
  /\ (status (fst (post_attendance b w)) = 201 ->
      (exists row, attendance (db w1) = attendance (db w) ++ [row]
                   /\ a_employee_id row = None)
      /\ status (fst (post_attendance b w1)) = 500
      /\ db (snd (post_attendance b w1)) = db w1).
Proof.
  intros Hp Hn w1; subst w1.
  assert (E : forall l, filter (Sql.on_day (prepareValue (ab_employeeId b))
                                  (prepareValue (ab_date b))) l = [])
    by (intros l; rewrite Hn; apply no_row_for_null_employee).
  rewrite (post_attendance_inserts b w Hp (E _)). cbv zeta.
  destruct (Sql.insert_attendance _ _ _ _ _ _) as [e|[[|r rows] s]] eqn:I;
    cbn [fst snd status]; try (split; [discriminate|discriminate]).
  split; [discriminate|]. intros _.
  apply insert_attendance_ok in I.
  destruct I as (row & X & -> & F & Hid & He & _).
  inversion X; subst; clear X.
  rewrite Hn in He. apply varchar_null in He.
  split; [exists row; split; [reflexivity | exact He]|].
  rewrite post_attendance_inserts by (reflexivity || apply E). cbv zeta.
  cbn [db].
  destruct (Sql.insert_attendance _ _ _ _ _ (set_attendance _ _))
    as [e|[rows' s']] eqn:I'.
  - split; reflexivity.
  - exfalso. apply insert_attendance_ok in I'.
    destruct I' as (row' & _ & _ & F' & Hid' & _).
    rewrite Hid in Hid'. inversion Hid' as [Hsame].
    cbn [attendance set_attendance] in F'.
    rewrite existsb_app in F'. cbn [existsb] in F'.
    rewrite Hsame, String.eqb_refl in F'.
    rewrite orb_true_r in F'. discriminate.
Qed.

(** The body [{ date: "2024-01-01", status: "present" }]. *)
Definition nobody_present : attendance_body :=
  mkAttendanceBody JUndefined (JStr "2024-01-01") (JStr "present").

Lemma upsert_without_employee_witness :
  pool (initial true) = true
  /\ prepareValue (ab_employeeId nobody_present) = None
  /\ status (fst (post_attendance nobody_present (initial true))) = 201
  /\ map a_id (attendance (db (snd (post_attendance nobody_present (initial true)))))
     = ["undefined-2024-01-01"]
  /\ status (fst (post_attendance nobody_present
                    (snd (post_attendance nobody_present (initial true))))) = 500.
Proof.
  split; [reflexivity|]. split; [reflexivity|]. split; [reflexivity|].
  split; [reflexivity|].
  apply (upsert_without_employee nobody_present (initial true));
    reflexivity.
Defined.

(** X21. An upsert whose [date] or [status] is absent or null is answered 500
    and changes nothing, whether or not a row exists for the pair. *)
Theorem upsert_incomplete (b : attendance_body) (w : world) :
  pool w = true ->
  prepareValue (ab_date b) = None \/ prepareValue (ab_status b) = None ->
  status (fst (post_attendance b w)) = 500
  /\ db (snd (post_attendance b w)) = db w.
Proof.
  intros Hp Hm.
  destruct (filter (Sql.on_day (prepareValue (ab_employeeId b))
                      (prepareValue (ab_date b))) (attendance (db w)))
    as [|r0 rest] eqn:E.
  - rewrite (post_attendance_inserts b w Hp E). cbv zeta.
    destruct (Sql.insert_attendance _ _ _ _ _ _) as [e|[rows s]] eqn:I;
      [split; reflexivity | exfalso].
    apply insert_attendance_ok in I.
    destruct I as (row & _ & _ & _ & _ & _ & Hd & Hs & _).
    destruct Hm as [Hm|Hm]; rewrite Hm in *;
      [apply varchar_null in Hd | apply varchar_null in Hs]; discriminate.
  - assert (Hsome : filter (Sql.on_day (prepareValue (ab_employeeId b))
                              (prepareValue (ab_date b))) (attendance (db w)) <> [])
      by (rewrite E; discriminate).
    destruct Hm as [Hm|Hm].
    + rewrite Hm, no_row_for_null_date in E. discriminate.
    + rewrite (post_attendance_updates b w Hp Hsome). cbv zeta.
      unfold Sql.update_status, res_bind.
      rewrite Hm. cbn [varchar].
      destruct (existsb _ (attendance (db w))) eqn:X;
        [|apply filter_nil_existsb in X; contradiction].
      cbn. split; reflexivity.
Qed.

(** The body [{ employeeId: "emp-17", date: "2024-01-01" }]. *)
Definition no_status : attendance_body :=
  mkAttendanceBody (JStr "emp-17") (JStr "2024-01-01") JUndefined.

Lemma upsert_incomplete_witness :
  pool ann_moved = true
  /\ (prepareValue (ab_date no_status) = None
      \/ prepareValue (ab_status no_status) = None)
  /\ status (fst (post_attendance no_status ann_moved)) = 500
  /\ db (snd (post_attendance no_status ann_moved)) = db ann_moved.
Proof.
  split; [reflexivity|]. split; [right; reflexivity|].
  apply (upsert_incomplete no_status ann_moved); [reflexivity|].
  right; reflexivity.
Defined.

(** ** The frontend entry document

    At startup the server looks at the [dist] directory next to it, and the
    last route, [GET *], sends [dist/index.html].  What is at [distPath] is
    nothing, something that is not a directory, or a directory of regular
    files by name.  The calls that write may fail; [existsSync] does not. *)

Inductive entry : Type :=
| Missing
| NotDirectory
| Directory (files : list (string * string)).

Fixpoint lookup_file (name : string) (files : list (string * string)) : option string :=
  match files with
  | [] => None
  | (n, content) :: rest => if n =? name then Some content else lookup_file name rest
  end.

(** [dist/index.html], when [fs.existsSync] finds it. *)
Definition index_html (d : entry) : option string :=
  match d with
  | Directory files => lookup_file "index.html" files
  | _ => None
  end.

Definition tempHtml : string :=
  "<html><body><h1>Build Error</h1><p>The application build process may have failed. Please check the Heroku logs for more information.</p></body></html>".

(** The startup check of [dist]; [production] is
    [process.env.NODE_ENV === 'production'], [mkdir_ok] and [write_ok] tell
    whether [mkdirSync] and [writeFileSync] succeed (a failure is caught and
    logged, and ends the check). *)
Definition check_dist (production mkdir_ok write_ok : bool) (d : entry) : entry :=
  match d with
  | Missing =>
      if mkdir_ok then
        if production then
          if write_ok then Directory [("index.html", tempHtml)] else Directory []
        else Directory []
      else Missing
  | _ => d
  end.

Inductive page : Type :=
| SendFile (content : string)
| ApplicationError.

(** [GET *] *)
Definition fallback (d : entry) : nat * page :=
  match index_html d with
  | Some content => (200, SendFile content)
  | None => (404, ApplicationError)
  end.

(** X22. The fallback route after startup.  An [index.html] that was there
    is served as it was: startup never touches an existing [dist].  In
    production, a missing [dist] that startup manages to create and fill is
    served as the temporary "Build Error" page.  In every other case the
    fallback answers 404 with the "Application Error" page. *)
Theorem fallback_after_startup (production mkdir_ok write_ok : bool) (d : entry) :
  let d' := check_dist production mkdir_ok write_ok d in
  (d <> Missing -> d' = d)
  /\ (forall content, index_html d = Some content ->
        fallback d' = (200, SendFile content))
  /\ (d = Missing -> production = true -> mkdir_ok = true -> write_ok = true ->
        fallback d' = (200, SendFile tempHtml))
  /\ (index_html d = None ->
      d <> Missing \/ production = false \/ mkdir_ok = false \/ write_ok = false ->
        fallback d' = (404, ApplicationError)).
Proof.
  intros d'; subst d'. split; [|split; [|split]].
  - destruct d; [congruence | reflexivity | reflexivity].
  - intros content H. destruct d; try discriminate.
    unfold fallback; cbn [check_dist]. now rewrite H.
  - intros -> -> -> ->. reflexivity.
  - intros H [X | [-> | [-> | ->]]].
    + destruct d; [congruence | reflexivity |].
      unfold fallback; cbn [check_dist]. now rewrite H.
    + destruct d; [destruct mkdir_ok; reflexivity | reflexivity |].
      unfold fallback; cbn [check_dist]. now rewrite H.
    + destruct d; [reflexivity | reflexivity |].
      unfold fallback; cbn [check_dist]. now rewrite H.
    + destruct d; [destruct mkdir_ok, production; reflexivity | reflexivity |].
      unfold fallback; cbn [check_dist]. now rewrite H.
Qed.

Lemma fallback_after_startup_witness :
  fallback (check_dist true true true Missing) = (200, SendFile tempHtml)
  /\ fallback (check_dist false true true Missing) = (404, ApplicationError).
Proof.
  split.
  - apply (fallback_after_startup true true true Missing); reflexivity.
  - apply (fallback_after_startup false true true Missing);
      [reflexivity | right; left; reflexivity].
Defined.
